(** * BIST trading system: the incremental batch acquisition pipeline

    A shallow embedding of [data_downloader.py] (class [BISTDataDownloader]),
    [download_all_tickers.py] and the inventory part of [check_progress.py],
    with the properties of the pipeline stated over it.

    Conventions of the embedding:
    - a Python [str] is a [string]; a Python [set] of strings is a
      [gset string]; the insertion-ordered [dict] returned by
      [download_multiple_tickers] is an association list ([Dict]);
    - a pandas [DataFrame] is a record: the index, the numeric columns in
      order, and the string-valued ['Ticker'] tag column the downloader adds;
      a numeric cell is [Some q] or [None] (NaN / null);
    - the provider ([yfinance]), the disk and the logger are effects: the code
      runs in a state-and-exception monad over a [World] that holds the
      directories of the working directory and the trace of events; what the
      provider answers and whether a write succeeds is chosen by an
      environment [Env];
    - a log record goes to the two handlers installed by [setup_logging], the
      console and the file [logs/download.log]; both sinks are kept as the
      [EvLog] events of the trace, and [fs] does not follow the content of
      that one file: an equation between two [fs] says nothing about it, and
      the statements that go through the files of the disk one by one leave
      [logs/download.log] out. *)

From Stdlib Require Import Ascii String QArith Qminmax.
From stdpp Require Import base strings list gmap.

Local Open Scope string_scope.
Local Open Scope list_scope.

(** ** Python string operations used by the code *)

Module PyStr.

(** [s.endswith(suffix)] *)
Fixpoint endswith (s suffix : string) : bool :=
  if String.eqb s suffix then true
  else match s with
       | EmptyString => false
       | String _ s' => endswith s' suffix
       end.

(** [s.split('_')[0]]: the text before the first underscore, the whole
    string when there is none. *)
Fixpoint split_underscore_0 (s : string) : string :=
  match s with
  | EmptyString => EmptyString
  | String c s' =>
      if Ascii.eqb c "_"%char then EmptyString
      else String c (split_underscore_0 s')
  end.

(** [s.replace('.IS', '')]: every occurrence, left to right, not
    overlapping. *)
Fixpoint replace_IS (s : string) : string :=
  match s with
  | String "."%char (String "I"%char (String "S"%char rest)) => replace_IS rest
  | String c rest => String c (replace_IS rest)
  | EmptyString => EmptyString
  end.

(** [s.count('_')] *)
Fixpoint count_underscore (s : string) : nat :=
  match s with
  | EmptyString => 0
  | String c s' =>
      (if Ascii.eqb c "_"%char then 1 else 0) + count_underscore s'
  end.

End PyStr.

(** ** Data model *)

(** A pandas [DataFrame] as the pipeline uses it. [index] holds the
    timestamps (as day numbers), [columns] the numeric columns in order by
    name, each a list of cells where [None] is NaN, and [ticker_column] the
    constant string column set by [data['Ticker'] = ticker]. *)
Record DataFrame := mkDataFrame {
  index : list Z;
  columns : list (string * list (option Q));
  ticker_column : option string
}.

(** One row of the summary report ([generate_summary_report]). *)
Record SummaryRow := mkSummaryRow {
  Ticker : string;
  Records : nat;
  Start_Date : Z;
  End_Date : Z;
  Min_Close : option Q;
  Max_Close : option Q;
  Avg_Volume : option Q;
  Data_Quality : string
}.

(** What a CSV file on disk holds. *)
Inductive File :=
| CsvTable (data : DataFrame)
| CsvSummary (rows : list SummaryRow).

(** The insertion-ordered dict [results] of [download_multiple_tickers]. *)
Definition Dict := list (string * DataFrame).

Module Frame.

(** [len(data.columns)] *)
Definition ncols (data : DataFrame) : nat :=
  length (columns data)
  + match ticker_column data with Some _ => 1 | None => 0 end.

(** [data.empty]: some axis has length 0. *)
Definition empty (data : DataFrame) : bool :=
  (length (index data) =? 0)%nat || (ncols data =? 0)%nat.

(** [col in data.columns], for the numeric columns. *)
Definition has_column (col : string) (data : DataFrame) : bool :=
  existsb (fun c => String.eqb (fst c) col) (columns data).

(** The cells of [data[col]], when the column is there. *)
Fixpoint lookup_column (col : string) (cols : list (string * list (option Q)))
  : option (list (option Q)) :=
  match cols with
  | [] => None
  | (name, cells) :: rest =>
      if String.eqb name col then Some cells else lookup_column col rest
  end.

(** [data['Ticker'] = ticker] *)
Definition set_Ticker (data : DataFrame) (ticker : string) : DataFrame :=
  {| index := index data; columns := columns data;
     ticker_column := Some ticker |}.

(** [len(data)] *)
Definition len (data : DataFrame) : nat := length (index data).

(** The first [k] rows of a table: what a write interrupted after [k] rows
    leaves in the file. *)
Definition take_rows (k : nat) (data : DataFrame) : DataFrame :=
  {| index := take k (index data);
     columns := map (fun c => (fst c, take k (snd c))) (columns data);
     ticker_column := ticker_column data |}.

(** [(series <= 0).any()]: NaN compares false. *)
Definition any_le_0 (cells : list (option Q)) : bool :=
  existsb (fun c => match c with
                    | Some q => Qle_bool q 0
                    | None => false
                    end) cells.

(** [cell.isnull()] *)
Definition isnull (cell : option Q) : bool :=
  match cell with Some _ => false | None => true end.

(** [data.isnull().sum().sum()] *)
Definition isnull_sum_sum (data : DataFrame) : nat :=
  list_sum (map (fun c => length (List.filter isnull (snd c))) (columns data)).

(** [data.index.min()] and [data.index.max()] of a non-empty index. *)
Definition index_min (ix : list Z) : Z := fold_right Z.min (hd 0%Z ix) ix.
Definition index_max (ix : list Z) : Z := fold_right Z.max (hd 0%Z ix) ix.

(** The non-null values of a series. *)
Definition dropna (cells : list (option Q)) : list Q := omap id cells.

(** [series.min()], [series.max()], [series.mean()]: nulls are skipped, the
    result is NaN when nothing is left. The mean is the exact rational mean. *)
Definition series_min (cells : list (option Q)) : option Q :=
  match dropna cells with
  | [] => None
  | q :: qs => Some (fold_right Qmin q qs)
  end.

Definition series_max (cells : list (option Q)) : option Q :=
  match dropna cells with
  | [] => None
  | q :: qs => Some (fold_right Qmax q qs)
  end.

Definition series_mean (cells : list (option Q)) : option Q :=
  match dropna cells with
  | [] => None
  | q :: qs => Some (Qdiv (fold_right Qplus 0%Q (q :: qs))
                          (inject_Z (Z.of_nat (length (q :: qs)))))
  end.

End Frame.

Module PyDict.

(** [key in d] and [d[key]] *)
Fixpoint get (d : Dict) (key : string) : option DataFrame :=
  match d with
  | [] => None
  | (k, v) :: rest => if String.eqb k key then Some v else get rest key
  end.

(** [d[key] = value]: a present key keeps its place, a new one goes last. *)
Fixpoint set (d : Dict) (key : string) (value : DataFrame) : Dict :=
  match d with
  | [] => [(key, value)]
  | (k, v) :: rest =>
      if String.eqb k key then (k, value) :: rest
      else (k, v) :: set rest key value
  end.

Definition keys (d : Dict) : list string := map fst d.

End PyDict.

(** ** Effects: the world, the environment, the monad *)

(** Python exceptions the code can meet. *)
Inductive Exc :=
| ProviderError          (* anything raised inside yfinance *)
| OSError                (* a failed open, write or listdir *)
| ValueError             (* time.sleep of a negative length *)
| KeyError (key : string).

Inductive Level := INFO | WARNING | ERROR.

(** The log records of [data_downloader.py], one constructor per format
    string. *)
Inductive LogMsg :=
| MsgDownloading (ticker : string)
| MsgNoData (ticker : string)
| MsgDownloaded (records : nat) (ticker : string)
| MsgSaved (dir name : string)
| MsgDownloadError (ticker : string) (e : Exc)
| MsgProcessing (i n : nat) (ticker : string)
| MsgDataEmpty (ticker : string)
| MsgMissingColumns (ticker : string) (missing_columns : list string)
| MsgInvalidClose (ticker : string)
| MsgMissingValues (missing_count : nat) (ticker : string)
| MsgValidationPassed (ticker : string)
| MsgSummarySaved (dir name : string).

(** What the run does to the outside, in order. *)
Inductive Event :=
| EvHistory (ticker period interval : string)
| EvToCsv (dir name : string)
| EvSleep (delay : Q)
| EvLog (level : Level) (msg : LogMsg).

(** [fs] maps each existing directory of the working directory to its files
    by name. *)
Record World := mkWorld {
  fs : gmap string (gmap string File);
  trace : list Event
}.

(** The fate of one [to_csv]: the file is written, or the call raises,
    before the file is opened ([rows_written = None]) or after the file was
    opened under its name and [k] rows were written. *)
Inductive WriteOutcome :=
| WriteOk
| WriteFails (rows_written : option nat).

(** What the environment decides. [history n] is the answer of the provider
    to the [n]-th call of [Ticker.history] of the run, [disk n] the fate of
    the [n]-th [to_csv], [now] the formatted [datetime.now()] at report
    time. *)
Record Env := mkEnv {
  history : nat -> string -> string -> string -> Exc + DataFrame;
  disk : nat -> string -> string -> WriteOutcome;
  now : string
}.

Inductive Result (A : Type) :=
| Return (a : A)
| Raise (e : Exc).
Arguments Return {A} a.
Arguments Raise {A} e.

(** A computation: it reads and changes the world, and returns or raises.
    The world changed so far survives a raise, as in Python. *)
Definition M (A : Type) : Type := World -> Result A * World.

#[global] Instance M_ret : MRet M := fun A a w => (Return a, w).

#[global] Instance M_bind : MBind M := fun A B f m w =>
  match m w with
  | (Return a, w') => f a w'
  | (Raise e, w') => (Raise e, w')
  end.

(** [try: body except Exception as e: handler(e)] *)
Definition try_except {A} (body : M A) (handler : Exc -> M A) : M A :=
  fun w =>
    match body w with
    | (Return a, w') => (Return a, w')
    | (Raise e, w') => handler e w'
    end.

Definition raise {A} (e : Exc) : M A := fun w => (Raise e, w).

Definition emit (ev : Event) : M unit :=
  fun w => (Return tt, {| fs := fs w; trace := trace w ++ [ev] |}).

(** The tickers of the provider calls of a trace, in order. *)
Definition fetch_calls (tr : list Event) : list string :=
  omap (fun ev => match ev with
                  | EvHistory ticker _ _ => Some ticker
                  | _ => None
                  end) tr.

(** The [to_csv] calls of a trace, in order. *)
Definition write_calls (tr : list Event) : list (string * string) :=
  omap (fun ev => match ev with
                  | EvToCsv dir name => Some (dir, name)
                  | _ => None
                  end) tr.

Definition truncate_file (k : nat) (f : File) : File :=
  match f with
  | CsvTable data => CsvTable (Frame.take_rows k data)
  | CsvSummary rows => CsvSummary (take k rows)
  end.

Section Operations.

Variable env : Env.

(** [logger.info], [logger.warning] and [logger.error]: the record is handed
    to the handlers of [setup_logging], which print it and append it to
    [logs/download.log]. The record is kept in the trace; the content of the
    log file is the sequence of the [EvLog] events and is not held in [fs]. *)
Definition logger_info (msg : LogMsg) : M unit := emit (EvLog INFO msg).
Definition logger_warning (msg : LogMsg) : M unit := emit (EvLog WARNING msg).
Definition logger_error (msg : LogMsg) : M unit := emit (EvLog ERROR msg).

(** [yf.Ticker(ticker).history(period=period, interval=interval)] *)
Definition Ticker_history (ticker period interval : string) : M DataFrame :=
  fun w =>
    let n := length (fetch_calls (trace w)) in
    let w' := {| fs := fs w;
                 trace := trace w ++ [EvHistory ticker period interval] |} in
    match history env n ticker period interval with
    | inl e => (Raise e, w')
    | inr data => (Return data, w')
    end.

(** [os.path.exists(dir)] *)
Definition os_path_exists (dir : string) : M bool :=
  fun w => (Return (bool_decide (is_Some (fs w !! dir))), w).

(** [os.listdir(dir)] *)
Definition os_listdir (dir : string) : M (list string) :=
  fun w =>
    match fs w !! dir with
    | Some files => (Return (elements (dom files)), w)
    | None => (Raise OSError, w)
    end.

(** [os.makedirs(dir, exist_ok=True)] *)
Definition os_makedirs (dir : string) : M unit :=
  fun w =>
    match fs w !! dir with
    | Some _ => (Return tt, w)
    | None => (Return tt, {| fs := <[dir := ∅]> (fs w); trace := trace w |})
    end.

(** [content.to_csv(os.path.join(dir, name))]: the file is opened under its
    own name [name] in [dir] and the rows are written into it. *)
Definition to_csv (content : File) (dir name : string) : M unit :=
  fun w =>
    let n := length (write_calls (trace w)) in
    let tr := trace w ++ [EvToCsv dir name] in
    match fs w !! dir with
    | None => (Raise OSError, {| fs := fs w; trace := tr |})
    | Some files =>
        match disk env n dir name with
        | WriteOk =>
            (Return tt,
             {| fs := <[dir := <[name := content]> files]> (fs w); trace := tr |})
        | WriteFails None => (Raise OSError, {| fs := fs w; trace := tr |})
        | WriteFails (Some k) =>
            (Raise OSError,
             {| fs := <[dir := <[name := truncate_file k content]> files]> (fs w);
                trace := tr |})
        end
    end.

(** [time.sleep(delay)] *)
Definition time_sleep (delay : Q) : M unit :=
  if Qle_bool 0 delay then emit (EvSleep delay) else raise ValueError.

(** [data[col]] *)
Definition getitem (data : DataFrame) (col : string) : M (list (option Q)) :=
  match Frame.lookup_column col (columns data) with
  | Some cells => mret cells
  | None => raise (KeyError col)
  end.

End Operations.

(** ** [data_downloader.py]: class [BISTDataDownloader] *)

(** [self.data_dir], at its default, the directory the scanner reads. *)
Definition data_dir : string := "data".

(** [f"{ticker.replace('.IS', '')}_{period}_{interval}.csv"] *)
Definition filename (ticker period interval : string) : string :=
  PyStr.replace_IS ticker +:+ "_" +:+ period +:+ "_" +:+ interval +:+ ".csv".

Definition required_columns : list string :=
  ["Open"; "High"; "Low"; "Close"; "Volume"].

Section Downloader.

Variable env : Env.

(** [_ensure_directories], run by [__init__]. *)
Definition _ensure_directories : M unit :=
  os_makedirs data_dir;;
  os_makedirs "logs";;
  os_makedirs "output".

Definition download_ticker_data (ticker period interval : string)
  : M (option DataFrame) :=
  try_except
    (logger_info (MsgDownloading ticker);;
     data ← Ticker_history env ticker period interval;
     if Frame.empty data then
       logger_warning (MsgNoData ticker);;
       mret None
     else
       let data := Frame.set_Ticker data ticker in
       let filename := filename ticker period interval in
       to_csv env (CsvTable data) data_dir filename;;
       logger_info (MsgDownloaded (Frame.len data) ticker);;
       logger_info (MsgSaved data_dir filename);;
       mret (Some data))
    (fun e =>
       logger_error (MsgDownloadError ticker e);;
       mret None).

(** The body of [for i, ticker in enumerate(tickers)], from index [i] on;
    [n] is [len(tickers)]. *)
Fixpoint download_loop (n i : nat) (tickers : list string)
    (period interval : string) (delay : Q) (results : Dict) : M Dict :=
  match tickers with
  | [] => mret results
  | ticker :: rest =>
      logger_info (MsgProcessing (i + 1) n ticker);;
      data ← download_ticker_data ticker period interval;
      let results := match data with
                     | Some data => PyDict.set results ticker data
                     | None => results
                     end in
      (if (Z.of_nat i <? Z.of_nat n - 1)%Z then time_sleep delay else mret tt);;
      download_loop n (S i) rest period interval delay results
  end.

Definition download_multiple_tickers (tickers : list string)
    (period interval : string) (delay : Q) : M Dict :=
  download_loop (length tickers) 0 tickers period interval delay [].

Definition validate_data (data : DataFrame) (ticker : string) : M bool :=
  if Frame.empty data then
    logger_warning (MsgDataEmpty ticker);;
    mret false
  else
    let missing_columns :=
      List.filter (fun col => negb (Frame.has_column col data)) required_columns in
    if negb (bool_decide (missing_columns = [])) then
      logger_warning (MsgMissingColumns ticker missing_columns);;
      mret false
    else
      close ← getitem data "Close";
      if Frame.any_le_0 close then
        logger_warning (MsgInvalidClose ticker);;
        mret false
      else
        let missing_count := Frame.isnull_sum_sum data in
        (if (0 <? missing_count)%nat
         then logger_warning (MsgMissingValues missing_count ticker)
         else mret tt);;
        logger_info (MsgValidationPassed ticker);;
        mret true.

(** The body of [for ticker, data in results.items()]. *)
Fixpoint summary_loop (items : Dict) (summary_data : list SummaryRow)
  : M (list SummaryRow) :=
  match items with
  | [] => mret summary_data
  | (ticker, data) :: rest =>
      if negb (Frame.empty data) then
        close ← getitem data "Close";
        volume ← getitem data "Volume";
        valid ← validate_data data ticker;
        summary_loop rest
          (summary_data ++
           [{| Ticker := ticker;
               Records := Frame.len data;
               Start_Date := Frame.index_min (index data);
               End_Date := Frame.index_max (index data);
               Min_Close := Frame.series_min close;
               Max_Close := Frame.series_max close;
               Avg_Volume := Frame.series_mean volume;
               Data_Quality := if (valid : bool) then "Valid" else "Issues" |}])
      else summary_loop rest summary_data
  end.

Definition generate_summary_report (results : Dict) : M (list SummaryRow) :=
  summary_df ← summary_loop results [];
  let summary_file := "download_summary_" +:+ now env +:+ ".csv" in
  to_csv env (CsvSummary summary_df) "output" summary_file;;
  logger_info (MsgSummarySaved "output" summary_file);;
  mret summary_df.

End Downloader.

(** ** [download_all_tickers.py] *)

(** [config/config.py]: the ticker list and the download settings. *)
Record Config := mkConfig {
  BIST_TICKERS : list string;
  period : string;
  interval : string;
  delay_between_requests : option Q
}.

(** The loop of [get_existing_tickers] over the directory listing. *)
Definition scan_files (files : list string) : gset string :=
  foldl (fun existing_tickers file =>
           if PyStr.endswith file ".csv"
           then existing_tickers ∪ {[ PyStr.split_underscore_0 file +:+ ".IS" ]}
           else existing_tickers) ∅ files.

Definition get_existing_tickers : M (gset string) :=
  dir_exists ← os_path_exists data_dir;
  if (dir_exists : bool) then
    files ← os_listdir data_dir;
    mret (scan_files files)
  else mret ∅.

Definition get_new_tickers_to_download (cfg : Config) : M (list string) :=
  existing_tickers ← get_existing_tickers;
  mret (List.filter (fun ticker => bool_decide (ticker ∉ existing_tickers))
                    (BIST_TICKERS cfg)).

Section Main.

Variable env : Env.

(** The result display of [main]: it reads ['Close'] and ['Volume'] of every
    table of [results]. *)
Fixpoint display_results (new_tickers : list string) (results : Dict) : M unit :=
  match new_tickers with
  | [] => mret tt
  | ticker :: rest =>
      match PyDict.get results ticker with
      | Some data =>
          getitem data "Close";;
          getitem data "Volume";;
          display_results rest results
      | None => display_results rest results
      end
  end.

Definition main (cfg : Config) : M bool :=
  try_except
    (existing_tickers ← get_existing_tickers;
     new_tickers ← get_new_tickers_to_download cfg;
     if bool_decide (new_tickers = []) then mret true
     else
       _ensure_directories;;
       results ← download_multiple_tickers env new_tickers
                   (period cfg) (interval cfg)
                   (default 1%Q (delay_between_requests cfg));
       display_results new_tickers results;;
       (if negb (bool_decide (results = []))
        then generate_summary_report env results;; mret tt
        else mret tt);;
       os_listdir data_dir;;
       mret true)
    (fun e => mret false).

End Main.

(** ** [check_progress.py]: the inventory part of [check_download_progress] *)

Module CheckProgress.

Definition existing_files : M (list string) :=
  dir_exists ← os_path_exists data_dir;
  if (dir_exists : bool) then
    files ← os_listdir data_dir;
    mret (List.filter (fun f => PyStr.endswith f ".csv") files)
  else mret [].

Definition downloaded_tickers (existing_files : list string) : gset string :=
  foldl (fun downloaded_tickers file =>
           downloaded_tickers ∪ {[ PyStr.split_underscore_0 file +:+ ".IS" ]})
        ∅ existing_files.

Definition missing_tickers (cfg : Config) : M (gset string) :=
  files ← existing_files;
  mret (list_to_set (BIST_TICKERS cfg) ∖ downloaded_tickers files).

End CheckProgress.

(** ** Vocabulary of the specification *)

(** The tagged result of one fetch attempt, as the code tells the three
    cases apart: the provider raised, returned an empty table, or returned
    rows. *)
Inductive FetchOutcome :=
| Ok (table : DataFrame)
| Empty
| Failed (reason : Exc).

Definition outcome (answer : Exc + DataFrame) : FetchOutcome :=
  match answer with
  | inl e => Failed e
  | inr data => if Frame.empty data then Empty else Ok data
  end.

(** The answer is [Empty] or [Failed]. *)
Definition no_data (answer : Exc + DataFrame) : bool :=
  match outcome answer with
  | Ok _ => false
  | _ => true
  end.

(** The symbol the scanner derives from a file name. *)
Definition ticker_name (file : string) : string :=
  PyStr.split_underscore_0 file +:+ ".IS".

(** A file name is a well-formed artifact name when it is the name
    [download_ticker_data] gives to some ticker, period and interval. *)
Definition well_formed_artifact (file : string) : Prop :=
  exists ticker period interval, file = filename ticker period interval.

(** The records [validate_data] writes to the log. *)
Definition is_validation_record (ev : Event) : bool :=
  match ev with
  | EvLog _ (MsgDataEmpty _) => true
  | EvLog _ (MsgMissingColumns _ _) => true
  | EvLog _ (MsgInvalidClose _) => true
  | EvLog _ (MsgMissingValues _ _) => true
  | EvLog _ (MsgValidationPassed _) => true
  | _ => false
  end.

Definition validation_records (tr : list Event) : list Event :=
  List.filter is_validation_record tr.

(** The close values of a table (none when the column is absent). *)
Definition close_values (data : DataFrame) : list Q :=
  match Frame.lookup_column "Close" (columns data) with
  | Some cells => Frame.dropna cells
  | None => []
  end.

(** ** Auxiliary definitions for the statements *)

(** [os.listdir('data')] when the directory exists, nothing otherwise. *)
Definition listing (w : World) : list string :=
  match fs w !! data_dir with
  | Some files => elements (dom files)
  | None => []
  end.

(** The tickers a run of [main] from [w] calls the provider for, in order. *)
Definition fetched_in_run (env : Env) (cfg : Config) (w : World) : list string :=
  drop (length (fetch_calls (trace w)))
       (fetch_calls (trace (snd (main env cfg w)))).

(** The local [missing_columns] of [validate_data]. *)
Definition missing_columns (data : DataFrame) : list string :=
  List.filter (fun col => negb (Frame.has_column col data)) required_columns.

(** The world after one more log record. *)
Definition logged (w : World) (level : Level) (msg : LogMsg) : World :=
  {| fs := fs w; trace := trace w ++ [EvLog level msg] |}.

(** A computation is stable for a relation on worlds when the world it
    leaves is related to the world it found. *)
Definition stable (R : World -> World -> Prop) {A} (m : M A) : Prop :=
  forall w, R w (snd (m w)).

(** Four views of the world a computation may leave alone. *)
Definition same_fetches (w w' : World) : Prop :=
  fetch_calls (trace w') = fetch_calls (trace w).
Definition same_writes (w w' : World) : Prop :=
  write_calls (trace w') = write_calls (trace w).
Definition same_validation (w w' : World) : Prop :=
  validation_records (trace w') = validation_records (trace w).
Definition same_files (w w' : World) : Prop := fs w' = fs w.

(** The provider has nothing for [s]: every answer is [Empty] or [Failed]. *)
Definition never_data (env : Env) (s period interval : string) : Prop :=
  forall k, no_data (history env k s period interval) = true.

(** The provider always has rows for [s] and the disk takes its artifact. *)
Definition always_data (env : Env) (s period interval : string) : Prop :=
  (forall k, no_data (history env k s period interval) = false) /\
  (forall m, disk env m data_dir (filename s period interval) = WriteOk).

(** The row [generate_summary_report] computes for one entry of [results]. *)
Definition computed_row (item : string * DataFrame) (row : SummaryRow) : Prop :=
  Ticker row = fst item /\
  Records row = Frame.len (snd item) /\
  Start_Date row = Frame.index_min (index (snd item)) /\
  End_Date row = Frame.index_max (index (snd item)) /\
  (exists close,
     Frame.lookup_column "Close" (columns (snd item)) = Some close /\
     Min_Close row = Frame.series_min close /\
     Max_Close row = Frame.series_max close) /\
  (exists volume,
     Frame.lookup_column "Volume" (columns (snd item)) = Some volume /\
     Avg_Volume row = Frame.series_mean volume) /\
  (forall w, exists passed w',
     validate_data (snd item) (fst item) w = (Return passed, w') /\
     Data_Quality row = if passed then "Valid" else "Issues").

(** The entries of [results] that get a row. *)
Definition reported (results : Dict) : Dict :=
  List.filter (fun item => negb (Frame.empty (snd item))) results.

(** ** Concrete runs *)

Module Scenario.

Definition series (a b : Q) : list (option Q) := [Some a; Some b].

(** Two good daily bars. *)
Definition table_ok : DataFrame :=
  {| index := [20089%Z; 20090%Z];
     columns := [("Open", series 10 11); ("High", series 12 13);
                 ("Low", series 9 10); ("Close", series 11 12);
                 ("Volume", series 1000 1500)];
     ticker_column := None |}.

(** The same bars with one close at zero: validation fails. *)
Definition table_bad_close : DataFrame :=
  {| index := [20089%Z; 20090%Z];
     columns := [("Open", series 10 11); ("High", series 12 13);
                 ("Low", series 9 10); ("Close", series 0 12);
                 ("Volume", series 1000 1500)];
     ticker_column := None |}.

(** Both closes non-positive. *)
Definition table_two_bad_closes : DataFrame :=
  {| index := [20089%Z; 20090%Z];
     columns := [("Open", series 10 11); ("High", series 12 13);
                 ("Low", series 9 10); ("Close", series 0 (-1));
                 ("Volume", series 1000 1500)];
     ticker_column := None |}.

(** No volume column, and one close at zero. *)
Definition table_no_volume : DataFrame :=
  {| index := [20089%Z; 20090%Z];
     columns := [("Open", series 10 11); ("High", series 12 13);
                 ("Low", series 9 10); ("Close", series 0 12)];
     ticker_column := None |}.

(** Good bars with a null volume cell. *)
Definition table_null_cell : DataFrame :=
  {| index := [20089%Z; 20090%Z];
     columns := [("Open", series 10 11); ("High", series 12 13);
                 ("Low", series 9 10); ("Close", series 11 12);
                 ("Volume", [Some 1000%Q; None])];
     ticker_column := None |}.

Definition table_empty : DataFrame :=
  {| index := []; columns := []; ticker_column := None |}.

(** A provider that fails for [FAIL.IS], has no rows for [EMPTY.IS], has a
    zero close for [BAD.IS], and good bars for everything else. *)
Definition provider (n : nat) (ticker period interval : string)
  : Exc + DataFrame :=
  if String.eqb ticker "FAIL.IS" then inl ProviderError
  else if String.eqb ticker "EMPTY.IS" then inr table_empty
  else if String.eqb ticker "BAD.IS" then inr table_bad_close
  else inr table_ok.

Definition env_ok : Env :=
  {| history := provider;
     disk := fun _ _ _ => WriteOk;
     now := "20250101_120000" |}.

(** The disk fails every write into the data directory after one row. *)
Definition env_disk_fails : Env :=
  {| history := provider;
     disk := fun _ dir _ =>
               if String.eqb dir "data" then WriteFails (Some 1) else WriteOk;
     now := "20250101_120000" |}.

(** No directory exists yet. *)
Definition fresh : World := {| fs := ∅; trace := [] |}.

(** The three directories exist and are empty. *)
Definition ready : World :=
  {| fs := <["data" := ∅]> (<["logs" := ∅]> (<["output" := ∅]> ∅));
     trace := [] |}.

(** The data directory holds one stray file. *)
Definition stray : World :=
  {| fs := <["data" := <["THYAO_backup.csv" := CsvSummary []]> ∅]> ∅;
     trace := [] |}.

(** The data directory holds the artifact of [THYAO.IS]. *)
Definition resumed : World :=
  {| fs := <["data" := <["THYAO_1y_1d.csv" := CsvTable table_ok]> ∅]>
             (<["logs" := ∅]> (<["output" := ∅]> ∅));
     trace := [] |}.

Definition cfg : Config :=
  {| BIST_TICKERS := ["THYAO.IS"; "FAIL.IS"; "GARAN.IS"];
     period := "1y";
     interval := "1d";
     delay_between_requests := Some 1%Q |}.

(** A configuration whose one ticker is an index, written without ['.IS']. *)
Definition cfg_index : Config :=
  {| BIST_TICKERS := ["XU100"];
     period := "1y";
     interval := "1d";
     delay_between_requests := Some 1%Q |}.

(** The data directory holds the artifact of [XU100], as
    [download_ticker_data] names and writes it. *)
Definition indexed : World :=
  {| fs := <["data" := <["XU100_1y_1d.csv" :=
                           CsvTable (Frame.set_Ticker table_ok "XU100")]> ∅]>
             (<["logs" := ∅]> (<["output" := ∅]> ∅));
     trace := [] |}.

End Scenario.

(** ** The claims as the specification states them, where the code differs *)

(** C1: a symbol is present in storage when the data directory holds an
    artifact of it, a file under the name [download_ticker_data] gives it for
    some period and interval. *)
Definition present_in_storage (w : World) (s : string) : Prop :=
  exists period interval, filename s period interval ∈ listing w.

(** C1, last part: the provider is never called for a symbol that is present
    in storage before the run. *)
Definition at_most_once_acquisition (env : Env) (cfg : Config) (w : World)
  : Prop :=
  forall s, present_in_storage w s -> s ∉ fetched_in_run env cfg w.

(** C2, last part: the returned mapping has an entry for every attempted
    symbol. *)
Definition mapping_covers_attempted (env : Env) (tickers : list string)
    (period interval : string) (delay : Q) (w : World) : Prop :=
  forall results w',
    download_multiple_tickers env tickers period interval delay w
    = (Return results, w') ->
    forall s, s ∈ tickers -> is_Some (PyDict.get results s).

(** C3: the report has one row for every attempted symbol. *)
Definition report_covers_attempted (env : Env) (tickers : list string)
    (period interval : string) (delay : Q) (w : World) : Prop :=
  forall results w1 rows w2,
    download_multiple_tickers env tickers period interval delay w
    = (Return results, w1) ->
    generate_summary_report env results w1 = (Return rows, w2) ->
    length rows = length tickers /\
    forall s, s ∈ tickers -> s ∈ map Ticker rows.

(** C5: [nonPositiveCloseCount] as the specification defines it. *)
Definition nonPositiveCloseCount (data : DataFrame) : nat :=
  length (List.filter (fun q => Qle_bool q 0) (close_values data)).

(** C5: every rule is checked, whatever the rules before it found: a missing
    required column and a non-positive close are both reported. *)
Definition reports_every_violation (data : DataFrame) (ticker : string)
    (w : World) : Prop :=
  let tr := trace (snd (validate_data data ticker w)) in
  (missing_columns data <> [] ->
   EvLog WARNING (MsgMissingColumns ticker (missing_columns data)) ∈ tr) /\
  (0 < nonPositiveCloseCount data ->
   EvLog WARNING (MsgInvalidClose ticker) ∈ tr).

(** C6: the scheduler invokes the validator on a table it fetched. *)
Definition validator_invoked (env : Env) (ticker period interval : string)
    (w : World) : Prop :=
  validation_records
    (trace (snd (download_ticker_data env ticker period interval w)))
  <> validation_records (trace w).

(** C7: the scan yields only symbols of well-formed artifacts. *)
Definition scan_only_well_formed (w : World) : Prop :=
  forall existing w',
    get_existing_tickers w = (Return existing, w') ->
    forall s, s ∈ existing ->
      exists file, file ∈ listing w /\ well_formed_artifact file /\
                   s = ticker_name file.

(** C8: an attempt that fails leaves the view of the scanner as it was. *)
Definition failed_attempt_invisible (env : Env)
    (ticker period interval : string) (w : World) : Prop :=
  forall w' before after,
    download_ticker_data env ticker period interval w = (Return None, w') ->
    get_existing_tickers w = (Return before, w) ->
    get_existing_tickers w' = (Return after, w') ->
    after = before.

(** ** More of the code *)

(** [sub in s] on strings: [sub] occurs somewhere in [s]. *)
Fixpoint str_in (sub s : string) : bool :=
  if String.prefix sub s then true
  else match s with
       | EmptyString => false
       | String _ s' => str_in sub s'
       end.

(** The final file count of [main] in [download_all_tickers.py]: the CSV
    files of the data directory, those grouped as existing because the stem
    of some existing ticker occurs in their name, and the others. *)
Definition data_files (listdir : list string) : list string :=
  List.filter (fun f => PyStr.endswith f ".csv") listdir.

Definition existing_files (existing_tickers : gset string)
    (data_files : list string) : list string :=
  List.filter
    (fun f => existsb (fun ticker => str_in (PyStr.replace_IS ticker) f)
                      (elements existing_tickers))
    data_files.

Definition new_files (existing_tickers : gset string)
    (data_files : list string) : list string :=
  List.filter
    (fun f => bool_decide (f ∉ existing_files existing_tickers data_files))
    data_files.

(** The numbers [check_download_progress] returns. *)
Record Progress := mkProgress {
  total : nat;
  downloaded : nat;
  missing : nat;
  progress : Q
}.

(** The one exception of its own [check_download_progress] can raise. *)
Inductive ProgressError := ZeroDivisionError.

(** [check_download_progress], without its prints: the counts, and the
    percentage [downloaded_count / total_tickers * 100] (as an exact
    rational), which divides by the number of configured tickers. *)
Definition check_download_progress (cfg : Config)
  : M (ProgressError + Progress) :=
  existing_files ← CheckProgress.existing_files;
  let downloaded_tickers := CheckProgress.downloaded_tickers existing_files in
  let missing_tickers :=
    (list_to_set (BIST_TICKERS cfg) : gset string) ∖ downloaded_tickers in
  let total_tickers := length (BIST_TICKERS cfg) in
  let downloaded_count := size downloaded_tickers in
  let missing_count := size missing_tickers in
  if (total_tickers =? 0)%nat then mret (inl ZeroDivisionError)
  else
    mret (inr {| total := total_tickers;
                 downloaded := downloaded_count;
                 missing := missing_count;
                 progress := Qmult (Qdiv (inject_Z (Z.of_nat downloaded_count))
                                         (inject_Z (Z.of_nat total_tickers)))
                                   100 |}).

(** [main] of [check_progress.py]. *)
Definition check_progress_main (cfg : Config) : M bool :=
  try_except
    (r ← check_download_progress cfg;
     match r with
     | inr _ => mret true
     | inl ZeroDivisionError => mret false
     end)
    (fun e => mret false).

(** ** Auxiliary definitions for the further statements *)

(** The verdict of [validate_data] as a function of the table. *)
Definition verdict (data : DataFrame) : bool :=
  negb (Frame.empty data)
  && bool_decide (missing_columns data = [])
  && negb (Frame.any_le_0
             (default [] (Frame.lookup_column "Close" (columns data)))).

(** The world after one more pause. *)
Definition slept (w : World) (delay : Q) : World :=
  {| fs := fs w; trace := trace w ++ [EvSleep delay] |}.

(** The provider calls and the pauses of a trace, in order. *)
Definition is_pace_event (ev : Event) : bool :=
  match ev with
  | EvHistory _ _ _ => true
  | EvSleep _ => true
  | _ => false
  end.

Definition pace (tr : list Event) : list Event :=
  List.filter is_pace_event tr.

(** One provider call per ticker with one pause between two calls. *)
Fixpoint paced (tickers : list string) (period interval : string) (delay : Q)
  : list Event :=
  match tickers with
  | [] => []
  | ticker :: rest =>
      EvHistory ticker period interval
      :: match rest with
         | [] => []
         | _ :: _ => EvSleep delay :: paced rest period interval delay
         end
  end.

(** Every file listed in the data directory is still listed. *)
Definition files_kept (w w' : World) : Prop :=
  forall name, name ∈ listing w -> name ∈ listing w'.

(** The files of the data directory are what they were. *)
Definition same_data (w w' : World) : Prop :=
  fs w' !! data_dir = fs w !! data_dir.

(** A ticker [X.IS] whose stem [X] has no underscore and no ['.IS']: the
    scanner reads it back from the name of its artifact. *)
Definition plain_ticker (ticker : string) : Prop :=
  exists X, ticker = X +:+ ".IS" /\ PyStr.count_underscore X = 0 /\
            PyStr.replace_IS (X +:+ ".IS") = X.

(** An entry of [results] as the batch builds it: the provider's table for
    the key, not empty, tagged with the key. *)
Definition entry_of (env : Env) (period interval : string)
    (item : string * DataFrame) : Prop :=
  exists n data,
    history env n (fst item) period interval = inr data /\
    Frame.empty data = false /\
    snd item = Frame.set_Ticker data (fst item).

(** The lengths of the pauses of a trace, in order. *)
Definition pauses (tr : list Event) : list Q :=
  omap (fun ev => match ev with
                  | EvSleep delay => Some delay
                  | _ => None
                  end) tr.

(** The file [name] of directory [dir], when both exist. *)
Definition file_at (w : World) (dir name : string) : option File :=
  match fs w !! dir with
  | Some files => files !! name
  | None => None
  end.

(** The file the [FileHandler] of [setup_logging] appends the log records
    to, as directory and name. *)
Definition log_file : string * string := ("logs", "download.log").

(** The events of a list of log records. *)
Definition log_events (records : list (Level * LogMsg)) : list Event :=
  map (fun record => EvLog (fst record) (snd record)) records.

(** Nothing changed on disk, the log file apart: no directory appeared or
    went away, and every file but the log file is what it was. *)
Definition same_but_log (w w' : World) : Prop :=
  (forall dir, is_Some (fs w' !! dir) <-> is_Some (fs w !! dir)) /\
  (forall dir name, (dir, name) <> log_file ->
                    file_at w' dir name = file_at w dir name).

(** Nothing changed on disk but, at most, the files [names] of the data
    directory and the log file: no directory appeared or went away, every
    other file is what it was, and no file went away. *)
Definition untouched_outside (names : list string) (w w' : World) : Prop :=
  (forall dir, is_Some (fs w' !! dir) <-> is_Some (fs w !! dir)) /\
  (forall dir name, dir <> data_dir \/ name ∉ names ->
                    (dir, name) <> log_file ->
                    file_at w' dir name = file_at w dir name) /\
  (forall dir name, is_Some (file_at w dir name) ->
                    is_Some (file_at w' dir name)).

(** * Proofs *)

(** ** Sanity checks of the string operations *)

Example endswith_csv : PyStr.endswith "THYAO_1y_1d.csv" ".csv" = true.
Proof. reflexivity. Qed.

Example endswith_log : PyStr.endswith "download.log" ".csv" = false.
Proof. reflexivity. Qed.

Example split_thyao : PyStr.split_underscore_0 "THYAO_1y_1d.csv" = "THYAO".
Proof. reflexivity. Qed.

Example replace_thyao : PyStr.replace_IS "THYAO.IS" = "THYAO".
Proof. reflexivity. Qed.

Example replace_isctr : PyStr.replace_IS "ISCTR.IS" = "ISCTR".
Proof. reflexivity. Qed.

(** ** Running computations *)

Lemma run_bind {A B} (m : M A) (f : A -> M B) (w : World) :
  (m ≫= f) w = match m w with
               | (Return a, w') => f a w'
               | (Raise e, w') => (Raise e, w')
               end.
Proof. reflexivity. Qed.

Lemma run_ret {A} (a : A) (w : World) : (mret a : M A) w = (Return a, w).
Proof. reflexivity. Qed.

Lemma run_emit (ev : Event) (w : World) :
  emit ev w = (Return tt, {| fs := fs w; trace := trace w ++ [ev] |}).
Proof. reflexivity. Qed.

Lemma fetch_calls_app (tr1 tr2 : list Event) :
  fetch_calls (tr1 ++ tr2) = fetch_calls tr1 ++ fetch_calls tr2.
Proof. unfold fetch_calls. apply omap_app. Qed.

Lemma write_calls_app (tr1 tr2 : list Event) :
  write_calls (tr1 ++ tr2) = write_calls tr1 ++ write_calls tr2.
Proof. unfold write_calls. apply omap_app. Qed.

Lemma validation_records_app (tr1 tr2 : list Event) :
  validation_records (tr1 ++ tr2)
  = validation_records tr1 ++ validation_records tr2.
Proof. unfold validation_records. apply List.filter_app. Qed.

(** *** Computations that leave some view of the world alone *)

Section Stable.

Variable R : World -> World -> Prop.
Hypothesis R_refl : forall w, R w w.
Hypothesis R_trans : forall w1 w2 w3, R w1 w2 -> R w2 w3 -> R w1 w3.

Lemma stable_ret {A} (a : A) : stable R (mret a : M A).
Proof. intros w. apply R_refl. Qed.

Lemma stable_raise {A} (e : Exc) : stable R (raise e : M A).
Proof. intros w. apply R_refl. Qed.

Lemma stable_bind {A B} (m : M A) (f : A -> M B) :
  stable R m -> (forall a, stable R (f a)) -> stable R (m ≫= f).
Proof.
  intros Hm Hf w. rewrite run_bind.
  specialize (Hm w). destruct (m w) as [[a|e] w']; simpl in *.
  - eapply R_trans; [exact Hm | apply Hf].
  - exact Hm.
Qed.

Lemma stable_try {A} (body : M A) (handler : Exc -> M A) :
  stable R body -> (forall e, stable R (handler e)) ->
  stable R (try_except body handler).
Proof.
  intros Hb Hh w. unfold try_except.
  specialize (Hb w). destruct (body w) as [[a|e] w']; simpl in *.
  - exact Hb.
  - eapply R_trans; [exact Hb | apply Hh].
Qed.

Lemma stable_if {A} (b : bool) (m1 m2 : M A) :
  stable R m1 -> stable R m2 -> stable R (if b then m1 else m2).
Proof. destruct b; auto. Qed.

End Stable.

(** ** Strings *)

Lemma append_nil_l (b : string) : "" +:+ b = b.
Proof. reflexivity. Qed.

Lemma append_cons (c : ascii) (a b : string) :
  String c a +:+ b = String c (a +:+ b).
Proof. reflexivity. Qed.

Lemma append_assoc (a b c : string) : (a +:+ b) +:+ c = a +:+ (b +:+ c).
Proof.
  induction a as [|x a IH]; [reflexivity|].
  now rewrite !append_cons, IH.
Qed.

Lemma count_underscore_app (a b : string) :
  PyStr.count_underscore (a +:+ b)
  = PyStr.count_underscore a + PyStr.count_underscore b.
Proof.
  induction a as [|c a IH]; [reflexivity|].
  rewrite append_cons. simpl. rewrite IH. lia.
Qed.

Lemma endswith_cons (c : ascii) (s suffix : string) :
  PyStr.endswith (String c s) suffix
  = if String.eqb (String c s) suffix then true else PyStr.endswith s suffix.
Proof. reflexivity. Qed.

Lemma endswith_refl (s : string) : PyStr.endswith s s = true.
Proof.
  destruct s as [|c s]; [reflexivity|].
  now rewrite endswith_cons, String.eqb_refl.
Qed.

Lemma endswith_app (a suffix : string) :
  PyStr.endswith (a +:+ suffix) suffix = true.
Proof.
  induction a as [|c a IH].
  - apply endswith_refl.
  - rewrite append_cons, endswith_cons, IH. now destruct (String.eqb _ _).
Qed.

Lemma split_underscore_0_app (a rest : string) :
  PyStr.count_underscore a = 0 ->
  PyStr.split_underscore_0 (a +:+ "_" +:+ rest) = a.
Proof.
  induction a as [|c a IH]; [reflexivity|].
  rewrite append_cons. simpl.
  destruct (Ascii.eqb c "_"); [discriminate|].
  intros H. now rewrite IH.
Qed.

Lemma filename_endswith_csv (ticker period interval : string) :
  PyStr.endswith (filename ticker period interval) ".csv" = true.
Proof.
  unfold filename. rewrite <- !append_assoc. apply endswith_app.
Qed.

Lemma filename_count_underscore (ticker period interval : string) :
  2 <= PyStr.count_underscore (filename ticker period interval).
Proof.
  unfold filename. rewrite !count_underscore_app. simpl. lia.
Qed.

(** The scanner inverts the naming of the downloader on a ticker [X.IS]
    whose stem [X] has no underscore and which has no other ['.IS'] in it. *)
Lemma ticker_name_filename (X period interval : string) :
  PyStr.count_underscore X = 0 ->
  PyStr.replace_IS (X +:+ ".IS") = X ->
  ticker_name (filename (X +:+ ".IS") period interval) = X +:+ ".IS".
Proof.
  intros Hu Hr. unfold ticker_name, filename. rewrite Hr.
  now rewrite split_underscore_0_app.
Qed.

(** ** The inventory scan *)

Lemma elem_of_scan_fold (files : list string) (acc : gset string) (s : string) :
  s ∈ foldl (fun existing_tickers file =>
               if PyStr.endswith file ".csv"
               then existing_tickers ∪ {[ ticker_name file ]}
               else existing_tickers) acc files
  <-> s ∈ acc \/
      exists file, file ∈ files /\ PyStr.endswith file ".csv" = true
                   /\ s = ticker_name file.
Proof.
  revert acc. induction files as [|f files IH]; intros acc; simpl.
  - split; [auto|]. intros [H|(file & H & _)]; [exact H|]. inversion H.
  - rewrite IH. destruct (PyStr.endswith f ".csv") eqn:Hf.
    + rewrite elem_of_union, elem_of_singleton. split.
      * intros [[H|H]|(file & Hin & Hcsv & Hs)]; eauto.
        -- right. exists f. split; [left|]; auto.
        -- right. exists file. split; [right|]; auto.
      * intros [H|(file & Hin & Hcsv & Hs)]; auto.
        apply elem_of_cons in Hin as [->|Hin]; eauto 6.
    + split.
      * intros [H|(file & Hin & Hcsv & Hs)]; eauto.
        right. exists file. split; [right|]; auto.
      * intros [H|(file & Hin & Hcsv & Hs)]; auto.
        apply elem_of_cons in Hin as [->|Hin]; [congruence|eauto 6].
Qed.

Lemma elem_of_scan_files (files : list string) (s : string) :
  s ∈ scan_files files
  <-> exists file, file ∈ files /\ PyStr.endswith file ".csv" = true
                   /\ s = ticker_name file.
Proof.
  unfold scan_files.
  rewrite (elem_of_scan_fold files ∅ s). split; [|auto].
  intros [H|H]; [|exact H]. now apply not_elem_of_empty in H.
Qed.

(** The names the scan yields end in ['.IS'] and have no underscore. *)
Lemma count_underscore_split (s : string) :
  PyStr.count_underscore (PyStr.split_underscore_0 s) = 0.
Proof.
  induction s as [|c s IH]; [reflexivity|]. simpl.
  destruct (Ascii.eqb c "_") eqn:E; [reflexivity|]. simpl. now rewrite E.
Qed.

Lemma scanned_name_shape (files : list string) (s : string) :
  s ∈ scan_files files ->
  PyStr.endswith s ".IS" = true /\ PyStr.count_underscore s = 0.
Proof.
  intros H. apply elem_of_scan_files in H as (file & _ & _ & ->).
  unfold ticker_name. split; [apply endswith_app|].
  rewrite count_underscore_app, count_underscore_split. reflexivity.
Qed.

(** The scanner of [check_progress.py] computes the same set. *)
Lemma downloaded_tickers_fold (files : list string) (acc : gset string) :
  foldl (fun downloaded_tickers file => downloaded_tickers ∪ {[ ticker_name file ]})
        acc (List.filter (fun f => PyStr.endswith f ".csv") files)
  = foldl (fun existing_tickers file =>
             if PyStr.endswith file ".csv"
             then existing_tickers ∪ {[ ticker_name file ]}
             else existing_tickers) acc files.
Proof.
  revert acc. induction files as [|f files IH]; intros acc; simpl; [reflexivity|].
  destruct (PyStr.endswith f ".csv"); simpl; apply IH.
Qed.

Lemma downloaded_tickers_scan (files : list string) :
  CheckProgress.downloaded_tickers
    (List.filter (fun f => PyStr.endswith f ".csv") files)
  = scan_files files.
Proof. apply downloaded_tickers_fold. Qed.

Lemma get_existing_tickers_run (w : World) :
  get_existing_tickers w = (Return (scan_files (listing w)), w).
Proof.
  unfold get_existing_tickers, listing, os_path_exists, os_listdir.
  rewrite run_bind. destruct (fs w !! data_dir) as [files|] eqn:Hd.
  - rewrite bool_decide_eq_true_2 by eauto. rewrite run_bind, Hd. reflexivity.
  - rewrite bool_decide_eq_false_2 by (intros [? ?]; discriminate). reflexivity.
Qed.

Lemma get_new_tickers_to_download_run (cfg : Config) (w : World) :
  get_new_tickers_to_download cfg w
  = (Return (List.filter (fun ticker => bool_decide (ticker ∉ scan_files (listing w)))
                         (BIST_TICKERS cfg)), w).
Proof.
  unfold get_new_tickers_to_download.
  now rewrite run_bind, get_existing_tickers_run.
Qed.

Lemma missing_tickers_run (cfg : Config) (w : World) :
  CheckProgress.missing_tickers cfg w
  = (Return (list_to_set (BIST_TICKERS cfg) ∖ scan_files (listing w)), w).
Proof.
  unfold CheckProgress.missing_tickers, CheckProgress.existing_files, listing,
    os_path_exists, os_listdir.
  rewrite !run_bind. destruct (fs w !! data_dir) as [files|] eqn:Hd.
  - rewrite bool_decide_eq_true_2 by eauto. rewrite run_bind, Hd.
    rewrite run_ret. now rewrite downloaded_tickers_scan.
  - rewrite bool_decide_eq_false_2 by (intros [? ?]; discriminate). reflexivity.
Qed.

(** ** The validator *)

Lemma has_column_lookup (col : string) (data : DataFrame) :
  Frame.has_column col data = true ->
  exists cells, Frame.lookup_column col (columns data) = Some cells.
Proof.
  unfold Frame.has_column. induction (columns data) as [|[name cells] cols IH]; simpl.
  - discriminate.
  - destruct (String.eqb name col); simpl; eauto.
Qed.

Lemma lookup_has_column (col : string) (data : DataFrame) (cells : list (option Q)) :
  Frame.lookup_column col (columns data) = Some cells ->
  Frame.has_column col data = true.
Proof.
  unfold Frame.has_column. induction (columns data) as [|[name c] cols IH]; simpl.
  - discriminate.
  - destruct (String.eqb name col); simpl; auto.
Qed.

Lemma missing_columns_nil (data : DataFrame) :
  missing_columns data = [] <->
  forall col, col ∈ required_columns -> Frame.has_column col data = true.
Proof.
  unfold missing_columns. split.
  - intros H col Hcol. apply list_elem_of_In in Hcol.
    destruct (Frame.has_column col data) eqn:Hc; [reflexivity|].
    assert (Hin : In col (List.filter (fun c => negb (Frame.has_column c data))
                                      required_columns)).
    { apply List.filter_In. split; [exact Hcol|]. now rewrite Hc. }
    rewrite H in Hin. destruct Hin.
  - intros H.
    destruct (List.filter _ required_columns) as [|c l] eqn:Hf; [reflexivity|].
    assert (Hin : In c (List.filter (fun c => negb (Frame.has_column c data))
                                    required_columns)).
    { rewrite Hf. now left. }
    apply List.filter_In in Hin as [Hin Hneg].
    apply list_elem_of_In in Hin. rewrite (H c Hin) in Hneg. discriminate.
Qed.

Lemma any_le_0_iff (cells : list (option Q)) :
  Frame.any_le_0 cells = true <->
  exists q, q ∈ Frame.dropna cells /\ (q <= 0)%Q.
Proof.
  unfold Frame.any_le_0, Frame.dropna. rewrite List.existsb_exists. split.
  - intros ([q|] & Hin & Hq); [|discriminate].
    exists q. split; [|now apply Qle_bool_iff].
    apply list_elem_of_omap. exists (Some q). split; [|reflexivity].
    now apply list_elem_of_In.
  - intros (q & Hin & Hq).
    apply list_elem_of_omap in Hin as ([q'|] & Hin & Heq); simpl in Heq; [|discriminate].
    injection Heq as ->. exists (Some q). split.
    + now apply list_elem_of_In.
    + now apply Qle_bool_iff.
Qed.

Section Validator.

Variables (data : DataFrame) (ticker : string) (w : World).

Lemma validate_data_empty :
  Frame.empty data = true ->
  validate_data data ticker w
  = (Return false, logged w WARNING (MsgDataEmpty ticker)).
Proof. intros H. unfold validate_data. now rewrite H. Qed.

Lemma validate_data_missing :
  Frame.empty data = false ->
  missing_columns data <> [] ->
  validate_data data ticker w
  = (Return false,
     logged w WARNING (MsgMissingColumns ticker (missing_columns data))).
Proof.
  intros He Hm. unfold validate_data. rewrite He.
  fold (missing_columns data).
  now rewrite bool_decide_eq_false_2.
Qed.

Lemma validate_data_close :
  Frame.empty data = false ->
  missing_columns data = [] ->
  exists close,
    Frame.lookup_column "Close" (columns data) = Some close /\
    validate_data data ticker w
    = if Frame.any_le_0 close
      then (Return false, logged w WARNING (MsgInvalidClose ticker))
      else (Return true,
            logged (if (0 <? Frame.isnull_sum_sum data)%nat
                    then logged w WARNING
                           (MsgMissingValues (Frame.isnull_sum_sum data) ticker)
                    else w)
                   INFO (MsgValidationPassed ticker)).
Proof.
  intros He Hm.
  destruct (has_column_lookup "Close" data) as [close Hc].
  { apply missing_columns_nil; [exact Hm|]. unfold required_columns.
    repeat constructor. }
  exists close. split; [exact Hc|].
  unfold validate_data. rewrite He. fold (missing_columns data).
  rewrite bool_decide_eq_true_2 by exact Hm.
  change (negb true) with false. cbv iota.
  unfold getitem. rewrite Hc. rewrite run_bind, run_ret.
  destruct (Frame.any_le_0 close); [reflexivity|].
  destruct (0 <? Frame.isnull_sum_sum data)%nat; reflexivity.
Qed.

End Validator.

(** ** What leaves the views of the world alone *)

Create HintDb views.

Lemma same_fetches_refl w : same_fetches w w.
Proof. reflexivity. Qed.
Lemma same_fetches_trans w1 w2 w3 :
  same_fetches w1 w2 -> same_fetches w2 w3 -> same_fetches w1 w3.
Proof. unfold same_fetches. congruence. Qed.
Lemma same_writes_refl w : same_writes w w.
Proof. reflexivity. Qed.
Lemma same_writes_trans w1 w2 w3 :
  same_writes w1 w2 -> same_writes w2 w3 -> same_writes w1 w3.
Proof. unfold same_writes. congruence. Qed.
Lemma same_validation_refl w : same_validation w w.
Proof. reflexivity. Qed.
Lemma same_validation_trans w1 w2 w3 :
  same_validation w1 w2 -> same_validation w2 w3 -> same_validation w1 w3.
Proof. unfold same_validation. congruence. Qed.
Lemma same_files_refl w : same_files w w.
Proof. reflexivity. Qed.
Lemma same_files_trans w1 w2 w3 :
  same_files w1 w2 -> same_files w2 w3 -> same_files w1 w3.
Proof. unfold same_files. congruence. Qed.

#[global] Hint Resolve same_fetches_refl same_fetches_trans same_writes_refl
  same_writes_trans same_validation_refl same_validation_trans
  same_files_refl same_files_trans : views.

(** Splits a goal [stable R m] along the shape of [m]. *)
Ltac stable_step :=
  lazymatch goal with
  | |- stable _ (mret _) => apply stable_ret; auto with views
  | |- stable _ (raise _) => apply stable_raise; auto with views
  | |- stable _ (mbind _ _) =>
      apply stable_bind; [eauto with views .. | | intros ?]
  | |- stable _ (try_except _ _) =>
      apply stable_try; [eauto with views .. | | intros ?]
  | |- stable _ (if _ then _ else _) => apply stable_if
  | |- stable _ (match ?x with _ => _ end) => destruct x
  end.

Ltac stable_auto := repeat (stable_step || solve [auto with views]).

Lemma log_same_fetches level msg : stable same_fetches (emit (EvLog level msg)).
Proof.
  intros w. unfold same_fetches. simpl.
  rewrite fetch_calls_app. apply app_nil_r.
Qed.

Lemma log_same_writes level msg : stable same_writes (emit (EvLog level msg)).
Proof.
  intros w. unfold same_writes. simpl.
  rewrite write_calls_app. apply app_nil_r.
Qed.

Lemma emit_same_files ev : stable same_files (emit ev).
Proof. intros w. reflexivity. Qed.

Lemma sleep_same_fetches delay : stable same_fetches (time_sleep delay).
Proof.
  intros w. unfold time_sleep, same_fetches.
  destruct (Qle_bool 0 delay); simpl; [|reflexivity].
  rewrite fetch_calls_app. apply app_nil_r.
Qed.

Lemma sleep_same_validation delay : stable same_validation (time_sleep delay).
Proof.
  intros w. unfold time_sleep, same_validation.
  destruct (Qle_bool 0 delay); simpl; [|reflexivity].
  rewrite validation_records_app. apply app_nil_r.
Qed.

Lemma sleep_same_files delay : stable same_files (time_sleep delay).
Proof. intros w. unfold time_sleep. now destruct (Qle_bool 0 delay). Qed.

Lemma getitem_stable R (R_refl : forall w, R w w) data col :
  stable R (getitem data col).
Proof.
  intros w. unfold getitem.
  destruct (Frame.lookup_column col (columns data)); apply R_refl.
Qed.

Lemma history_same_validation env ticker period interval :
  stable same_validation (Ticker_history env ticker period interval).
Proof.
  intros w. unfold Ticker_history, same_validation.
  destruct (history env _ ticker period interval); simpl;
    rewrite validation_records_app; apply app_nil_r.
Qed.

Lemma to_csv_same_fetches env content dir name :
  stable same_fetches (to_csv env content dir name).
Proof.
  intros w. unfold to_csv, same_fetches.
  destruct (fs w !! dir); [destruct (disk env _ dir name) as [|[k|]]|];
    simpl; rewrite fetch_calls_app; apply app_nil_r.
Qed.

Lemma to_csv_same_validation env content dir name :
  stable same_validation (to_csv env content dir name).
Proof.
  intros w. unfold to_csv, same_validation.
  destruct (fs w !! dir); [destruct (disk env _ dir name) as [|[k|]]|];
    simpl; rewrite validation_records_app; apply app_nil_r.
Qed.

Lemma makedirs_same_fetches dir : stable same_fetches (os_makedirs dir).
Proof. intros w. unfold os_makedirs. now destruct (fs w !! dir). Qed.

Lemma makedirs_same_validation dir : stable same_validation (os_makedirs dir).
Proof. intros w. unfold os_makedirs. now destruct (fs w !! dir). Qed.

Lemma listdir_stable R (R_refl : forall w, R w w) dir : stable R (os_listdir dir).
Proof. intros w. unfold os_listdir. destruct (fs w !! dir); apply R_refl. Qed.

Lemma path_exists_stable R (R_refl : forall w, R w w) dir :
  stable R (os_path_exists dir).
Proof. intros w. apply R_refl. Qed.

#[global] Hint Resolve log_same_fetches log_same_writes emit_same_files
  sleep_same_fetches sleep_same_validation sleep_same_files getitem_stable
  history_same_validation to_csv_same_fetches to_csv_same_validation
  makedirs_same_fetches makedirs_same_validation listdir_stable
  path_exists_stable : views.

Lemma validate_data_same_fetches data ticker :
  stable same_fetches (validate_data data ticker).
Proof. unfold validate_data, logger_warning, logger_info. stable_auto. Qed.

Lemma validate_data_same_writes data ticker :
  stable same_writes (validate_data data ticker).
Proof. unfold validate_data, logger_warning, logger_info. stable_auto. Qed.

Lemma validate_data_same_files data ticker :
  stable same_files (validate_data data ticker).
Proof. unfold validate_data, logger_warning, logger_info. stable_auto. Qed.

#[global] Hint Resolve validate_data_same_fetches validate_data_same_writes
  validate_data_same_files : views.

(** ** One download *)

Lemma fetch_calls_log tr level msg :
  fetch_calls (tr ++ [EvLog level msg]) = fetch_calls tr.
Proof. rewrite fetch_calls_app. apply app_nil_r. Qed.

Lemma write_calls_log tr level msg :
  write_calls (tr ++ [EvLog level msg]) = write_calls tr.
Proof. rewrite write_calls_app. apply app_nil_r. Qed.

Lemma write_calls_history tr ticker period interval :
  write_calls (tr ++ [EvHistory ticker period interval]) = write_calls tr.
Proof. rewrite write_calls_app. apply app_nil_r. Qed.

Lemma validation_records_plain tr ev :
  is_validation_record ev = false ->
  validation_records (tr ++ [ev]) = validation_records tr.
Proof.
  intros H. rewrite validation_records_app. unfold validation_records at 2.
  simpl. rewrite H. apply app_nil_r.
Qed.

(** Runs the binds, returns and log records at the head of a goal. *)
Ltac run_steps :=
  repeat first [ rewrite run_bind | rewrite run_emit | rewrite run_ret
               | progress cbn [trace fs] ].

(** Reduces the views of a trace that ends in known events. *)
Ltac trace_steps :=
  cbn [trace fs];
  rewrite ?fetch_calls_app, ?validation_records_app, ?write_calls_app;
  simpl; rewrite ?app_nil_r.

(** What one call of [download_ticker_data] does, by the answer of the
    provider and the fate of the write: it never raises, calls the provider
    once, and writes the tagged table under the artifact name only when the
    provider returned rows. *)
Lemma download_ticker_data_run env ticker period interval w :
  exists r w',
    download_ticker_data env ticker period interval w = (Return r, w') /\
    fetch_calls (trace w') = fetch_calls (trace w) ++ [ticker] /\
    validation_records (trace w') = validation_records (trace w) /\
    write_calls (trace w')
    = write_calls (trace w)
      ++ match outcome (history env (length (fetch_calls (trace w)))
                          ticker period interval) with
         | Ok _ => [(data_dir, filename ticker period interval)]
         | _ => []
         end /\
    match outcome (history env (length (fetch_calls (trace w)))
                     ticker period interval) with
    | Ok data =>
        let tagged := Frame.set_Ticker data ticker in
        let name := filename ticker period interval in
        match fs w !! data_dir with
        | None => r = None /\ fs w' = fs w
        | Some files =>
            match disk env (length (write_calls (trace w))) data_dir name with
            | WriteOk =>
                r = Some tagged /\
                fs w' = <[data_dir := <[name := CsvTable tagged]> files]> (fs w)
            | WriteFails None => r = None /\ fs w' = fs w
            | WriteFails (Some k) =>
                r = None /\
                fs w' = <[data_dir :=
                            <[name := CsvTable (Frame.take_rows k tagged)]> files]>
                          (fs w)
            end
        end
    | _ => r = None /\ fs w' = fs w
    end.
Proof.
  unfold download_ticker_data, try_except, logger_info, logger_warning,
    logger_error.
  rewrite run_bind, run_emit, run_bind. unfold Ticker_history.
  cbn [trace fs]. rewrite fetch_calls_log. unfold outcome.
  destruct (history env _ ticker period interval) as [e|data].
  - run_steps. do 2 eexists. split; [reflexivity|]. trace_steps. auto.
  - destruct (Frame.empty data) eqn:He.
    + run_steps. do 2 eexists. split; [reflexivity|]. trace_steps. auto.
    + cbv zeta. rewrite run_bind. unfold to_csv. cbn [trace fs].
      rewrite write_calls_history, write_calls_log.
      destruct (fs w !! data_dir) as [files|];
        [destruct (disk env _ data_dir _) as [|[k|]]|];
        run_steps; (do 2 eexists); (split; [reflexivity|]); trace_steps; auto.
Qed.

(** ** The dict of results *)

Lemma dict_get_set_eq (d : Dict) key value :
  PyDict.get (PyDict.set d key value) key = Some value.
Proof.
  induction d as [|[k v] d IH]; simpl.
  - now rewrite String.eqb_refl.
  - destruct (String.eqb k key) eqn:E; simpl; rewrite E; auto.
Qed.

Lemma dict_get_set_ne (d : Dict) key key' value :
  key <> key' ->
  PyDict.get (PyDict.set d key value) key' = PyDict.get d key'.
Proof.
  intros Hne. induction d as [|[k v] d IH]; simpl.
  - destruct (String.eqb key key') eqn:E; [|reflexivity].
    apply String.eqb_eq in E. contradiction.
  - destruct (String.eqb k key) eqn:E; simpl.
    + apply String.eqb_eq in E. subst k.
      destruct (String.eqb key key') eqn:E'; [|reflexivity].
      apply String.eqb_eq in E'. contradiction.
    + destruct (String.eqb k key'); auto.
Qed.

Lemma dict_get_set_is_Some (d : Dict) key key' value :
  is_Some (PyDict.get d key') ->
  is_Some (PyDict.get (PyDict.set d key value) key').
Proof.
  intros H. destruct (decide (key = key')) as [->|Hne].
  - rewrite dict_get_set_eq. eauto.
  - now rewrite dict_get_set_ne.
Qed.

Lemma dict_set_length (d : Dict) key value :
  length (PyDict.set d key value) <= S (length d).
Proof.
  induction d as [|[k v] d IH]; simpl; [lia|].
  destruct (String.eqb k key); simpl; lia.
Qed.

Lemma dict_set_Forall (P : DataFrame -> Prop) (d : Dict) key value :
  P value -> Forall (fun item => P (snd item)) d ->
  Forall (fun item => P (snd item)) (PyDict.set d key value).
Proof.
  intros Hv. induction 1 as [|[k v] d Hk Hd IH]; simpl.
  - repeat constructor. exact Hv.
  - destruct (String.eqb k key); constructor; auto.
Qed.

Lemma dict_get_keys (d : Dict) key :
  is_Some (PyDict.get d key) <-> key ∈ PyDict.keys d.
Proof.
  unfold PyDict.keys. induction d as [|[k v] d IH]; simpl.
  - split; [intros [? ?]; discriminate|]. intros H. inversion H.
  - rewrite elem_of_cons. destruct (String.eqb k key) eqn:E.
    + apply String.eqb_eq in E. subst. split; eauto.
    + apply String.eqb_neq in E. rewrite IH. simpl. split; [auto|].
      intros [->|H]; [contradiction|exact H].
Qed.

Lemma set_Ticker_not_empty data ticker :
  Frame.empty data = false ->
  Frame.empty (Frame.set_Ticker data ticker) = false.
Proof.
  unfold Frame.empty, Frame.ncols. simpl.
  intros H. apply orb_false_iff in H as [H _]. rewrite H. simpl.
  apply Nat.eqb_neq. lia.
Qed.

(** ** The batch *)

Lemma sleep_step (b : bool) (delay : Q) (w : World) :
  Qle_bool 0 delay = true ->
  exists w',
    (if b then time_sleep delay else mret tt) w = (Return tt, w') /\
    fetch_calls (trace w') = fetch_calls (trace w) /\
    validation_records (trace w') = validation_records (trace w) /\
    fs w' = fs w.
Proof.
  intros Hd. destruct b.
  - unfold time_sleep. rewrite Hd. eexists. split; [reflexivity|].
    trace_steps. auto.
  - eexists. split; [reflexivity|]. auto.
Qed.

Lemma download_loop_run env n i tickers period interval delay results w :
  Qle_bool 0 delay = true ->
  exists results' w',
    download_loop env n i tickers period interval delay results w
    = (Return results', w') /\
    fetch_calls (trace w') = fetch_calls (trace w) ++ tickers /\
    validation_records (trace w') = validation_records (trace w) /\
    (forall s, never_data env s period interval ->
               PyDict.get results' s = PyDict.get results s) /\
    (forall s, is_Some (PyDict.get results' s) ->
               is_Some (PyDict.get results s) \/ s ∈ tickers) /\
    length results' <= length results + length tickers /\
    (Forall (fun item => Frame.empty (snd item) = false) results ->
     Forall (fun item => Frame.empty (snd item) = false) results') /\
    (is_Some (fs w !! data_dir) -> is_Some (fs w' !! data_dir)) /\
    (forall s, is_Some (PyDict.get results s) -> is_Some (PyDict.get results' s)) /\
    (forall s, s ∈ tickers -> always_data env s period interval ->
               is_Some (fs w !! data_dir) -> is_Some (PyDict.get results' s)).
Proof.
  intros Hd. revert i results w.
  induction tickers as [|t rest IH]; intros i results w.
  - exists results, w. cbn [download_loop]. rewrite run_ret, app_nil_r.
    repeat split; auto.
    + simpl. lia.
    + intros s Hs. inversion Hs.
  - cbn [download_loop]. unfold logger_info. run_steps.
    set (w1 := {| fs := fs w; trace := trace w ++ [EvLog INFO (MsgProcessing (i + 1) n t)] |}).
    destruct (download_ticker_data_run env t period interval w1)
      as (r & w2 & Hrun & Hf2 & Hv2 & _ & Hout).
    rewrite Hrun. cbv zeta. rewrite run_bind.
    destruct (sleep_step (Z.of_nat i <? Z.of_nat n - 1)%Z delay w2 Hd)
      as (w3 & Hsl & Hf3 & Hv3 & Hfs3).
    rewrite Hsl.
    set (results1 := match r with
                     | Some data => PyDict.set results t data
                     | None => results
                     end).
    destruct (IH (S i) results1 w3)
      as (results' & w' & Hloop & Hf & Hv & Hnever & Hdom & Hlen & Hne & Hdir
          & Hkeep & Halways).
    exists results', w'. rewrite Hloop.
    assert (Hf1 : fetch_calls (trace w1) = fetch_calls (trace w)).
    { subst w1. now trace_steps. }
    assert (Hv1 : validation_records (trace w1) = validation_records (trace w)).
    { subst w1. now trace_steps. }
    assert (Hw1 : length (fetch_calls (trace w1)) = length (fetch_calls (trace w))).
    { now rewrite Hf1. }
    assert (Hdir2 : is_Some (fs w !! data_dir) -> is_Some (fs w3 !! data_dir)).
    { intros [files Hfiles]. rewrite Hfs3. revert Hout.
      change (fs w1) with (fs w). rewrite Hfiles.
      destruct (outcome _); [|intros [_ ->]; rewrite Hfiles; eauto ..].
      cbv zeta. destruct (disk env _ data_dir _) as [|[k|]];
        intros [_ ->]; rewrite ?lookup_insert_eq, ?Hfiles; eauto. }
    split; [reflexivity|]. split.
    { rewrite Hf, Hf3, Hf2, Hf1, <- app_assoc. reflexivity. }
    split; [congruence|]. split.
    { intros s Hs. rewrite (Hnever s Hs). subst results1.
      destruct r as [data|]; [|reflexivity].
      destruct (decide (t = s)) as [->|Hne']; [|now apply dict_get_set_ne].
      exfalso. revert Hout. specialize (Hs (length (fetch_calls (trace w1)))).
      unfold no_data in Hs.
      destruct (outcome _); [discriminate|intros [? _]; discriminate ..]. }
    split.
    { intros s Hs. destruct (Hdom s Hs) as [H|H]; [|right; now right].
      subst results1. destruct r as [data|]; [|now left].
      destruct (decide (t = s)) as [->|Hne']; [right; now left|].
      left. now rewrite dict_get_set_ne in H. }
    split.
    { subst results1. simpl. destruct r as [data|].
      - pose proof (dict_set_length results t data). lia.
      - lia. }
    split.
    { intros Hall. apply Hne. subst results1.
      destruct r as [data|]; [|exact Hall].
      apply (dict_set_Forall (fun d => Frame.empty d = false)); [|exact Hall].
      revert Hout. unfold outcome.
      destruct (history env _ t period interval) as [e|d];
        [intros [? _]; discriminate|].
      destruct (Frame.empty d) eqn:He; [intros [? _]; discriminate|].
      cbv zeta. destruct (fs w1 !! data_dir);
        [destruct (disk env _ data_dir _) as [|[k|]]|];
        intros [Hr _]; try discriminate.
      injection Hr as ->. now apply set_Ticker_not_empty. }
    split; [auto|]. split.
    { intros s Hs. apply Hkeep. subst results1.
      destruct r as [data|]; [|exact Hs]. now apply dict_get_set_is_Some. }
    intros s Hs [Hok Hdisk] Hexists.
    apply elem_of_cons in Hs as [->|Hs].
    + apply Hkeep. subst results1. revert Hout.
      specialize (Hok (length (fetch_calls (trace w1)))). unfold no_data in Hok.
      destruct (outcome _); [|discriminate ..].
      cbv zeta. change (fs w1) with (fs w).
      destruct Hexists as [files ->]. rewrite Hdisk.
      intros [-> _]. rewrite dict_get_set_eq. eauto.
    + apply Halways; [exact Hs|split; assumption|auto].
Qed.

(** ** The summary report *)

(** The verdict of [validate_data] does not depend on the world. *)
Lemma validate_data_verdict data ticker :
  exists passed, forall w, exists w',
    validate_data data ticker w = (Return passed, w') /\ fs w' = fs w /\
    fetch_calls (trace w') = fetch_calls (trace w) /\
    write_calls (trace w') = write_calls (trace w).
Proof.
  destruct (Frame.empty data) eqn:He.
  { exists false. intros w. eexists. split; [now apply validate_data_empty|].
    unfold logged. now trace_steps. }
  destruct (decide (missing_columns data = [])) as [Hm|Hm].
  2:{ exists false. intros w. eexists.
      split; [now apply validate_data_missing|].
      unfold logged. now trace_steps. }
  destruct (validate_data_close data ticker {| fs := ∅; trace := [] |} He Hm)
    as (close & Hc & _).
  exists (negb (Frame.any_le_0 close)). intros w.
  destruct (validate_data_close data ticker w He Hm) as (close' & Hc' & Hrun).
  rewrite Hc in Hc'. injection Hc' as <-. rewrite Hrun.
  destruct (Frame.any_le_0 close); simpl.
  - eexists. split; [reflexivity|]. unfold logged. now trace_steps.
  - eexists. split; [reflexivity|].
    destruct (0 <? Frame.isnull_sum_sum data)%nat; unfold logged; now trace_steps.
Qed.

Lemma summary_loop_run (items : Dict) (summary_data : list SummaryRow) (w : World) :
  (forall item, item ∈ reported items ->
     Frame.has_column "Close" (snd item) = true /\
     Frame.has_column "Volume" (snd item) = true) ->
  exists rows w',
    summary_loop items summary_data w = (Return (summary_data ++ rows), w') /\
    Forall2 computed_row (reported items) rows /\
    fs w' = fs w /\
    fetch_calls (trace w') = fetch_calls (trace w) /\
    write_calls (trace w') = write_calls (trace w).
Proof.
  revert summary_data w.
  induction items as [|[ticker data] rest IH]; intros summary_data w Hcols.
  - exists [], w. cbn [summary_loop]. rewrite run_ret, app_nil_r.
    repeat split; auto.
  - cbn [summary_loop]. unfold reported in *. cbn [List.filter snd] in *.
    destruct (Frame.empty data) eqn:He; cbn [negb] in *.
    + apply IH. exact Hcols.
    + destruct (Hcols (ticker, data)) as [Hclose Hvolume]; [now left|].
      apply has_column_lookup in Hclose as [close Hclose].
      apply has_column_lookup in Hvolume as [volume Hvolume].
      cbn [snd] in *. unfold getitem. rewrite Hclose, Hvolume. run_steps.
      destruct (validate_data_verdict data ticker) as [passed Hpassed].
      destruct (Hpassed w) as (w1 & Hrun & Hfs1 & Hf1 & Hw1). rewrite Hrun.
      destruct (IH (summary_data ++
           [{| Ticker := ticker;
               Records := Frame.len data;
               Start_Date := Frame.index_min (index data);
               End_Date := Frame.index_max (index data);
               Min_Close := Frame.series_min close;
               Max_Close := Frame.series_max close;
               Avg_Volume := Frame.series_mean volume;
               Data_Quality := if passed then "Valid" else "Issues" |}]) w1)
        as (rows & w' & Hloop & Hrows & Hfs & Hf & Hw).
      { intros item Hitem. apply Hcols. now right. }
      rewrite Hloop, <- app_assoc. do 2 eexists. split; [reflexivity|].
      split; [|repeat split; congruence].
      constructor; [|exact Hrows].
      repeat split; cbn [fst snd Ticker Records Start_Date End_Date Min_Close
                           Max_Close Avg_Volume Data_Quality]; eauto.
      intros w0. destruct (Hpassed w0) as (w0' & Hrun0 & _). eauto.
Qed.

Lemma generate_summary_report_run env (results : Dict) (w : World) :
  (forall item, item ∈ reported results ->
     Frame.has_column "Close" (snd item) = true /\
     Frame.has_column "Volume" (snd item) = true) ->
  is_Some (fs w !! "output") ->
  disk env (length (write_calls (trace w))) "output"
       ("download_summary_" +:+ now env +:+ ".csv") = WriteOk ->
  exists rows w',
    generate_summary_report env results w = (Return rows, w') /\
    Forall2 computed_row (reported results) rows /\
    (exists out, fs w' !! "output" = Some out /\
       out !! ("download_summary_" +:+ now env +:+ ".csv")
       = Some (CsvSummary rows)).
Proof.
  intros Hcols [out Hout] Hdisk. unfold generate_summary_report.
  destruct (summary_loop_run results [] w Hcols)
    as (rows & w1 & Hloop & Hrows & Hfs & Hf & Hw).
  rewrite run_bind, Hloop. cbn [app]. cbv zeta. rewrite run_bind.
  unfold to_csv. rewrite Hfs, Hout, Hw, Hdisk. unfold logger_info. run_steps.
  do 2 eexists. split; [reflexivity|]. split; [exact Hrows|].
  cbn [fs]. rewrite lookup_insert_eq. eexists. split; [reflexivity|].
  apply lookup_insert_eq.
Qed.

Lemma Forall2_computed_row_tickers (items : Dict) (rows : list SummaryRow) :
  Forall2 computed_row items rows -> map Ticker rows = PyDict.keys items.
Proof.
  unfold PyDict.keys. induction 1 as [|item row items rows Hrow _ IH]; [reflexivity|].
  simpl. destruct Hrow as [-> _]. now rewrite IH.
Qed.

Lemma reported_all (results : Dict) :
  Forall (fun item => Frame.empty (snd item) = false) results ->
  reported results = results.
Proof.
  unfold reported. induction 1 as [|item items Hitem _ IH]; [reflexivity|].
  simpl. now rewrite Hitem, IH.
Qed.

(** ** The run *)

Lemma makedirs_run (dir : string) (w : World) :
  exists w',
    os_makedirs dir w = (Return tt, w') /\ trace w' = trace w /\
    is_Some (fs w' !! dir) /\
    (forall d, is_Some (fs w !! d) -> is_Some (fs w' !! d)).
Proof.
  unfold os_makedirs. destruct (fs w !! dir) as [files|] eqn:Hd.
  - exists w. repeat split; eauto.
  - eexists. split; [reflexivity|]. cbn [fs trace].
    repeat split; [now rewrite lookup_insert_eq|].
    intros d [x Hx]. destruct (decide (dir = d)) as [->|Hne].
    + rewrite lookup_insert_eq. eauto.
    + rewrite lookup_insert_ne by exact Hne. eauto.
Qed.

Lemma ensure_directories_run (w : World) :
  exists w',
    _ensure_directories w = (Return tt, w') /\ trace w' = trace w /\
    is_Some (fs w' !! data_dir).
Proof.
  unfold _ensure_directories.
  destruct (makedirs_run data_dir w) as (w1 & H1 & Ht1 & Hd1 & _).
  destruct (makedirs_run "logs" w1) as (w2 & H2 & Ht2 & _ & Hk2).
  destruct (makedirs_run "output" w2) as (w3 & H3 & Ht3 & _ & Hk3).
  exists w3. rewrite run_bind, H1, run_bind, H2, H3.
  repeat split; [congruence|auto].
Qed.

Lemma display_results_stable R (R_refl : forall w, R w w)
    (R_trans : forall w1 w2 w3, R w1 w2 -> R w2 w3 -> R w1 w3)
    new_tickers results :
  stable R (display_results new_tickers results).
Proof.
  induction new_tickers as [|t rest IH]; cbn [display_results].
  - now apply stable_ret.
  - destruct (PyDict.get results t); [|exact IH].
    apply stable_bind; [auto| |intros ?]; [now apply getitem_stable|].
    apply stable_bind; [auto| |intros ?]; [now apply getitem_stable|exact IH].
Qed.

Lemma summary_loop_same_fetches items summary_data :
  stable same_fetches (summary_loop items summary_data).
Proof.
  revert summary_data.
  induction items as [|[ticker data] rest IH]; intros summary_data;
    cbn [summary_loop].
  - stable_auto.
  - destruct (negb (Frame.empty data)); [|apply IH].
    repeat (apply stable_bind; [eauto with views| |intros ?]);
      auto with views.
Qed.

Lemma generate_summary_report_same_fetches env results :
  stable same_fetches (generate_summary_report env results).
Proof.
  unfold generate_summary_report, logger_info.
  apply stable_bind; [eauto with views| |intros ?];
    [apply summary_loop_same_fetches|].
  stable_auto.
Qed.

(** The fetches of a whole run of [main]: the tickers of the configuration
    that the scan of the data directory does not find, in their order. *)
Lemma main_fetch_calls env cfg w :
  Qle_bool 0 (default 1%Q (delay_between_requests cfg)) = true ->
  fetch_calls (trace (snd (main env cfg w)))
  = fetch_calls (trace w)
    ++ List.filter (fun ticker => bool_decide (ticker ∉ scan_files (listing w)))
                   (BIST_TICKERS cfg).
Proof.
  intros Hd. unfold main, try_except.
  rewrite run_bind, get_existing_tickers_run.
  rewrite run_bind, get_new_tickers_to_download_run.
  set (new_tickers := List.filter _ (BIST_TICKERS cfg)).
  destruct (decide (new_tickers = [])) as [Hnil|Hnil].
  - rewrite bool_decide_eq_true_2 by exact Hnil. rewrite run_ret, Hnil.
    simpl. now rewrite app_nil_r.
  - rewrite bool_decide_eq_false_2 by exact Hnil. rewrite run_bind.
    destruct (ensure_directories_run w) as (w1 & H1 & Ht1 & _). rewrite H1.
    rewrite run_bind. unfold download_multiple_tickers.
    destruct (download_loop_run env (length new_tickers) 0 new_tickers
                (period cfg) (interval cfg)
                (default 1%Q (delay_between_requests cfg)) [] w1 Hd)
      as (results & w2 & Hloop & Hf & _).
    rewrite Hloop, <- Ht1, <- Hf.
    match goal with
    | |- context [ (?m ≫= ?f) w2 ] =>
        set (rest := m ≫= f); assert (Hs : stable same_fetches rest);
        [subst rest|]
    end.
    { apply stable_bind; [eauto with views| |intros ?];
        [apply display_results_stable; eauto with views|].
      apply stable_bind; [eauto with views| |intros ?].
      - apply stable_if; [|stable_auto].
        apply stable_bind; [eauto with views| |intros ?];
          [apply generate_summary_report_same_fetches|stable_auto].
      - stable_auto. }
    specialize (Hs w2). unfold same_fetches in Hs.
    destruct (rest w2) as [[b|e] w3]; exact Hs.
Qed.

(** * The claims *)

Lemma filter_not_in_empty (l : list string) :
  List.filter (fun ticker => bool_decide (ticker ∉ (∅ : gset string))) l = l.
Proof.
  induction l as [|x l IH]; [reflexivity|]. cbn [List.filter].
  rewrite bool_decide_eq_true_2 by apply not_elem_of_empty. now rewrite IH.
Qed.

Lemma listing_missing (w : World) : fs w !! data_dir = None -> listing w = [].
Proof. unfold listing. now intros ->. Qed.

(** C1, as stated, fails in its last part: with the artifact
    [XU100_1y_1d.csv] of the configured ticker [XU100] in the data directory,
    the scan yields [XU100.IS], which is not [XU100], and the run calls the
    provider for [XU100] again. *)
Lemma stored_symbol_is_fetched_again :
  ~ at_most_once_acquisition Scenario.env_ok Scenario.cfg_index Scenario.indexed.
Proof.
  intros H.
  assert (Hstored : present_in_storage Scenario.indexed "XU100").
  { exists "1y", "1d". vm_compute. constructor. }
  assert (Hrun : fetched_in_run Scenario.env_ok Scenario.cfg_index Scenario.indexed
                 = ["XU100"]) by (vm_compute; reflexivity).
  apply (H "XU100" Hstored). rewrite Hrun. constructor.
Qed.

(** C1, amended. For every run with a non-negative delay, [main] calls the
    provider for exactly the tickers of the configuration that the scan of
    the data directory does not yield, in the order of the configuration,
    where the scan yields [prefix + '.IS'] for every file of the data
    directory whose name ends in ['.csv'] ([prefix] is the text before the
    first underscore). No ticker the scan yields is fetched, and when the
    configured list has no duplicates no ticker is fetched twice. So a ticker
    [X.IS] whose stem has no underscore and no further ['.IS'], and whose
    artifact (of any period and interval) is in the data directory before
    the run, is not fetched; but a configured ticker that does not end in
    ['.IS'], or has an underscore, is fetched whatever the data directory
    holds. *)
Theorem acquisition_fetches_exactly_missing (env : Env) (cfg : Config) (w : World) :
  Qle_bool 0 (default 1%Q (delay_between_requests cfg)) = true ->
  exists existing fetched,
    get_existing_tickers w = (Return existing, w) /\
    (forall s, s ∈ existing <->
       exists file, file ∈ listing w /\ PyStr.endswith file ".csv" = true /\
                    s = PyStr.split_underscore_0 file +:+ ".IS") /\
    fetch_calls (trace (snd (main env cfg w))) = fetch_calls (trace w) ++ fetched /\
    fetched_in_run env cfg w = fetched /\
    fetched = List.filter (fun ticker => bool_decide (ticker ∉ existing))
                          (BIST_TICKERS cfg) /\
    (forall s, s ∈ fetched <-> s ∈ BIST_TICKERS cfg /\ s ∉ existing) /\
    (forall s, s ∈ existing -> s ∉ fetched) /\
    (NoDup (BIST_TICKERS cfg) -> NoDup fetched) /\
    (forall s, plain_ticker s -> present_in_storage w s -> s ∉ fetched) /\
    (forall s, s ∈ BIST_TICKERS cfg ->
       PyStr.endswith s ".IS" = false \/ PyStr.count_underscore s <> 0 ->
       s ∈ fetched).
Proof.
  intros Hd. exists (scan_files (listing w)). eexists.
  split; [apply get_existing_tickers_run|].
  split; [intros s; apply elem_of_scan_files|].
  split; [now apply main_fetch_calls|].
  split.
  { unfold fetched_in_run. rewrite main_fetch_calls by exact Hd.
    apply drop_app_length. }
  split; [reflexivity|].
  assert (Hin : forall s,
    s ∈ List.filter (fun ticker => bool_decide (ticker ∉ scan_files (listing w)))
                    (BIST_TICKERS cfg)
    <-> s ∈ BIST_TICKERS cfg /\ s ∉ scan_files (listing w)).
  { intros s. rewrite !list_elem_of_In, List.filter_In, bool_decide_eq_true.
    reflexivity. }
  split; [exact Hin|]. split; [|split; [|split]].
  - intros s Hs Hf. apply Hin in Hf as [_ Hf]. contradiction.
  - rewrite !NoDup_ListNoDup. apply List.NoDup_filter.
  - intros s (X & -> & Hu & Hr) (period & interval & Hfile) Hf.
    apply Hin in Hf as [_ Hf]. apply Hf, elem_of_scan_files.
    exists (filename (X +:+ ".IS") period interval).
    split; [exact Hfile|]. split; [apply filename_endswith_csv|].
    symmetry. now apply ticker_name_filename.
  - intros s Hs Hodd. apply Hin. split; [exact Hs|].
    intros H. apply scanned_name_shape in H as [He Hu].
    destruct Hodd as [Ho|Ho]; [congruence|contradiction].
Qed.

Lemma acquisition_fetches_exactly_missing_witness :
  exists existing fetched,
    get_existing_tickers Scenario.resumed = (Return existing, Scenario.resumed) /\
    (forall s, s ∈ existing <->
       exists file, file ∈ listing Scenario.resumed /\
                    PyStr.endswith file ".csv" = true /\
                    s = PyStr.split_underscore_0 file +:+ ".IS") /\
    fetch_calls (trace (snd (main Scenario.env_ok Scenario.cfg Scenario.resumed)))
    = fetch_calls (trace Scenario.resumed) ++ fetched /\
    fetched_in_run Scenario.env_ok Scenario.cfg Scenario.resumed = fetched /\
    fetched = List.filter (fun ticker => bool_decide (ticker ∉ existing))
                          (BIST_TICKERS Scenario.cfg) /\
    (forall s, s ∈ fetched <-> s ∈ BIST_TICKERS Scenario.cfg /\ s ∉ existing) /\
    (forall s, s ∈ existing -> s ∉ fetched) /\
    (NoDup (BIST_TICKERS Scenario.cfg) -> NoDup fetched) /\
    (forall s, plain_ticker s -> present_in_storage Scenario.resumed s ->
               s ∉ fetched) /\
    (forall s, s ∈ BIST_TICKERS Scenario.cfg ->
       PyStr.endswith s ".IS" = false \/ PyStr.count_underscore s <> 0 ->
       s ∈ fetched).
Proof.
  apply (acquisition_fetches_exactly_missing
           Scenario.env_ok Scenario.cfg Scenario.resumed).
  reflexivity.
Defined.

Example resumed_run_fetches :
  fetch_calls (trace (snd (main Scenario.env_ok Scenario.cfg Scenario.resumed)))
  = ["FAIL.IS"; "GARAN.IS"].
Proof. vm_compute. reflexivity. Qed.

(** C10. When the data directory does not exist, both scanners return the
    empty set without raising, the list of tickers to download is the whole
    configured list, and a run with a non-negative delay fetches every
    configured ticker. *)
Theorem missing_directory_scans_empty (env : Env) (cfg : Config) (w : World) :
  fs w !! data_dir = None ->
  Qle_bool 0 (default 1%Q (delay_between_requests cfg)) = true ->
  get_existing_tickers w = (Return ∅, w) /\
  get_new_tickers_to_download cfg w = (Return (BIST_TICKERS cfg), w) /\
  CheckProgress.existing_files w = (Return [], w) /\
  CheckProgress.missing_tickers cfg w
  = (Return (list_to_set (BIST_TICKERS cfg)), w) /\
  fetch_calls (trace (snd (main env cfg w)))
  = fetch_calls (trace w) ++ BIST_TICKERS cfg.
Proof.
  intros Hnone Hd. pose proof (listing_missing w Hnone) as Hl.
  split; [|split; [|split; [|split]]].
  - rewrite get_existing_tickers_run, Hl. reflexivity.
  - rewrite get_new_tickers_to_download_run, Hl.
    change (scan_files []) with (∅ : gset string).
    now rewrite filter_not_in_empty.
  - unfold CheckProgress.existing_files, os_path_exists.
    rewrite run_bind, Hnone.
    rewrite bool_decide_eq_false_2 by (intros [? ?]; discriminate).
    reflexivity.
  - rewrite missing_tickers_run, Hl.
    change (scan_files []) with (∅ : gset string).
    now rewrite difference_empty_L.
  - rewrite main_fetch_calls by exact Hd. rewrite Hl.
    change (scan_files []) with (∅ : gset string).
    now rewrite filter_not_in_empty.
Qed.

Lemma missing_directory_scans_empty_witness :
  get_existing_tickers Scenario.fresh = (Return ∅, Scenario.fresh) /\
  get_new_tickers_to_download Scenario.cfg Scenario.fresh
  = (Return ["THYAO.IS"; "FAIL.IS"; "GARAN.IS"], Scenario.fresh) /\
  CheckProgress.existing_files Scenario.fresh = (Return [], Scenario.fresh) /\
  CheckProgress.missing_tickers Scenario.cfg Scenario.fresh
  = (Return (list_to_set ["THYAO.IS"; "FAIL.IS"; "GARAN.IS"]), Scenario.fresh) /\
  fetch_calls (trace (snd (main Scenario.env_ok Scenario.cfg Scenario.fresh)))
  = fetch_calls (trace Scenario.fresh) ++ ["THYAO.IS"; "FAIL.IS"; "GARAN.IS"].
Proof.
  apply (missing_directory_scans_empty Scenario.env_ok Scenario.cfg Scenario.fresh);
    reflexivity.
Defined.

(** C7, as stated, fails: a data directory that holds only
    [THYAO_backup.csv], which is not the artifact name of any ticker, period
    and interval, is scanned as holding [THYAO.IS]. *)
Lemma stray_csv_is_attributed : ~ scan_only_well_formed Scenario.stray.
Proof.
  intros H.
  assert (Hl : listing Scenario.stray = ["THYAO_backup.csv"])
    by (vm_compute; reflexivity).
  destruct (H _ _ (get_existing_tickers_run _) "THYAO.IS")
    as (file & Hin & (t & p & i & Hwf) & _).
  { rewrite Hl. apply elem_of_scan_files. exists "THYAO_backup.csv".
    split; [constructor|split; reflexivity]. }
  rewrite Hl in Hin. apply list_elem_of_singleton in Hin. subst file.
  pose proof (filename_count_underscore t p i) as Hc.
  rewrite <- Hwf in Hc. vm_compute in Hc. lia.
Qed.

(** C7, amended. The scan never raises and leaves the world as it is; it
    returns exactly the names [prefix + '.IS'] for the files of the data
    directory whose name ends in ['.csv'], where [prefix] is the text before
    the first underscore, whether or not the file is a well-formed artifact;
    other files are skipped. The scanner of [check_progress.py] uses the
    same set. The artifact of a ticker [X.IS] whose stem has no underscore
    and no further ['.IS'] is attributed to that ticker. *)
Theorem scan_attributes_every_csv (w : World) :
  exists existing,
    get_existing_tickers w = (Return existing, w) /\
    (forall s, s ∈ existing <->
       exists file, file ∈ listing w /\ PyStr.endswith file ".csv" = true /\
                    s = PyStr.split_underscore_0 file +:+ ".IS") /\
    (forall cfg,
       CheckProgress.missing_tickers cfg w
       = (Return (list_to_set (BIST_TICKERS cfg) ∖ existing), w)) /\
    (forall X period interval,
       PyStr.count_underscore X = 0 ->
       PyStr.replace_IS (X +:+ ".IS") = X ->
       filename (X +:+ ".IS") period interval ∈ listing w ->
       X +:+ ".IS" ∈ existing).
Proof.
  exists (scan_files (listing w)).
  split; [apply get_existing_tickers_run|].
  split; [intros s; apply elem_of_scan_files|].
  split; [intros cfg; apply missing_tickers_run|].
  intros X period interval Hu Hr Hin. apply elem_of_scan_files.
  exists (filename (X +:+ ".IS") period interval).
  split; [exact Hin|]. split; [apply filename_endswith_csv|].
  symmetry. now apply ticker_name_filename.
Qed.

Example resumed_scan :
  exists existing,
    get_existing_tickers Scenario.resumed = (Return existing, Scenario.resumed) /\
    "THYAO.IS" ∈ existing.
Proof.
  exists (scan_files (listing Scenario.resumed)).
  split; [apply get_existing_tickers_run|].
  apply elem_of_scan_files. exists "THYAO_1y_1d.csv".
  split; [vm_compute; constructor|split; reflexivity].
Qed.

Lemma missing_columns_cons (data : DataFrame) :
  missing_columns data <> [] ->
  exists col, col ∈ required_columns /\ Frame.has_column col data = false.
Proof.
  unfold missing_columns. intros H.
  destruct (List.filter _ required_columns) as [|c l] eqn:Hf; [contradiction|].
  assert (Hin : In c (List.filter (fun c => negb (Frame.has_column c data))
                                  required_columns)).
  { rewrite Hf. now left. }
  apply List.filter_In in Hin as [Hin Hneg]. exists c.
  split; [now apply list_elem_of_In|]. now apply negb_true_iff.
Qed.


Example null_cell_passes :
  fst (validate_data (Frame.set_Ticker Scenario.table_null_cell "THYAO.IS")
                     "THYAO.IS" Scenario.ready) = Return true /\
  Frame.isnull_sum_sum Scenario.table_null_cell = 1.
Proof. split; reflexivity. Qed.

Example zero_close_fails :
  fst (validate_data (Frame.set_Ticker Scenario.table_bad_close "BAD.IS")
                     "BAD.IS" Scenario.ready) = Return false.
Proof. reflexivity. Qed.

(** C5, as stated, fails. On a table without the volume column and with one
    close at zero, [validate_data] stops at the missing column and says
    nothing of the close; and two tables with one and with two non-positive
    closes get the same verdict and the same log record, so no count is
    reported. *)
Lemma validate_data_stops_at_first_failure :
  ~ reports_every_violation Scenario.table_no_volume "THYAO.IS" Scenario.ready /\
  nonPositiveCloseCount Scenario.table_bad_close = 1 /\
  nonPositiveCloseCount Scenario.table_two_bad_closes = 2 /\
  validate_data Scenario.table_bad_close "THYAO.IS" Scenario.ready
  = validate_data Scenario.table_two_bad_closes "THYAO.IS" Scenario.ready.
Proof.
  split; [|repeat split; reflexivity].
  intros [_ H].
  assert (Hpos : 0 < nonPositiveCloseCount Scenario.table_no_volume)
    by (vm_compute; lia).
  specialize (H Hpos).
  change (trace (snd (validate_data Scenario.table_no_volume "THYAO.IS"
                        Scenario.ready)))
    with [EvLog WARNING (MsgMissingColumns "THYAO.IS" ["Volume"])] in H.
  apply list_elem_of_singleton in H. discriminate.
Qed.

(** C5, amended. [validate_data] returns the verdict alone and checks the
    rules in order, stopping at the first that fails, with one log record
    for it: an empty table; else the list of the missing required columns
    (for a table that lacks only the volume column, exactly [Volume]); else
    a non-positive close, without a count. Null cells are counted and logged
    only when all three checks pass. *)
Theorem validate_data_first_failure (data : DataFrame) (ticker : string) (w : World) :
  (Frame.empty data = true ->
   validate_data data ticker w
   = (Return false, logged w WARNING (MsgDataEmpty ticker))) /\
  (Frame.empty data = false -> missing_columns data <> [] ->
   validate_data data ticker w
   = (Return false,
      logged w WARNING (MsgMissingColumns ticker (missing_columns data)))) /\
  (Frame.empty data = false ->
   Frame.has_column "Open" data = true -> Frame.has_column "High" data = true ->
   Frame.has_column "Low" data = true -> Frame.has_column "Close" data = true ->
   Frame.has_column "Volume" data = false ->
   validate_data data ticker w
   = (Return false, logged w WARNING (MsgMissingColumns ticker ["Volume"]))) /\
  (Frame.empty data = false -> missing_columns data = [] ->
   0 < nonPositiveCloseCount data ->
   validate_data data ticker w
   = (Return false, logged w WARNING (MsgInvalidClose ticker))) /\
  (Frame.empty data = false -> missing_columns data = [] ->
   nonPositiveCloseCount data = 0 ->
   validate_data data ticker w
   = (Return true,
      logged (if (0 <? Frame.isnull_sum_sum data)%nat
              then logged w WARNING
                     (MsgMissingValues (Frame.isnull_sum_sum data) ticker)
              else w)
             INFO (MsgValidationPassed ticker))).
Proof.
  assert (Hcount : forall close,
    Frame.lookup_column "Close" (columns data) = Some close ->
    Frame.any_le_0 close = negb (nonPositiveCloseCount data =? 0)%nat).
  { intros close Hc. unfold nonPositiveCloseCount, close_values. rewrite Hc.
    unfold Frame.any_le_0, Frame.dropna. clear Hc.
    induction close as [|[q|] close IH]; simpl; [reflexivity| |exact IH].
    destruct (Qle_bool q 0); simpl; [reflexivity|exact IH]. }
  split; [apply validate_data_empty|].
  split; [apply validate_data_missing|].
  split.
  { intros He Ho Hh Hl Hc Hv.
    assert (Hm : missing_columns data = ["Volume"]).
    { unfold missing_columns, required_columns. simpl.
      now rewrite Ho, Hh, Hl, Hc, Hv. }
    rewrite <- Hm. apply validate_data_missing; [exact He|].
    rewrite Hm. discriminate. }
  split.
  - intros He Hm Hpos.
    destruct (validate_data_close data ticker w He Hm) as (close & Hc & ->).
    rewrite (Hcount close Hc).
    destruct (nonPositiveCloseCount data); [lia|reflexivity].
  - intros He Hm Hzero.
    destruct (validate_data_close data ticker w He Hm) as (close & Hc & ->).
    rewrite (Hcount close Hc), Hzero. reflexivity.
Qed.

Example no_volume_reports_volume :
  validate_data Scenario.table_no_volume "THYAO.IS" Scenario.ready
  = (Return false,
     logged Scenario.ready WARNING (MsgMissingColumns "THYAO.IS" ["Volume"])).
Proof.
  apply validate_data_missing; [reflexivity|discriminate].
Qed.




Example batch_of_three_keys :
  PyDict.keys (match fst (download_multiple_tickers Scenario.env_ok
                            ["THYAO.IS"; "FAIL.IS"; "GARAN.IS"] "1y" "1d" 1
                            Scenario.ready) with
               | Return results => results
               | Raise _ => []
               end)
  = ["THYAO.IS"; "GARAN.IS"].
Proof. vm_compute. reflexivity. Qed.

(** C3, as stated, fails: after the batch of three tickers with one failed
    fetch the report has two rows, and none for the failed ticker. *)
Lemma report_drops_failed_symbol :
  ~ report_covers_attempted Scenario.env_ok
      ["THYAO.IS"; "FAIL.IS"; "GARAN.IS"] "1y" "1d" 1 Scenario.ready.
Proof.
  intros H.
  assert (Hrun : exists results w1 rows w2,
    download_multiple_tickers Scenario.env_ok
      ["THYAO.IS"; "FAIL.IS"; "GARAN.IS"] "1y" "1d" 1 Scenario.ready
    = (Return results, w1) /\
    generate_summary_report Scenario.env_ok results w1 = (Return rows, w2) /\
    length rows = 2).
  { eexists _, _, _, _. split; [vm_compute; reflexivity|].
    split; [vm_compute; reflexivity|reflexivity]. }
  destruct Hrun as (results & w1 & rows & w2 & Hrun & Hrep & Hlen).
  destruct (H results w1 rows w2 Hrun Hrep) as [Hlen' _].
  simpl in Hlen'. congruence.
Qed.

(** C3, amended. After a batch (non-negative delay) whose tables all have the
    close and volume columns, with the output directory in place and the
    disk accepting the report, [generate_summary_report] returns one computed
    row for each entry of the dict the batch returned, in the order of the
    dict: the rows are at most as many as the attempted tickers, every row is
    of an attempted ticker, and a ticker for which the provider never has
    data (Empty or Failed) has no row. *)
Theorem report_rows_are_the_results (env : Env) (tickers : list string)
    (period interval : string) (delay : Q) (w : World)
    (results : Dict) (w1 : World) :
  Qle_bool 0 delay = true ->
  download_multiple_tickers env tickers period interval delay w
  = (Return results, w1) ->
  (forall item, item ∈ results ->
     Frame.has_column "Close" (snd item) = true /\
     Frame.has_column "Volume" (snd item) = true) ->
  is_Some (fs w1 !! "output") ->
  disk env (length (write_calls (trace w1))) "output"
       ("download_summary_" +:+ now env +:+ ".csv") = WriteOk ->
  exists rows w2,
    generate_summary_report env results w1 = (Return rows, w2) /\
    Forall2 computed_row results rows /\
    map Ticker rows = PyDict.keys results /\
    length rows <= length tickers /\
    (forall s, s ∈ map Ticker rows -> s ∈ tickers) /\
    (forall s, never_data env s period interval -> s ∉ map Ticker rows).
Proof.
  intros Hd Hrun Hcols Hout Hdisk. unfold download_multiple_tickers in Hrun.
  destruct (download_loop_run env (length tickers) 0 tickers period interval
              delay [] w Hd)
    as (results' & w' & Hrun' & _ & _ & Hnever & Hdom & Hlen & Hne & _).
  rewrite Hrun in Hrun'. injection Hrun' as <- <-.
  assert (Hrep : reported results = results).
  { apply reported_all, Hne. constructor. }
  destruct (generate_summary_report_run env results w1) as (rows & w2 & Hgen & Hrows & _);
    [rewrite Hrep; exact Hcols|exact Hout|exact Hdisk|].
  rewrite Hrep in Hrows.
  pose proof (Forall2_computed_row_tickers results rows Hrows) as Hkeys.
  exists rows, w2. split; [exact Hgen|]. split; [exact Hrows|].
  split; [exact Hkeys|]. split.
  { rewrite <- (Forall2_length _ _ _ Hrows). simpl in Hlen. exact Hlen. }
  split.
  - intros s Hs. rewrite Hkeys in Hs. apply dict_get_keys in Hs.
    destruct (Hdom s Hs) as [[? H]|H]; [discriminate|exact H].
  - intros s Hs Hin. rewrite Hkeys in Hin. apply dict_get_keys in Hin.
    rewrite (Hnever s Hs) in Hin. destruct Hin as [? Hin]. discriminate.
Qed.

Lemma report_rows_are_the_results_witness :
  exists results w1 rows w2,
    download_multiple_tickers Scenario.env_ok ["THYAO.IS"; "FAIL.IS"; "GARAN.IS"]
      "1y" "1d" 1 Scenario.ready
    = (Return results, w1) /\
    generate_summary_report Scenario.env_ok results w1 = (Return rows, w2) /\
    Forall2 computed_row results rows /\
    map Ticker rows = PyDict.keys results /\
    length rows <= 3 /\
    (forall s, s ∈ map Ticker rows -> s ∈ ["THYAO.IS"; "FAIL.IS"; "GARAN.IS"]) /\
    (forall s, never_data Scenario.env_ok s "1y" "1d" -> s ∉ map Ticker rows).
Proof.
  destruct (download_multiple_tickers Scenario.env_ok
              ["THYAO.IS"; "FAIL.IS"; "GARAN.IS"] "1y" "1d" 1 Scenario.ready)
    as [[results|e] w1] eqn:Hrun; [|vm_compute in Hrun; discriminate].
  destruct (report_rows_are_the_results Scenario.env_ok
              ["THYAO.IS"; "FAIL.IS"; "GARAN.IS"] "1y" "1d" 1 Scenario.ready
              results w1 eq_refl Hrun) as (rows & w2 & Hrep).
  - vm_compute in Hrun. injection Hrun as <- _. intros item Hitem.
    rewrite !elem_of_cons in Hitem.
    destruct Hitem as [->|[->|Hitem]]; [split; reflexivity ..|inversion Hitem].
  - vm_compute in Hrun. injection Hrun as _ <-. vm_compute. eauto.
  - vm_compute in Hrun. injection Hrun as _ <-. vm_compute. reflexivity.
  - exists results, w1, rows, w2. split; [reflexivity|exact Hrep].
Defined.

Lemma validate_data_leaves_record (data : DataFrame) (ticker : string) (w : World) :
  exists passed w' record,
    validate_data data ticker w = (Return passed, w') /\
    validation_records (trace w')
    = validation_records (trace w) ++ record /\
    record <> [].
Proof.
  destruct (Frame.empty data) eqn:He.
  { rewrite validate_data_empty by exact He. eexists _, _, [_].
    split; [reflexivity|]. unfold logged. trace_steps. split; [reflexivity|easy]. }
  destruct (decide (missing_columns data = [])) as [Hm|Hm].
  2:{ rewrite validate_data_missing by assumption. eexists _, _, [_].
      split; [reflexivity|]. unfold logged. trace_steps.
      split; [reflexivity|easy]. }
  destruct (validate_data_close data ticker w He Hm) as (close & _ & ->).
  destruct (Frame.any_le_0 close).
  - eexists _, _, [_]. split; [reflexivity|]. unfold logged. trace_steps.
    split; [reflexivity|easy].
  - destruct (0 <? Frame.isnull_sum_sum data)%nat.
    + eexists _, _, [_; _]. split; [reflexivity|]. unfold logged. trace_steps.
      rewrite <- app_assoc. split; [reflexivity|easy].
    + eexists _, _, [_]. split; [reflexivity|]. unfold logged. trace_steps.
      split; [reflexivity|easy].
Qed.




(** C8, as stated, fails: when the write of the artifact of [THYAO.IS] breaks
    after one row, the attempt returns [None], yet the next scan of the data
    directory yields [THYAO.IS] where the scan before yielded nothing. *)
Lemma failed_write_is_visible :
  ~ failed_attempt_invisible Scenario.env_disk_fails "THYAO.IS" "1y" "1d"
      Scenario.ready.
Proof.
  intros H.
  destruct (download_ticker_data Scenario.env_disk_fails "THYAO.IS" "1y" "1d"
              Scenario.ready) as [r w'] eqn:Hrun.
  assert (Hr : r = Return None).
  { apply (f_equal fst) in Hrun. vm_compute in Hrun. now rewrite <- Hrun. }
  assert (Hin : "THYAO.IS" ∈ scan_files (listing w')).
  { apply (f_equal snd) in Hrun. simpl in Hrun. rewrite <- Hrun.
    apply elem_of_scan_files. exists "THYAO_1y_1d.csv".
    split; [vm_compute; constructor|split; reflexivity]. }
  assert (Hbefore : listing Scenario.ready = []) by (vm_compute; reflexivity).
  subst r.
  specialize (H w' _ _ Hrun (get_existing_tickers_run _)
                (get_existing_tickers_run _)).
  rewrite H, Hbefore in Hin. revert Hin. apply not_elem_of_empty.
Qed.

(** C8, amended. The artifact is written straight under its final name:
    the one [to_csv] of a download names the artifact itself, and no other
    name is written or renamed. A write that breaks after [k] rows is caught:
    the attempt returns [None], but the first [k] rows stay in the data
    directory under the artifact name, and the next scan attributes that file
    to the symbol its name encodes. A write that fails before the file is
    opened leaves the files as they were. *)
Theorem failed_write_leaves_partial_artifact (env : Env)
    (ticker period interval : string) (w : World)
    (data : DataFrame) (files : gmap string File) (rows_written : option nat) :
  history env (length (fetch_calls (trace w))) ticker period interval = inr data ->
  Frame.empty data = false ->
  fs w !! data_dir = Some files ->
  disk env (length (write_calls (trace w))) data_dir
       (filename ticker period interval) = WriteFails rows_written ->
  exists w' existing,
    download_ticker_data env ticker period interval w = (Return None, w') /\
    write_calls (trace w')
    = write_calls (trace w) ++ [(data_dir, filename ticker period interval)] /\
    get_existing_tickers w' = (Return existing, w') /\
    match rows_written with
    | Some k =>
        fs w' !! data_dir
        = Some (<[filename ticker period interval :=
                    CsvTable (Frame.take_rows k (Frame.set_Ticker data ticker))]>
                  files) /\
        ticker_name (filename ticker period interval) ∈ existing
    | None => fs w' = fs w
    end.
Proof.
  intros Hh He Hdir Hdisk.
  destruct (download_ticker_data_run env ticker period interval w)
    as (r & w' & Hrun & _ & _ & Hw & Hout).
  unfold outcome in Hw, Hout. rewrite Hh, He in Hw, Hout.
  cbv zeta in Hout. rewrite Hdir, Hdisk in Hout.
  exists w', (scan_files (listing w')).
  destruct rows_written as [k|]; destruct Hout as [-> Hfs];
    (split; [exact Hrun|]); (split; [exact Hw|]);
    (split; [apply get_existing_tickers_run|]); [|exact Hfs].
  assert (Hfiles : fs w' !! data_dir
                   = Some (<[filename ticker period interval :=
                               CsvTable (Frame.take_rows k
                                           (Frame.set_Ticker data ticker))]>
                             files)).
  { rewrite Hfs. apply lookup_insert_eq. }
  split; [exact Hfiles|].
  apply elem_of_scan_files. exists (filename ticker period interval).
  split; [|split; [apply filename_endswith_csv|reflexivity]].
  unfold listing. rewrite Hfiles. apply elem_of_elements, elem_of_dom.
  rewrite lookup_insert_eq. eauto.
Qed.

Lemma failed_write_leaves_partial_artifact_witness :
  exists w' existing,
    download_ticker_data Scenario.env_disk_fails "THYAO.IS" "1y" "1d"
      Scenario.ready = (Return None, w') /\
    write_calls (trace w')
    = write_calls (trace Scenario.ready)
      ++ [(data_dir, filename "THYAO.IS" "1y" "1d")] /\
    get_existing_tickers w' = (Return existing, w') /\
    fs w' !! data_dir
    = Some (<[filename "THYAO.IS" "1y" "1d" :=
                CsvTable (Frame.take_rows 1
                            (Frame.set_Ticker Scenario.table_ok "THYAO.IS"))]>
              ∅) /\
    ticker_name (filename "THYAO.IS" "1y" "1d") ∈ existing.
Proof.
  apply (failed_write_leaves_partial_artifact Scenario.env_disk_fails
           "THYAO.IS" "1y" "1d" Scenario.ready Scenario.table_ok ∅ (Some 1));
    reflexivity.
Defined.

Example partial_artifact_hides_ticker :
  ticker_name (filename "THYAO.IS" "1y" "1d") = "THYAO.IS" /\
  Frame.take_rows 1 (Frame.set_Ticker Scenario.table_ok "THYAO.IS")
  <> Frame.set_Ticker Scenario.table_ok "THYAO.IS".
Proof. split; [reflexivity|discriminate]. Qed.

(** * Further properties of the code *)

(** ** The loop of the batch, one step at a time *)

(** One turn of the loop: the attempt always returns; the pause follows when
    the ticker is not the last, and a negative delay raises there. *)
Lemma download_loop_cons env n i ticker rest period interval delay results w :
  exists r w2,
    download_ticker_data env ticker period interval
      (logged w INFO (MsgProcessing (i + 1) n ticker)) = (Return r, w2) /\
    download_loop env n i (ticker :: rest) period interval delay results w
    = let results1 := match r with
                      | Some data => PyDict.set results ticker data
                      | None => results
                      end in
      if (Z.of_nat i <? Z.of_nat n - 1)%Z then
        if Qle_bool 0 delay
        then download_loop env n (S i) rest period interval delay results1
               (slept w2 delay)
        else (Raise ValueError, w2)
      else download_loop env n (S i) rest period interval delay results1 w2.
Proof.
  destruct (download_ticker_data_run env ticker period interval
              (logged w INFO (MsgProcessing (i + 1) n ticker)))
    as (r & w2 & Hrun & _).
  exists r, w2. split; [exact Hrun|].
  cbn [download_loop]. unfold logger_info. rewrite run_bind, run_emit.
  fold (logged w INFO (MsgProcessing (i + 1) n ticker)).
  rewrite run_bind, Hrun. cbv zeta. rewrite run_bind.
  destruct (Z.of_nat i <? Z.of_nat n - 1)%Z; [|reflexivity].
  unfold time_sleep. destruct (Qle_bool 0 delay); reflexivity.
Qed.

Lemma pace_app (tr1 tr2 : list Event) : pace (tr1 ++ tr2) = pace tr1 ++ pace tr2.
Proof. unfold pace. apply List.filter_app. Qed.

Lemma is_last_index (i n : nat) (rest : list string) :
  i + S (length rest) = n ->
  (Z.of_nat i <? Z.of_nat n - 1)%Z = negb (bool_decide (rest = [])).
Proof.
  intros <-. destruct rest as [|t rest]; simpl length.
  - rewrite bool_decide_eq_true_2 by reflexivity. apply Z.ltb_ge. lia.
  - rewrite bool_decide_eq_false_2 by discriminate. apply Z.ltb_lt. lia.
Qed.

(** What one attempt adds to the provider calls and pauses of the trace. *)
Lemma download_ticker_data_pace env ticker period interval w r w' :
  download_ticker_data env ticker period interval w = (Return r, w') ->
  pace (trace w') = pace (trace w) ++ [EvHistory ticker period interval].
Proof.
  unfold download_ticker_data, try_except, logger_info, logger_warning,
    logger_error.
  rewrite run_bind, run_emit, run_bind. unfold Ticker_history. cbn [trace fs].
  destruct (history env _ ticker period interval) as [e|data].
  - run_steps. intros [= _ <-]. cbn [trace]. rewrite !pace_app. simpl.
    now rewrite !app_nil_r.
  - destruct (Frame.empty data).
    + run_steps. intros [= _ <-]. cbn [trace]. rewrite !pace_app. simpl.
      now rewrite !app_nil_r.
    + cbv zeta. rewrite run_bind. unfold to_csv. cbn [trace fs].
      destruct (fs w !! data_dir) as [files|];
        [destruct (disk env _ data_dir _) as [|[k|]]|];
        run_steps; intros [= _ <-]; cbn [trace]; rewrite !pace_app; simpl;
        now rewrite !app_nil_r.
Qed.

Lemma download_loop_pace env n i tickers period interval delay results w :
  Qle_bool 0 delay = true ->
  i + length tickers = n ->
  exists results' w',
    download_loop env n i tickers period interval delay results w
    = (Return results', w') /\
    pace (trace w') = pace (trace w) ++ paced tickers period interval delay.
Proof.
  intros Hd. revert i results w.
  induction tickers as [|t rest IH]; intros i results w Hn.
  - exists results, w. cbn [download_loop paced]. now rewrite run_ret, app_nil_r.
  - destruct (download_loop_cons env n i t rest period interval delay results w)
      as (r & w2 & Hone & ->).
    apply download_ticker_data_pace in Hone.
    unfold logged in Hone. cbn [trace] in Hone. rewrite pace_app in Hone.
    simpl in Hone. rewrite app_nil_r in Hone.
    cbv zeta. rewrite Hd. simpl length in Hn.
    rewrite (is_last_index i n rest Hn).
    destruct rest as [|t' rest'].
    + rewrite bool_decide_eq_true_2 by reflexivity. simpl negb. cbv iota.
      cbn [download_loop paced]. rewrite run_ret. do 2 eexists.
      split; [reflexivity|exact Hone].
    + rewrite bool_decide_eq_false_2 by discriminate. simpl negb. cbv iota.
      destruct (IH (S i) (match r with
                          | Some data => PyDict.set results t data
                          | None => results
                          end) (slept w2 delay)) as (results' & w' & Hloop & Hp).
      { simpl length in *. lia. }
      exists results', w'. split; [exact Hloop|].
      rewrite Hp. unfold slept. cbn [trace]. rewrite pace_app, Hone.
      simpl. rewrite <- !app_assoc. reflexivity.
Qed.

Lemma pauses_app (tr1 tr2 : list Event) :
  pauses (tr1 ++ tr2) = pauses tr1 ++ pauses tr2.
Proof. unfold pauses. apply omap_app. Qed.

Lemma pauses_pace (tr : list Event) : pauses (pace tr) = pauses tr.
Proof.
  induction tr as [|ev tr IH]; [reflexivity|].
  destruct ev; simpl; rewrite ?IH; reflexivity.
Qed.

Lemma fetch_calls_pace (tr : list Event) : fetch_calls (pace tr) = fetch_calls tr.
Proof.
  induction tr as [|ev tr IH]; [reflexivity|].
  destruct ev; simpl; rewrite ?IH; reflexivity.
Qed.

Lemma pauses_paced tickers period interval delay :
  pauses (paced tickers period interval delay)
  = repeat delay (length tickers - 1).
Proof.
  induction tickers as [|t rest IH]; [reflexivity|].
  destruct rest as [|t' rest']; [reflexivity|].
  change (pauses (paced (t :: t' :: rest') period interval delay))
    with (delay :: pauses (paced (t' :: rest') period interval delay)).
  rewrite IH. simpl. now rewrite Nat.sub_0_r.
Qed.

(** X1. Pacing of the batch. With a non-negative delay,
    [download_multiple_tickers] calls the provider once per ticker, in
    order, and pauses for [delay] between two consecutive calls and nowhere
    else: there are [len(tickers) - 1] pauses, none before the first call
    and none after the last. *)
Theorem batch_is_paced (env : Env) (tickers : list string)
    (period interval : string) (delay : Q) (w : World) :
  Qle_bool 0 delay = true ->
  exists results w',
    download_multiple_tickers env tickers period interval delay w
    = (Return results, w') /\
    pace (trace w') = pace (trace w) ++ paced tickers period interval delay /\
    pauses (trace w') = pauses (trace w) ++ repeat delay (length tickers - 1).
Proof.
  intros Hd. unfold download_multiple_tickers.
  destruct (download_loop_pace env (length tickers) 0 tickers period interval
              delay [] w Hd eq_refl) as (results & w' & Hrun & Hp).
  exists results, w'. split; [exact Hrun|]. split; [exact Hp|].
  rewrite <- (pauses_pace (trace w')), Hp, pauses_app, pauses_pace.
  now rewrite pauses_paced.
Qed.

Lemma batch_is_paced_witness :
  exists results w',
    download_multiple_tickers Scenario.env_ok ["THYAO.IS"; "FAIL.IS"; "GARAN.IS"]
      "1y" "1d" 1 Scenario.ready = (Return results, w') /\
    pace (trace w')
    = pace (trace Scenario.ready)
      ++ [EvHistory "THYAO.IS" "1y" "1d"; EvSleep 1;
          EvHistory "FAIL.IS" "1y" "1d"; EvSleep 1;
          EvHistory "GARAN.IS" "1y" "1d"] /\
    pauses (trace w') = pauses (trace Scenario.ready) ++ [1%Q; 1%Q].
Proof.
  apply (batch_is_paced Scenario.env_ok ["THYAO.IS"; "FAIL.IS"; "GARAN.IS"]
           "1y" "1d" 1 Scenario.ready).
  reflexivity.
Defined.

(** X2. A negative delay aborts a batch of two or more tickers: the first
    ticker is attempted (and persisted, if the provider has rows), then
    [time.sleep] raises [ValueError] out of the batch and no other ticker is
    fetched. A batch of one ticker never pauses, so it returns whatever the
    delay. *)
Theorem negative_delay_aborts_batch (env : Env) (t1 t2 : string)
    (rest : list string) (period interval : string) (delay : Q) (w : World) :
  Qle_bool 0 delay = false ->
  (exists w',
     download_multiple_tickers env (t1 :: t2 :: rest) period interval delay w
     = (Raise ValueError, w') /\
     fetch_calls (trace w') = fetch_calls (trace w) ++ [t1] /\
     pauses (trace w') = pauses (trace w)) /\
  (exists results w',
     download_multiple_tickers env [t1] period interval delay w
     = (Return results, w') /\
     fetch_calls (trace w') = fetch_calls (trace w) ++ [t1]).
Proof.
  intros Hd. unfold download_multiple_tickers. split.
  - destruct (download_loop_cons env (length (t1 :: t2 :: rest)) 0 t1
                (t2 :: rest) period interval delay [] w)
      as (r & w2 & Hone & ->).
    cbv zeta. rewrite Hd.
    replace (Z.of_nat 0 <? Z.of_nat (length (t1 :: t2 :: rest)) - 1)%Z
      with true by (symmetry; apply Z.ltb_lt; simpl length; lia).
    exists w2. split; [reflexivity|].
    pose proof (download_ticker_data_pace _ _ _ _ _ _ _ Hone) as Hp.
    unfold logged in Hp. cbn [trace] in Hp. rewrite pace_app in Hp.
    simpl in Hp. rewrite app_nil_r in Hp. split.
    + rewrite <- (fetch_calls_pace (trace w2)), Hp, fetch_calls_app.
      now rewrite fetch_calls_pace.
    + rewrite <- (pauses_pace (trace w2)), Hp, pauses_app, pauses_pace.
      simpl. now rewrite app_nil_r.
  - destruct (download_loop_cons env (length [t1]) 0 t1 [] period interval
                delay [] w) as (r & w2 & Hone & ->).
    cbv zeta. simpl. rewrite run_ret. do 2 eexists. split; [reflexivity|].
    pose proof (download_ticker_data_pace _ _ _ _ _ _ _ Hone) as Hp.
    unfold logged in Hp. cbn [trace] in Hp. rewrite pace_app in Hp.
    simpl in Hp. rewrite app_nil_r in Hp.
    rewrite <- (fetch_calls_pace (trace w2)), Hp, fetch_calls_app.
    now rewrite fetch_calls_pace.
Qed.

Lemma negative_delay_aborts_batch_witness :
  (exists w',
     download_multiple_tickers Scenario.env_ok ["THYAO.IS"; "GARAN.IS"]
       "1y" "1d" (-1) Scenario.ready = (Raise ValueError, w') /\
     fetch_calls (trace w') = fetch_calls (trace Scenario.ready) ++ ["THYAO.IS"] /\
     pauses (trace w') = pauses (trace Scenario.ready)) /\
  (exists results w',
     download_multiple_tickers Scenario.env_ok ["THYAO.IS"] "1y" "1d" (-1)
       Scenario.ready = (Return results, w') /\
     fetch_calls (trace w') = fetch_calls (trace Scenario.ready) ++ ["THYAO.IS"]).
Proof.
  apply (negative_delay_aborts_batch Scenario.env_ok "THYAO.IS" "GARAN.IS" []
           "1y" "1d" (-1) Scenario.ready).
  reflexivity.
Defined.

(** ** What the code leaves on disk *)

Lemma stable_weaken (R1 R2 : World -> World -> Prop) {A} (m : M A) :
  (forall w w', R1 w w' -> R2 w w') -> stable R1 m -> stable R2 m.
Proof. intros H Hm w. apply H, Hm. Qed.

Lemma files_kept_refl w : files_kept w w.
Proof. intros name H. exact H. Qed.
Lemma files_kept_trans w1 w2 w3 :
  files_kept w1 w2 -> files_kept w2 w3 -> files_kept w1 w3.
Proof. unfold files_kept. auto. Qed.
Lemma same_data_refl w : same_data w w.
Proof. reflexivity. Qed.
Lemma same_data_trans w1 w2 w3 :
  same_data w1 w2 -> same_data w2 w3 -> same_data w1 w3.
Proof. unfold same_data. congruence. Qed.
Lemma untouched_outside_refl names w : untouched_outside names w w.
Proof. repeat split; auto. Qed.
Lemma untouched_outside_trans names w1 w2 w3 :
  untouched_outside names w1 w2 -> untouched_outside names w2 w3 ->
  untouched_outside names w1 w3.
Proof.
  intros (Hd1 & Hf1 & Hk1) (Hd2 & Hf2 & Hk2). repeat split.
  - intros H. apply Hd1, Hd2, H.
  - intros H. apply Hd2, Hd1, H.
  - intros dir name H Hlog. rewrite Hf2, Hf1; auto.
  - auto.
Qed.

Lemma same_files_files_kept w w' : same_files w w' -> files_kept w w'.
Proof. unfold same_files, files_kept, listing. now intros ->. Qed.
Lemma same_files_same_data w w' : same_files w w' -> same_data w w'.
Proof. unfold same_files, same_data. now intros ->. Qed.
Lemma same_files_untouched names w w' :
  same_files w w' -> untouched_outside names w w'.
Proof.
  unfold same_files, untouched_outside, file_at. intros ->. repeat split; auto.
Qed.
Lemma same_files_same_but_log w w' : same_files w w' -> same_but_log w w'.
Proof.
  unfold same_files, same_but_log, file_at. intros ->. repeat split; auto.
Qed.

Lemma history_same_files env ticker period interval :
  stable same_files (Ticker_history env ticker period interval).
Proof.
  intros w. unfold Ticker_history.
  now destruct (history env _ ticker period interval).
Qed.

Lemma files_kept_of_same_files {A} (m : M A) :
  stable same_files m -> stable files_kept m.
Proof. apply stable_weaken, same_files_files_kept. Qed.
Lemma same_data_of_same_files {A} (m : M A) :
  stable same_files m -> stable same_data m.
Proof. apply stable_weaken, same_files_same_data. Qed.
Lemma untouched_of_same_files names {A} (m : M A) :
  stable same_files m -> stable (untouched_outside names) m.
Proof. apply stable_weaken, same_files_untouched. Qed.

Lemma listing_insert_kept (w w' : World) files dir name content :
  fs w !! dir = Some files ->
  fs w' = <[dir := <[name := content]> files]> (fs w) ->
  files_kept w w'.
Proof.
  intros Hdir Hfs name' Hin. unfold listing in *. rewrite Hfs.
  destruct (decide (dir = data_dir)) as [->|Hne].
  - rewrite lookup_insert_eq. rewrite Hdir in Hin.
    apply elem_of_elements. apply elem_of_elements in Hin.
    rewrite dom_insert. set_solver.
  - rewrite lookup_insert_ne by exact Hne. exact Hin.
Qed.

Lemma to_csv_files_kept env content dir name :
  stable files_kept (to_csv env content dir name).
Proof.
  intros w. unfold to_csv.
  destruct (fs w !! dir) as [files|] eqn:Hdir;
    [destruct (disk env _ dir name) as [|[k|]]|]; cbn [snd];
    try (apply same_files_files_kept; reflexivity);
    eapply listing_insert_kept; eauto.
Qed.

Lemma to_csv_same_data env content dir name :
  dir <> data_dir -> stable same_data (to_csv env content dir name).
Proof.
  intros Hne w. unfold to_csv, same_data.
  destruct (fs w !! dir) as [files|] eqn:Hdir;
    [destruct (disk env _ dir name) as [|[k|]]|]; cbn [snd fs];
    rewrite ?lookup_insert_ne by exact Hne; reflexivity.
Qed.

Lemma insert_untouched names (w w' : World) files name content :
  name ∈ names ->
  fs w !! data_dir = Some files ->
  fs w' = <[data_dir := <[name := content]> files]> (fs w) ->
  untouched_outside names w w'.
Proof.
  intros Hin Hdir Hfs. unfold untouched_outside, file_at. rewrite Hfs.
  repeat split.
  - intros H. destruct (decide (data_dir = dir)) as [<-|Hne]; [eauto|].
    now rewrite lookup_insert_ne in H.
  - intros H. destruct (decide (data_dir = dir)) as [<-|Hne].
    + rewrite lookup_insert_eq. eauto.
    + now rewrite lookup_insert_ne.
  - intros dir name' Hout _. destruct (decide (data_dir = dir)) as [<-|Hne].
    + rewrite lookup_insert_eq, Hdir.
      destruct Hout as [Hout|Hout]; [contradiction|].
      apply lookup_insert_ne. intros ->. contradiction.
    + now rewrite lookup_insert_ne.
  - intros dir name' H. destruct (decide (data_dir = dir)) as [<-|Hne].
    + rewrite lookup_insert_eq. rewrite Hdir in H.
      destruct (decide (name = name')) as [<-|Hne'].
      * rewrite lookup_insert_eq. eauto.
      * now rewrite lookup_insert_ne.
    + now rewrite lookup_insert_ne.
Qed.

Lemma to_csv_untouched env names content name :
  name ∈ names ->
  stable (untouched_outside names) (to_csv env content data_dir name).
Proof.
  intros Hin w. unfold to_csv.
  destruct (fs w !! data_dir) as [files|] eqn:Hdir;
    [destruct (disk env _ data_dir name) as [|[k|]]|]; cbn [snd];
    try (apply same_files_untouched; reflexivity);
    eapply insert_untouched; eauto.
Qed.

Lemma makedirs_files_kept dir : stable files_kept (os_makedirs dir).
Proof.
  intros w. unfold os_makedirs.
  destruct (fs w !! dir) as [files|] eqn:Hdir; cbn [snd].
  - apply files_kept_refl.
  - intros name Hin. unfold listing in *. cbn [fs].
    destruct (decide (dir = data_dir)) as [->|Hne].
    + rewrite Hdir in Hin. inversion Hin.
    + now rewrite lookup_insert_ne.
Qed.

#[global] Hint Resolve files_kept_refl files_kept_trans same_data_refl
  same_data_trans untouched_outside_refl untouched_outside_trans
  history_same_files to_csv_files_kept to_csv_same_data to_csv_untouched
  makedirs_files_kept : views.

#[global] Hint Resolve files_kept_of_same_files same_data_of_same_files
  untouched_of_same_files | 10 : views.

Lemma download_ticker_data_files_kept env ticker period interval :
  stable files_kept (download_ticker_data env ticker period interval).
Proof.
  unfold download_ticker_data, logger_info, logger_warning, logger_error.
  stable_auto.
Qed.

Lemma download_ticker_data_untouched env names ticker period interval :
  filename ticker period interval ∈ names ->
  stable (untouched_outside names)
         (download_ticker_data env ticker period interval).
Proof.
  intros Hin.
  unfold download_ticker_data, logger_info, logger_warning, logger_error.
  stable_auto.
Qed.

Lemma download_loop_stable (R : World -> World -> Prop) env n period interval delay
    (ok : string -> Prop) :
  (forall w, R w w) ->
  (forall w1 w2 w3, R w1 w2 -> R w2 w3 -> R w1 w3) ->
  (forall w w', same_files w w' -> R w w') ->
  (forall ticker, ok ticker ->
     stable R (download_ticker_data env ticker period interval)) ->
  forall tickers i results,
    Forall ok tickers ->
    stable R (download_loop env n i tickers period interval delay results).
Proof.
  intros Hrefl Htrans Hsame Hone tickers.
  induction tickers as [|t rest IH]; intros i results Hok; cbn [download_loop].
  - now apply stable_ret.
  - inversion Hok as [|? ? Ht Hrest]; subst.
    apply stable_bind; [exact Htrans| |intros ?].
    { apply (stable_weaken same_files R); [exact Hsame|apply emit_same_files]. }
    apply stable_bind; [exact Htrans| |intros r]; [now apply Hone|].
    cbv zeta. apply stable_bind; [exact Htrans| |intros ?].
    + apply stable_if; [|now apply stable_ret].
      apply (stable_weaken same_files R); [exact Hsame|apply sleep_same_files].
    + now apply IH.
Qed.

Lemma summary_loop_same_files items summary_data :
  stable same_files (summary_loop items summary_data).
Proof.
  revert summary_data.
  induction items as [|[ticker data] rest IH]; intros summary_data;
    cbn [summary_loop].
  - stable_auto.
  - destruct (negb (Frame.empty data)); [|apply IH].
    repeat (apply stable_bind; [eauto with views| |intros ?]);
      auto with views.
Qed.

Lemma generate_summary_report_same_data env results :
  stable same_data (generate_summary_report env results).
Proof.
  unfold generate_summary_report, logger_info.
  apply stable_bind; [eauto with views| |intros ?].
  - apply same_data_of_same_files, summary_loop_same_files.
  - cbv zeta. stable_auto.
Qed.

Lemma same_data_files_kept w w' : same_data w w' -> files_kept w w'.
Proof. unfold same_data, files_kept, listing. now intros ->. Qed.

Lemma main_files_kept env cfg : stable files_kept (main env cfg).
Proof.
  unfold main, get_existing_tickers, get_new_tickers_to_download,
    get_existing_tickers, _ensure_directories, download_multiple_tickers.
  apply stable_try; [eauto with views ..| |intros ?; stable_auto].
  apply stable_bind; [eauto with views| |intros ?]; [stable_auto|].
  apply stable_bind; [eauto with views| |intros new_tickers]; [stable_auto|].
  apply stable_if; [stable_auto|].
  apply stable_bind; [eauto with views| |intros ?]; [stable_auto|].
  apply stable_bind; [eauto with views| |intros results].
  { apply (download_loop_stable files_kept env _ _ _ _ (fun _ => True)
             files_kept_refl files_kept_trans same_files_files_kept).
    - intros. apply download_ticker_data_files_kept.
    - apply Forall_forall. auto. }
  apply stable_bind; [eauto with views| |intros ?].
  { apply display_results_stable; eauto with views. }
  apply stable_bind; [eauto with views| |intros ?]; [|stable_auto].
  apply stable_if; [|stable_auto].
  apply stable_bind; [eauto with views| |intros ?]; [|stable_auto].
  apply (stable_weaken same_data files_kept);
    [apply same_data_files_kept|apply generate_summary_report_same_data].
Qed.

(** ** The dict the batch returns *)

Lemma download_ticker_data_inv env ticker period interval w r w' :
  download_ticker_data env ticker period interval w = (Return r, w') ->
  match outcome (history env (length (fetch_calls (trace w)))
                   ticker period interval) with
  | Ok data =>
      let tagged := Frame.set_Ticker data ticker in
      let name := filename ticker period interval in
      match fs w !! data_dir with
      | None => r = None /\ fs w' = fs w
      | Some files =>
          match disk env (length (write_calls (trace w))) data_dir name with
          | WriteOk =>
              r = Some tagged /\
              fs w' = <[data_dir := <[name := CsvTable tagged]> files]> (fs w)
          | WriteFails None => r = None /\ fs w' = fs w
          | WriteFails (Some k) =>
              r = None /\
              fs w' = <[data_dir :=
                          <[name := CsvTable (Frame.take_rows k tagged)]> files]>
                        (fs w)
          end
      end
  | _ => r = None /\ fs w' = fs w
  end.
Proof.
  intros H.
  destruct (download_ticker_data_run env ticker period interval w)
    as (r0 & w0 & Hrun & _ & _ & _ & Hout).
  rewrite Hrun in H. injection H as <- <-. exact Hout.
Qed.

Lemma download_ticker_data_some env ticker period interval w data w' :
  download_ticker_data env ticker period interval w = (Return (Some data), w') ->
  entry_of env period interval (ticker, data) /\
  file_at w' data_dir (filename ticker period interval) = Some (CsvTable data).
Proof.
  intros H. apply download_ticker_data_inv in H. unfold outcome in H.
  destruct (history env _ ticker period interval) as [e|d] eqn:Hh;
    [destruct H; discriminate|].
  destruct (Frame.empty d) eqn:He; [destruct H; discriminate|].
  cbv zeta in H. destruct (fs w !! data_dir) as [files|];
    [destruct (disk env _ data_dir _) as [|[k|]]|];
    destruct H as [Hr Hfs]; try discriminate.
  injection Hr as ->. split.
  - exists (length (fetch_calls (trace w))), d. auto.
  - unfold file_at. rewrite Hfs, lookup_insert_eq. apply lookup_insert_eq.
Qed.

Lemma dict_set_keys (d : Dict) key value :
  PyDict.keys (PyDict.set d key value)
  = if bool_decide (key ∈ PyDict.keys d) then PyDict.keys d
    else PyDict.keys d ++ [key].
Proof.
  unfold PyDict.keys. induction d as [|[k v] d IH]; cbn [PyDict.set map fst].
  - rewrite bool_decide_eq_false_2; [reflexivity|]. intros H. inversion H.
  - destruct (String.eqb k key) eqn:E.
    + apply String.eqb_eq in E. subst. cbn [map fst].
      rewrite bool_decide_eq_true_2 by left. reflexivity.
    + apply String.eqb_neq in E. cbn [map fst]. rewrite IH.
      destruct (decide (key ∈ map fst d)) as [Hin|Hin].
      * rewrite !bool_decide_eq_true_2; [reflexivity| |exact Hin].
        now right.
      * rewrite !bool_decide_eq_false_2; [reflexivity| |exact Hin].
        intros H. apply elem_of_cons in H as [->|H]; contradiction.
Qed.

Lemma dict_set_NoDup (d : Dict) key value :
  NoDup (PyDict.keys d) -> NoDup (PyDict.keys (PyDict.set d key value)).
Proof.
  intros H. rewrite dict_set_keys. case_bool_decide as Hin; [exact H|].
  apply NoDup_app. split; [exact H|]. split.
  - intros x Hx Hk. apply list_elem_of_singleton in Hk. subst. contradiction.
  - apply NoDup_singleton.
Qed.

Lemma dict_set_Forall_items (P : string * DataFrame -> Prop) (d : Dict) key value :
  P (key, value) -> Forall P d -> Forall P (PyDict.set d key value).
Proof.
  intros Hv. induction 1 as [|[k v] d Hk Hd IH]; simpl.
  - repeat constructor. exact Hv.
  - destruct (String.eqb k key) eqn:E; constructor; auto.
    apply String.eqb_eq in E. now subst.
Qed.

Lemma download_loop_entries env n i tickers period interval delay results w
    results' w' :
  download_loop env n i tickers period interval delay results w
  = (Return results', w') ->
  Forall (entry_of env period interval) results ->
  NoDup (PyDict.keys results) ->
  Forall (entry_of env period interval) results' /\
  NoDup (PyDict.keys results') /\
  (forall key, key ∈ PyDict.keys results' ->
               key ∈ PyDict.keys results \/ key ∈ tickers).
Proof.
  revert i results w.
  induction tickers as [|t rest IH]; intros i results w Hrun Hall Hnd.
  - cbn [download_loop] in Hrun. rewrite run_ret in Hrun.
    injection Hrun as <- _. auto.
  - destruct (download_loop_cons env n i t rest period interval delay results w)
      as (r & w2 & Hone & Heq).
    rewrite Heq in Hrun. cbv zeta in Hrun.
    set (results1 := match r with
                     | Some data => PyDict.set results t data
                     | None => results
                     end) in *.
    assert (Hall1 : Forall (entry_of env period interval) results1).
    { subst results1. destruct r as [data|]; [|exact Hall].
      apply dict_set_Forall_items; [|exact Hall].
      now apply download_ticker_data_some in Hone as [? _]. }
    assert (Hnd1 : NoDup (PyDict.keys results1)).
    { subst results1. destruct r as [data|]; [|exact Hnd].
      now apply dict_set_NoDup. }
    assert (Hkeys1 : forall key, key ∈ PyDict.keys results1 ->
                                 key ∈ PyDict.keys results \/ key = t).
    { subst results1. intros key H. destruct r as [data|]; [|now left].
      rewrite dict_set_keys in H. case_bool_decide; [now left|].
      apply elem_of_app in H as [H|H]; [now left|].
      apply list_elem_of_singleton in H. now right. }
    assert (Hstep : forall w3,
      download_loop env n (S i) rest period interval delay results1 w3
      = (Return results', w') ->
      Forall (entry_of env period interval) results' /\
      NoDup (PyDict.keys results') /\
      (forall key, key ∈ PyDict.keys results' ->
                   key ∈ PyDict.keys results \/ key ∈ t :: rest)).
    { intros w3 H3. destruct (IH _ _ _ H3 Hall1 Hnd1) as (Ha & Hn & Hk).
      split; [exact Ha|]. split; [exact Hn|].
      intros key Hkey. destruct (Hk key Hkey) as [H|H]; [|right; now right].
      destruct (Hkeys1 key H) as [H'| ->]; [now left|right; now left]. }
    destruct (Z.of_nat i <? Z.of_nat n - 1)%Z;
      [destruct (Qle_bool 0 delay); [|discriminate]|]; eauto.
Qed.

(** X3. The dict [download_multiple_tickers] returns: no key twice, every
    key an attempted ticker, and under each key the table the provider
    returned for that ticker, non-empty, with the ticker in its ['Ticker']
    column. *)
Theorem results_hold_tagged_tables (env : Env) (tickers : list string)
    (period interval : string) (delay : Q) (w : World)
    (results : Dict) (w' : World) :
  download_multiple_tickers env tickers period interval delay w
  = (Return results, w') ->
  NoDup (PyDict.keys results) /\
  (forall key data, (key, data) ∈ results ->
     key ∈ tickers /\
     ticker_column data = Some key /\
     Frame.empty data = false /\
     exists n provided,
       history env n key period interval = inr provided /\
       index data = index provided /\ columns data = columns provided).
Proof.
  intros Hrun. unfold download_multiple_tickers in Hrun.
  destruct (download_loop_entries _ _ _ _ _ _ _ _ _ _ _ Hrun)
    as (Hall & Hnd & Hkeys); [constructor|constructor|].
  split; [exact Hnd|]. intros key data Hin.
  rewrite Forall_forall in Hall.
  destruct (Hall _ Hin) as (k & provided & Hh & He & Hd). cbn [fst snd] in *.
  subst data. split.
  - destruct (Hkeys key) as [H|H]; [|inversion H|exact H].
    unfold PyDict.keys. apply list_elem_of_In, List.in_map_iff.
    exists (key, Frame.set_Ticker provided key).
    split; [reflexivity|now apply list_elem_of_In].
  - repeat split; [now apply set_Ticker_not_empty|]. eauto.
Qed.

Lemma results_hold_tagged_tables_witness :
  exists results w',
    download_multiple_tickers Scenario.env_ok ["THYAO.IS"; "FAIL.IS"; "THYAO.IS"]
      "1y" "1d" 1 Scenario.ready = (Return results, w') /\
    NoDup (PyDict.keys results) /\
    (forall key data, (key, data) ∈ results ->
       key ∈ ["THYAO.IS"; "FAIL.IS"; "THYAO.IS"] /\
       ticker_column data = Some key /\
       Frame.empty data = false /\
       exists n provided,
         history Scenario.env_ok n key "1y" "1d" = inr provided /\
         index data = index provided /\ columns data = columns provided).
Proof.
  destruct (download_multiple_tickers Scenario.env_ok
              ["THYAO.IS"; "FAIL.IS"; "THYAO.IS"] "1y" "1d" 1 Scenario.ready)
    as [[results|e] w'] eqn:Hrun; [|vm_compute in Hrun; discriminate].
  exists results, w'. split; [reflexivity|].
  exact (results_hold_tagged_tables _ _ _ _ _ _ _ _ Hrun).
Defined.


(** X5. [main] never raises: it returns [True] or [False]; and whatever it
    returns, every file listed in the data directory before the run is still
    listed after it. *)
Theorem main_returns_and_keeps_files (env : Env) (cfg : Config) (w : World) :
  exists ok w',
    main env cfg w = (Return ok, w') /\
    forall name, name ∈ listing w -> name ∈ listing w'.
Proof.
  pose proof (main_files_kept env cfg w) as Hkept.
  unfold main, try_except in *.
  match goal with
  | |- context [ match ?body w with _ => _ end ] =>
      destruct (body w) as [[ok|e] w']
  end; do 2 eexists; (split; [reflexivity|exact Hkept]).
Qed.

(** ** Resuming *)

Lemma listing_same_fs (w w' : World) : fs w' = fs w -> listing w' = listing w.
Proof. unfold listing. now intros ->. Qed.

Lemma download_loop_files env n i tickers period interval delay results w
    results' w' :
  download_loop env n i tickers period interval delay results w
  = (Return results', w') ->
  is_Some (fs w !! data_dir) ->
  forall s, s ∈ tickers -> always_data env s period interval ->
            filename s period interval ∈ listing w'.
Proof.
  revert i results w.
  induction tickers as [|t rest IH]; intros i results w Hrun Hdir s Hs Hall.
  - inversion Hs.
  - destruct (download_loop_cons env n i t rest period interval delay results w)
      as (r & w2 & Hone & Heq).
    rewrite Heq in Hrun. cbv zeta in Hrun.
    set (results1 := match r with
                     | Some data => PyDict.set results t data
                     | None => results
                     end) in *.
    assert (Hdir2 : is_Some (fs w2 !! data_dir)).
    { pose proof (download_ticker_data_untouched env
                    [filename t period interval] t period interval
                    ltac:(constructor)
                    (logged w INFO (MsgProcessing (i + 1) n t))) as (Hd & _).
      rewrite Hone in Hd. cbn [snd] in Hd. apply Hd. exact Hdir. }
    assert (Hstep : forall w3,
      fs w3 = fs w2 ->
      download_loop env n (S i) rest period interval delay results1 w3
      = (Return results', w') ->
      filename s period interval ∈ listing w').
    { intros w3 Hfs3 H3.
      apply elem_of_cons in Hs as [->|Hs].
      - assert (Hkept : files_kept w3 w').
        { pose proof (download_loop_stable files_kept env n period interval
                        delay (fun _ => True) files_kept_refl files_kept_trans
                        same_files_files_kept
                        (fun t _ => download_ticker_data_files_kept env t
                                      period interval)
                        rest (S i) results1
                        ltac:(apply Forall_forall; auto) w3) as Hk.
          now rewrite H3 in Hk. }
        apply Hkept. rewrite (listing_same_fs w2 w3 Hfs3).
        apply download_ticker_data_inv in Hone.
        destruct Hall as [Hok Hdisk].
        specialize (Hok (length (fetch_calls
                                   (trace (logged w INFO
                                             (MsgProcessing (i + 1) n t)))))).
        unfold no_data in Hok.
        destruct (outcome _); [|discriminate ..].
        cbv zeta in Hone. change (fs (logged w INFO _)) with (fs w) in Hone.
        destruct Hdir as [files Hfiles]. rewrite Hfiles, Hdisk in Hone.
        destruct Hone as [_ Hfs2]. unfold listing. rewrite Hfs2.
        rewrite lookup_insert_eq. apply elem_of_elements, elem_of_dom.
        rewrite lookup_insert_eq. eauto.
      - apply (IH (S i) results1 w3 H3); [|exact Hs|exact Hall].
        now rewrite Hfs3. }
    destruct (Z.of_nat i <? Z.of_nat n - 1)%Z;
      [destruct (Qle_bool 0 delay); [|discriminate]|].
    + apply (Hstep (slept w2 delay)); [reflexivity|exact Hrun].
    + apply (Hstep w2); [reflexivity|exact Hrun].
Qed.

Lemma scan_files_kept (w w' : World) (s : string) :
  files_kept w w' -> s ∈ scan_files (listing w) -> s ∈ scan_files (listing w').
Proof.
  intros Hk Hs. apply elem_of_scan_files in Hs as (file & Hin & Hcsv & ->).
  apply elem_of_scan_files. exists file. auto.
Qed.

(** A run with nothing to download. *)
Lemma main_nothing_new env cfg w :
  (forall ticker, ticker ∈ BIST_TICKERS cfg ->
                  ticker ∈ scan_files (listing w)) ->
  main env cfg w = (Return true, w).
Proof.
  intros Hall. unfold main, try_except.
  rewrite run_bind, get_existing_tickers_run.
  rewrite run_bind, get_new_tickers_to_download_run.
  assert (Hnil : List.filter
                   (fun ticker => bool_decide (ticker ∉ scan_files (listing w)))
                   (BIST_TICKERS cfg) = []).
  { destruct (List.filter _ (BIST_TICKERS cfg)) as [|t l] eqn:Hf; [reflexivity|].
    assert (Hin : In t (List.filter
                          (fun ticker => bool_decide
                                           (ticker ∉ scan_files (listing w)))
                          (BIST_TICKERS cfg))) by (rewrite Hf; now left).
    apply List.filter_In in Hin as [Hin Hnot].
    apply bool_decide_eq_true in Hnot. exfalso. apply Hnot, Hall.
    now apply list_elem_of_In. }
  rewrite Hnil. reflexivity.
Qed.

(** The world a run with something to download leaves: the artifacts the
    batch wrote are still listed. *)
Lemma main_after_batch env cfg w :
  Qle_bool 0 (default 1%Q (delay_between_requests cfg)) = true ->
  let new_tickers :=
    List.filter (fun ticker => bool_decide (ticker ∉ scan_files (listing w)))
                (BIST_TICKERS cfg) in
  new_tickers <> [] ->
  forall s, s ∈ new_tickers ->
            always_data env s (period cfg) (interval cfg) ->
            filename s (period cfg) (interval cfg)
            ∈ listing (snd (main env cfg w)).
Proof.
  intros Hd new_tickers Hnil s Hs Hall. unfold main, try_except.
  rewrite run_bind, get_existing_tickers_run.
  rewrite run_bind, get_new_tickers_to_download_run.
  fold new_tickers. rewrite bool_decide_eq_false_2 by exact Hnil.
  rewrite run_bind.
  destruct (ensure_directories_run w) as (w1 & H1 & _ & Hdir1). rewrite H1.
  rewrite run_bind. unfold download_multiple_tickers.
  destruct (download_loop_run env (length new_tickers) 0 new_tickers
              (period cfg) (interval cfg)
              (default 1%Q (delay_between_requests cfg)) [] w1 Hd)
    as (results & w2 & Hloop & _).
  rewrite Hloop.
  pose proof (download_loop_files _ _ _ _ _ _ _ _ _ _ _ Hloop Hdir1 s Hs Hall)
    as Hfile.
  match goal with
  | |- context [ (?m ≫= ?f) w2 ] =>
      set (rest := m ≫= f); assert (Hk : stable files_kept rest);
      [subst rest|]
  end.
  { apply stable_bind; [eauto with views| |intros ?].
    { apply display_results_stable; eauto with views. }
    apply stable_bind; [eauto with views| |intros ?]; [|stable_auto].
    apply stable_if; [|stable_auto].
    apply stable_bind; [eauto with views| |intros ?]; [|stable_auto].
    apply (stable_weaken same_data files_kept);
      [apply same_data_files_kept|apply generate_summary_report_same_data]. }
  specialize (Hk w2).
  destruct (rest w2) as [[b|e] w3]; cbn [snd] in *; now apply Hk.
Qed.



(** X7. The scan only ever yields names that end in ['.IS'] and have no
    underscore. So a configured ticker that does not end in ['.IS'], or has
    an underscore in it, is never found in the inventory, whatever is on
    disk: every run (non-negative delay) fetches it again, and it is still
    missing after the run. *)
Theorem odd_ticker_is_fetched_every_run (env : Env) (cfg : Config) (w : World)
    (ticker : string) :
  Qle_bool 0 (default 1%Q (delay_between_requests cfg)) = true ->
  ticker ∈ BIST_TICKERS cfg ->
  PyStr.endswith ticker ".IS" = false \/ PyStr.count_underscore ticker <> 0 ->
  (forall w0 existing,
     get_existing_tickers w0 = (Return existing, w0) -> ticker ∉ existing) /\
  exists fetched new_tickers,
    fetch_calls (trace (snd (main env cfg w))) = fetch_calls (trace w) ++ fetched /\
    ticker ∈ fetched /\
    get_new_tickers_to_download cfg (snd (main env cfg w))
    = (Return new_tickers, snd (main env cfg w)) /\
    ticker ∈ new_tickers.
Proof.
  intros Hd Hin Hodd.
  assert (Hnever : forall w0, ticker ∉ scan_files (listing w0)).
  { intros w0 H. apply scanned_name_shape in H as [He Hu].
    destruct Hodd as [Ho|Ho]; [congruence|contradiction]. }
  assert (Hnew : forall w0,
    ticker ∈ List.filter
               (fun t => bool_decide (t ∉ scan_files (listing w0)))
               (BIST_TICKERS cfg)).
  { intros w0. apply list_elem_of_In, List.filter_In. split.
    - now apply list_elem_of_In.
    - apply bool_decide_eq_true, Hnever. }
  split.
  - intros w0 existing H. rewrite get_existing_tickers_run in H.
    injection H as <-. apply Hnever.
  - do 2 eexists. split; [now apply main_fetch_calls|].
    split; [apply Hnew|].
    split; [apply get_new_tickers_to_download_run|apply Hnew].
Qed.

Lemma odd_ticker_is_fetched_every_run_witness :
  let cfg := {| BIST_TICKERS := ["XU100"; "THYAO.IS"]; period := "1y";
                interval := "1d"; delay_between_requests := None |} in
  (forall w0 existing,
     get_existing_tickers w0 = (Return existing, w0) -> "XU100" ∉ existing) /\
  exists fetched new_tickers,
    fetch_calls (trace (snd (main Scenario.env_ok cfg Scenario.resumed)))
    = fetch_calls (trace Scenario.resumed) ++ fetched /\
    "XU100" ∈ fetched /\
    get_new_tickers_to_download cfg
      (snd (main Scenario.env_ok cfg Scenario.resumed))
    = (Return new_tickers, snd (main Scenario.env_ok cfg Scenario.resumed)) /\
    "XU100" ∈ new_tickers.
Proof.
  intros cfg.
  apply (odd_ticker_is_fetched_every_run Scenario.env_ok cfg Scenario.resumed
           "XU100"); [reflexivity|constructor|left; reflexivity].
Defined.

(** X8. When the scan already yields every configured ticker (in
    particular when no ticker is configured), [main] returns [True] at once:
    it creates no directory, calls the provider for nothing, writes no file
    and no log record. *)
Theorem nothing_missing_is_a_noop (env : Env) (cfg : Config) (w : World)
    (existing : gset string) :
  get_existing_tickers w = (Return existing, w) ->
  (forall ticker, ticker ∈ BIST_TICKERS cfg -> ticker ∈ existing) ->
  main env cfg w = (Return true, w).
Proof.
  intros Hscan Hall. rewrite get_existing_tickers_run in Hscan.
  injection Hscan as <-. now apply main_nothing_new.
Qed.

Lemma nothing_missing_is_a_noop_witness :
  main Scenario.env_ok
    {| BIST_TICKERS := ["THYAO.IS"]; period := "1y"; interval := "1d";
       delay_between_requests := None |} Scenario.resumed
  = (Return true, Scenario.resumed).
Proof.
  apply (nothing_missing_is_a_noop Scenario.env_ok _ Scenario.resumed
           (scan_files (listing Scenario.resumed)));
    [apply get_existing_tickers_run|].
  intros t Ht. apply list_elem_of_singleton in Ht. subst.
  apply elem_of_scan_files. exists "THYAO_1y_1d.csv".
  split; [vm_compute; constructor|split; reflexivity].
Defined.

(** ** More on the summary report *)

Lemma lookup_column_None (col : string) (data : DataFrame) :
  Frame.lookup_column col (columns data) = None <->
  Frame.has_column col data = false.
Proof.
  split.
  - intros H. destruct (Frame.has_column col data) eqn:Hc; [|reflexivity].
    apply has_column_lookup in Hc as [cells Hc]. congruence.
  - intros H. destruct (Frame.lookup_column col (columns data)) eqn:Hc;
      [|reflexivity].
    apply lookup_has_column in Hc. congruence.
Qed.

Lemma summary_loop_key_error (items : Dict) (summary_data : list SummaryRow)
    (w : World) :
  Exists (fun item => Frame.has_column "Close" (snd item) = false \/
                      Frame.has_column "Volume" (snd item) = false)
         (reported items) ->
  exists key w',
    summary_loop items summary_data w = (Raise (KeyError key), w') /\
    (key = "Close" \/ key = "Volume") /\
    fs w' = fs w /\
    write_calls (trace w') = write_calls (trace w).
Proof.
  revert summary_data w.
  induction items as [|[ticker data] rest IH]; intros summary_data w Hbad.
  - inversion Hbad.
  - cbn [summary_loop]. unfold reported in *. cbn [List.filter snd] in Hbad.
    destruct (Frame.empty data) eqn:He; cbn [negb] in *; [now apply IH|].
    unfold getitem.
    destruct (Frame.lookup_column "Close" (columns data)) as [close|] eqn:Hc.
    2:{ exists "Close", w. run_steps. unfold raise. auto. }
    destruct (Frame.lookup_column "Volume" (columns data)) as [volume|] eqn:Hv.
    2:{ exists "Volume", w. run_steps. unfold raise. auto. }
    run_steps.
    destruct (validate_data_verdict data ticker) as [passed Hpassed].
    destruct (Hpassed w) as (w1 & Hrun & Hfs1 & _ & Hw1). rewrite Hrun.
    apply Exists_cons in Hbad as [[Hbad|Hbad]|Hbad]; cbn [snd] in Hbad.
    + apply lookup_has_column in Hc. congruence.
    + apply lookup_has_column in Hv. congruence.
    + destruct (IH (summary_data ++
           [{| Ticker := ticker;
               Records := Frame.len data;
               Start_Date := Frame.index_min (index data);
               End_Date := Frame.index_max (index data);
               Min_Close := Frame.series_min close;
               Max_Close := Frame.series_max close;
               Avg_Volume := Frame.series_mean volume;
               Data_Quality := if passed then "Valid" else "Issues" |}]) w1 Hbad)
        as (key & w' & Hloop & Hkey & Hfs & Hw).
      exists key, w'. split; [exact Hloop|]. split; [exact Hkey|].
      split; congruence.
Qed.

(** X9. One table without a close or a volume column aborts the whole report:
    when some non-empty table of [results] lacks ['Close'] or ['Volume'],
    [generate_summary_report] raises [KeyError] for that column. No report
    is written, also for the tables that came before: [to_csv] is not
    called, no directory appears or goes away, and every file is as it was,
    but for the log file, which has the validation records of the tables
    before. *)
Theorem report_needs_close_and_volume (env : Env) (results : Dict) (w : World)
    (ticker : string) (data : DataFrame) :
  (ticker, data) ∈ results ->
  Frame.empty data = false ->
  Frame.has_column "Close" data = false \/
  Frame.has_column "Volume" data = false ->
  exists key w',
    generate_summary_report env results w = (Raise (KeyError key), w') /\
    (key = "Close" \/ key = "Volume") /\
    same_but_log w w' /\
    write_calls (trace w') = write_calls (trace w).
Proof.
  intros Hin He Hbad.
  destruct (summary_loop_key_error results [] w)
    as (key & w' & Hloop & Hkey & Hfs & Hw).
  { apply Exists_exists. exists (ticker, data). split; [|exact Hbad].
    unfold reported. apply list_elem_of_In, List.filter_In.
    split; [now apply list_elem_of_In|]. cbn [snd]. now rewrite He. }
  exists key, w'. unfold generate_summary_report.
  rewrite run_bind, Hloop.
  split; [reflexivity|]. split; [exact Hkey|].
  split; [now apply same_files_same_but_log|exact Hw].
Qed.

Lemma report_needs_close_and_volume_witness :
  exists key w',
    generate_summary_report Scenario.env_ok
      [("THYAO.IS", Frame.set_Ticker Scenario.table_ok "THYAO.IS");
       ("BAD.IS", Frame.set_Ticker Scenario.table_no_volume "BAD.IS")]
      Scenario.ready = (Raise (KeyError key), w') /\
    (key = "Close" \/ key = "Volume") /\
    same_but_log Scenario.ready w' /\
    write_calls (trace w') = write_calls (trace Scenario.ready).
Proof.
  apply (report_needs_close_and_volume Scenario.env_ok _ Scenario.ready
           "BAD.IS" (Frame.set_Ticker Scenario.table_no_volume "BAD.IS"));
    [right; left|reflexivity|right; reflexivity].
Defined.

Lemma summary_loop_same_writes items summary_data :
  stable same_writes (summary_loop items summary_data).
Proof.
  revert summary_data.
  induction items as [|[ticker data] rest IH]; intros summary_data;
    cbn [summary_loop].
  - stable_auto.
  - destruct (negb (Frame.empty data)); [|apply IH].
    repeat (apply stable_bind; [eauto with views| |intros ?]);
      auto with views.
Qed.

Lemma to_csv_touches_one env content dir name (w : World) :
  let w' := snd (to_csv env content dir name w) in
  (forall d, is_Some (fs w' !! d) <-> is_Some (fs w !! d)) /\
  (forall d n, (d, n) <> (dir, name) -> file_at w' d n = file_at w d n).
Proof.
  assert (Hins : forall file files,
    fs w !! dir = Some files ->
    (forall d, is_Some (<[dir := <[name := file]> files]> (fs w) !! d)
               <-> is_Some (fs w !! d)) /\
    (forall d n, (d, n) <> (dir, name) ->
       match <[dir := <[name := file]> files]> (fs w) !! d with
       | Some files' => files' !! n
       | None => None
       end
       = match fs w !! d with Some files' => files' !! n | None => None end)).
  { intros file files Hdir. split.
    - intros d. destruct (decide (dir = d)) as [<-|Hne].
      + rewrite lookup_insert_eq, Hdir. split; eauto.
      + now rewrite lookup_insert_ne.
    - intros d n Hne. destruct (decide (dir = d)) as [<-|Hd].
      + rewrite lookup_insert_eq, Hdir. apply lookup_insert_ne.
        intros <-. now apply Hne.
      + now rewrite lookup_insert_ne. }
  unfold to_csv, file_at.
  destruct (fs w !! dir) as [files|] eqn:Hdir;
    [destruct (disk env _ dir name) as [|[k|]]|]; cbn [snd fs]; auto.
Qed.

(** X10. [generate_summary_report] reads only what it is given: it never
    calls the provider and never touches the data directory; it calls
    [to_csv] at most once, for the report [download_summary_<now>.csv] in the
    output directory; and apart from that report and the log file
    [logs/download.log], to which its records and those of [validate_data]
    are appended, no file changes and no directory appears or goes away. *)
Theorem report_leaves_data_alone (env : Env) (results : Dict) (w : World) :
  let w' := snd (generate_summary_report env results w) in
  let report := "download_summary_" +:+ now env +:+ ".csv" in
  fs w' !! data_dir = fs w !! data_dir /\
  fetch_calls (trace w') = fetch_calls (trace w) /\
  (write_calls (trace w') = write_calls (trace w) \/
   write_calls (trace w') = write_calls (trace w) ++ [("output", report)]) /\
  (forall dir, is_Some (fs w' !! dir) <-> is_Some (fs w !! dir)) /\
  (forall dir name,
     (dir, name) <> ("output", report) -> (dir, name) <> log_file ->
     file_at w' dir name = file_at w dir name).
Proof.
  intros w' report. split; [apply generate_summary_report_same_data|].
  split; [apply generate_summary_report_same_fetches|].
  subst w'. unfold generate_summary_report. fold report.
  pose proof (summary_loop_same_writes results [] w) as Hw.
  pose proof (summary_loop_same_files results [] w) as Hfs.
  unfold same_writes in Hw. unfold same_files in Hfs. rewrite run_bind.
  destruct (summary_loop results [] w) as [[rows|e] w1]; cbn [snd] in *.
  2:{ unfold file_at. rewrite Hfs. repeat split; auto. }
  cbv zeta. rewrite run_bind.
  destruct (to_csv_touches_one env (CsvSummary rows) "output" report w1)
    as [Hdirs Hfiles].
  assert (Hcalls : write_calls
                     (trace (snd (to_csv env (CsvSummary rows) "output" report w1)))
                   = write_calls (trace w) ++ [("output", report)]).
  { unfold to_csv.
    destruct (fs w1 !! "output") as [out|];
      [destruct (disk env _ "output" report) as [|[k|]]|];
      cbn [snd trace]; rewrite write_calls_app, Hw; reflexivity. }
  cbv zeta in Hdirs, Hfiles. unfold file_at in Hfiles. unfold file_at.
  destruct (to_csv env (CsvSummary rows) "output" report w1) as [[[]|e] w2];
    cbn [snd] in *.
  - unfold logger_info. run_steps. cbn [snd trace fs].
    rewrite write_calls_log. split; [now right|].
    rewrite <- Hfs. split; [exact Hdirs|]. intros dir name Hne _.
    now apply Hfiles.
  - split; [now right|]. rewrite <- Hfs. split; [exact Hdirs|].
    intros dir name Hne _. now apply Hfiles.
Qed.

(** ** Minimum and maximum *)

Lemma fold_min_le (a : Z) (l : list Z) (z : Z) :
  z ∈ l -> (fold_right Z.min a l <= z)%Z.
Proof.
  induction l as [|x l IH]; intros H; [inversion H|].
  simpl. apply elem_of_cons in H as [->|H].
  - apply Z.le_min_l.
  - etransitivity; [apply Z.le_min_r|now apply IH].
Qed.

Lemma fold_max_ge (a : Z) (l : list Z) (z : Z) :
  z ∈ l -> (z <= fold_right Z.max a l)%Z.
Proof.
  induction l as [|x l IH]; intros H; [inversion H|].
  simpl. apply elem_of_cons in H as [->|H].
  - apply Z.le_max_l.
  - etransitivity; [now apply IH|apply Z.le_max_r].
Qed.

Lemma fold_Qmin_le_init (a : Q) (l : list Q) : (fold_right Qmin a l <= a)%Q.
Proof.
  induction l as [|x l IH]; simpl; [apply Qle_refl|].
  eapply Qle_trans; [apply Q.le_min_r|exact IH].
Qed.

Lemma fold_Qmin_le (a : Q) (l : list Q) (q : Q) :
  q ∈ l -> (fold_right Qmin a l <= q)%Q.
Proof.
  induction l as [|x l IH]; intros H; [inversion H|].
  simpl. apply elem_of_cons in H as [->|H].
  - apply Q.le_min_l.
  - eapply Qle_trans; [apply Q.le_min_r|now apply IH].
Qed.

Lemma fold_Qmax_ge_init (a : Q) (l : list Q) : (a <= fold_right Qmax a l)%Q.
Proof.
  induction l as [|x l IH]; simpl; [apply Qle_refl|].
  eapply Qle_trans; [exact IH|apply Q.le_max_r].
Qed.

Lemma fold_Qmax_ge (a : Q) (l : list Q) (q : Q) :
  q ∈ l -> (q <= fold_right Qmax a l)%Q.
Proof.
  induction l as [|x l IH]; intros H; [inversion H|].
  simpl. apply elem_of_cons in H as [->|H].
  - apply Q.le_max_l.
  - eapply Qle_trans; [now apply IH|apply Q.le_max_r].
Qed.

Lemma series_min_max_bounds (cells : list (option Q)) (q : Q) :
  q ∈ Frame.dropna cells ->
  exists lo hi,
    Frame.series_min cells = Some lo /\ Frame.series_max cells = Some hi /\
    (lo <= q)%Q /\ (q <= hi)%Q.
Proof.
  unfold Frame.series_min, Frame.series_max.
  destruct (Frame.dropna cells) as [|x l]; intros H; [inversion H|].
  do 2 eexists. split; [reflexivity|]. split; [reflexivity|].
  apply elem_of_cons in H as [->|H].
  - split; [apply fold_Qmin_le_init|apply fold_Qmax_ge_init].
  - split; [now apply fold_Qmin_le|now apply fold_Qmax_ge].
Qed.

Lemma classic_columns (results : Dict) :
  (forall item, item ∈ reported results ->
     Frame.has_column "Close" (snd item) = true /\
     Frame.has_column "Volume" (snd item) = true) \/
  Exists (fun item => Frame.has_column "Close" (snd item) = false \/
                      Frame.has_column "Volume" (snd item) = false)
         (reported results).
Proof.
  induction (reported results) as [|item l IH].
  - left. intros item H. inversion H.
  - destruct (Frame.has_column "Close" (snd item)) eqn:Hc;
      [|right; left; now left].
    destruct (Frame.has_column "Volume" (snd item)) eqn:Hv;
      [|right; left; now right].
    destruct IH as [IH|IH]; [left|right; now right].
    intros item' H. apply elem_of_cons in H as [->|H]; auto.
Qed.

(** X11. The rows of a report that was written: row by row they are the
    non-empty tables of [results], in order; each row carries the key of its
    table and the number of its records (at least one), its start and end
    dates bound every timestamp of the table, its minimum and maximum close
    bound every non-null close value, and its quality is ['Valid'] or
    ['Issues']. *)
Theorem report_rows_bound_their_table (env : Env) (results : Dict) (w : World)
    (rows : list SummaryRow) (w' : World) :
  generate_summary_report env results w = (Return rows, w') ->
  Forall2
    (fun item row =>
       Ticker row = fst item /\
       Records row = length (index (snd item)) /\ 1 <= Records row /\
       (forall z, z ∈ index (snd item) ->
                  (Start_Date row <= z)%Z /\ (z <= End_Date row)%Z) /\
       (forall q, q ∈ close_values (snd item) ->
          exists lo hi, Min_Close row = Some lo /\ Max_Close row = Some hi /\
                        (lo <= q)%Q /\ (q <= hi)%Q) /\
       (Data_Quality row = "Valid" \/ Data_Quality row = "Issues"))
    (List.filter (fun item => negb (Frame.empty (snd item))) results) rows.
Proof.
  intros Hrun.
  destruct (classic_columns results) as [Hcols|Hbad].
  2:{ exfalso. destruct (summary_loop_key_error results [] w Hbad)
        as (key & w1 & Hloop & _).
      unfold generate_summary_report in Hrun. rewrite run_bind, Hloop in Hrun.
      discriminate. }
  destruct (summary_loop_run results [] w Hcols)
    as (rows' & w1 & Hloop & Hrows & _).
  assert (rows' = rows) as ->.
  { unfold generate_summary_report in Hrun. rewrite run_bind, Hloop in Hrun.
    cbn [app] in Hrun. cbv zeta in Hrun. rewrite run_bind in Hrun.
    destruct (to_csv env (CsvSummary rows') "output" _ w1) as [[[]|e] w2];
      [|discriminate].
    unfold logger_info in Hrun. rewrite run_bind, run_emit, run_ret in Hrun.
    now injection Hrun as ->. }
  fold (reported results).
  assert (Hne : Forall (fun item => Frame.empty (snd item) = false)
                       (reported results)).
  { apply Forall_forall. intros item Hitem. unfold reported in Hitem.
    apply list_elem_of_In, List.filter_In in Hitem as [_ H].
    now apply negb_true_iff. }
  clear Hrun Hloop Hcols. induction Hrows as [|item row items rows Hrow _ IH];
    [constructor|].
  inversion Hne as [|? ? Hitem Hrest]; subst.
  constructor; [|now apply IH].
  destruct Hrow as (Ht & Hr & Hs & He & (close & Hc & Hmin & Hmax) & _ & Hq).
  split; [exact Ht|]. split; [exact Hr|].
  unfold Frame.empty in Hitem. apply orb_false_iff in Hitem as [Hix _].
  apply Nat.eqb_neq in Hix.
  split; [rewrite Hr; unfold Frame.len; lia|]. split.
  { intros z Hz. rewrite Hs, He. unfold Frame.index_min, Frame.index_max.
    split; [now apply fold_min_le|now apply fold_max_ge]. }
  split.
  { intros q Hin. unfold close_values in Hin. rewrite Hc in Hin.
    rewrite Hmin, Hmax. now apply series_min_max_bounds. }
  destruct (Hq w) as (passed & w2 & _ & ->). destruct passed; auto.
Qed.

Lemma report_rows_bound_their_table_witness :
  exists rows w',
    generate_summary_report Scenario.env_ok
      [("EMPTY.IS", Scenario.table_empty);
       ("THYAO.IS", Frame.set_Ticker Scenario.table_null_cell "THYAO.IS")]
      Scenario.ready = (Return rows, w') /\
    Forall2
      (fun item row =>
         Ticker row = fst item /\
         Records row = length (index (snd item)) /\ 1 <= Records row /\
         (forall z, z ∈ index (snd item) ->
                    (Start_Date row <= z)%Z /\ (z <= End_Date row)%Z) /\
         (forall q, q ∈ close_values (snd item) ->
            exists lo hi, Min_Close row = Some lo /\ Max_Close row = Some hi /\
                          (lo <= q)%Q /\ (q <= hi)%Q) /\
         (Data_Quality row = "Valid" \/ Data_Quality row = "Issues"))
      (List.filter (fun item => negb (Frame.empty (snd item)))
         [("EMPTY.IS", Scenario.table_empty);
          ("THYAO.IS", Frame.set_Ticker Scenario.table_null_cell "THYAO.IS")])
      rows.
Proof.
  destruct (generate_summary_report Scenario.env_ok
              [("EMPTY.IS", Scenario.table_empty);
               ("THYAO.IS", Frame.set_Ticker Scenario.table_null_cell "THYAO.IS")]
              Scenario.ready) as [[rows|e] w'] eqn:Hrun;
    [|vm_compute in Hrun; discriminate].
  exists rows, w'. split; [reflexivity|].
  exact (report_rows_bound_their_table _ _ _ _ _ Hrun).
Defined.

(** ** More on the validator *)

Lemma validate_data_fst (data : DataFrame) (ticker : string) (w : World) :
  fst (validate_data data ticker w) = Return (verdict data).
Proof.
  unfold verdict. destruct (Frame.empty data) eqn:He.
  { now rewrite validate_data_empty. }
  destruct (decide (missing_columns data = [])) as [Hm|Hm].
  2:{ rewrite validate_data_missing by assumption.
      now rewrite bool_decide_eq_false_2. }
  destruct (validate_data_close data ticker w He Hm) as (close & -> & ->).
  rewrite bool_decide_eq_true_2 by exact Hm. cbn [default negb andb].
  unfold id. now destruct (Frame.any_le_0 close).
Qed.

Lemma verdict_set_Ticker (data : DataFrame) (ticker : string) :
  verdict (Frame.set_Ticker data ticker) = verdict data.
Proof.
  unfold verdict.
  change (missing_columns (Frame.set_Ticker data ticker))
    with (missing_columns data).
  change (columns (Frame.set_Ticker data ticker)) with (columns data).
  destruct (Frame.empty (Frame.set_Ticker data ticker)) eqn:Ht;
    destruct (Frame.empty data) eqn:He; try reflexivity.
  - unfold Frame.empty, Frame.ncols in *. cbn [index columns ticker_column
      Frame.set_Ticker] in Ht.
    apply orb_true_iff in Ht as [Ht|Ht]; [now rewrite Ht in He|].
    apply Nat.eqb_eq in Ht. lia.
  - unfold Frame.empty, Frame.ncols in *. cbn [index columns ticker_column
      Frame.set_Ticker] in Ht.
    apply orb_false_iff in Ht as [Ht _]. rewrite Ht in He. cbn [orb] in He.
    apply Nat.eqb_eq in He.
    assert (Hcols : columns data = []).
    { destruct (columns data); [reflexivity|simpl in He; lia]. }
    assert (Hm : missing_columns data <> []).
    { unfold missing_columns, Frame.has_column. rewrite Hcols. discriminate. }
    rewrite bool_decide_eq_false_2 by exact Hm. reflexivity.
Qed.

Lemma validate_data_trace (data : DataFrame) (ticker : string) (w : World) :
  exists records,
    trace (snd (validate_data data ticker w)) = trace w ++ log_events records /\
    1 <= length records <= 2.
Proof.
  destruct (Frame.empty data) eqn:He.
  { rewrite validate_data_empty by exact He.
    exists [(WARNING, MsgDataEmpty ticker)]. split; [reflexivity|simpl; lia]. }
  destruct (decide (missing_columns data = [])) as [Hm|Hm].
  2:{ rewrite validate_data_missing by assumption.
      exists [(WARNING, MsgMissingColumns ticker (missing_columns data))].
      split; [reflexivity|simpl; lia]. }
  destruct (validate_data_close data ticker w He Hm) as (close & _ & ->).
  destruct (Frame.any_le_0 close).
  - exists [(WARNING, MsgInvalidClose ticker)]. split; [reflexivity|simpl; lia].
  - destruct (0 <? Frame.isnull_sum_sum data)%nat.
    + exists [(WARNING, MsgMissingValues (Frame.isnull_sum_sum data) ticker);
              (INFO, MsgValidationPassed ticker)].
      split; [|simpl; lia]. cbn [snd logged trace log_events map fst].
      now rewrite <- app_assoc.
    + exists [(INFO, MsgValidationPassed ticker)].
      split; [reflexivity|simpl; lia].
Qed.

(** X12. The verdict of [validate_data] is a function of the index and the
    numeric columns of the table alone: it does not depend on the ticker
    passed for logging, on the world, or on the ['Ticker'] column the
    downloader adds. And validating only logs: all it does is hand one or
    two records to the logger; it makes no provider call and no write, and
    but for the log file, to which the records are appended, no file
    changes. *)
Theorem validate_data_reads_the_table_only (data : DataFrame) :
  exists passed,
    forall ticker tag w,
      fst (validate_data data ticker w) = Return passed /\
      fst (validate_data (Frame.set_Ticker data tag) ticker w) = Return passed /\
      (exists records,
         trace (snd (validate_data data ticker w)) = trace w ++ log_events records /\
         1 <= length records <= 2) /\
      same_but_log w (snd (validate_data data ticker w)) /\
      fetch_calls (trace (snd (validate_data data ticker w)))
      = fetch_calls (trace w) /\
      write_calls (trace (snd (validate_data data ticker w)))
      = write_calls (trace w).
Proof.
  exists (verdict data). intros ticker tag w.
  split; [apply validate_data_fst|].
  split; [rewrite validate_data_fst; now rewrite verdict_set_Ticker|].
  split; [apply validate_data_trace|].
  split; [apply same_files_same_but_log, validate_data_same_files|].
  split; [apply validate_data_same_fetches|apply validate_data_same_writes].
Qed.

(** ** The progress check *)

Lemma existing_files_run (w : World) :
  CheckProgress.existing_files w
  = (Return (List.filter (fun f => PyStr.endswith f ".csv") (listing w)), w).
Proof.
  unfold CheckProgress.existing_files, listing, os_path_exists, os_listdir.
  rewrite run_bind. destruct (fs w !! data_dir) as [files|] eqn:Hd.
  - rewrite bool_decide_eq_true_2 by eauto. rewrite run_bind, Hd. reflexivity.
  - rewrite bool_decide_eq_false_2 by (intros [? ?]; discriminate). reflexivity.
Qed.

Lemma size_list_to_set_le (l : list string) :
  size (list_to_set l : gset string) <= length l.
Proof.
  induction l as [|x l IH]; [reflexivity|].
  cbn [list_to_set foldr length]. rewrite size_union_alt, size_singleton.
  assert (Hsub : (list_to_set l : gset string) ∖ {[x]} ⊆ list_to_set l).
  { intros y Hy. now apply elem_of_difference in Hy as [Hy _]. }
  apply subseteq_size in Hsub. lia.
Qed.

(** X13. The counts of [check_download_progress]. With no ticker
    configured the percentage divides by zero and the check fails. Otherwise
    [total] is the length of the configured list, [downloaded] the size of
    the scanned set and [missing] the number of configured tickers outside
    it; [missing] never exceeds [total], the two counts together cover the
    distinct configured tickers, and they add up to [total] when the
    configured list has no duplicates and every scanned name is a configured
    ticker. *)
Theorem progress_counts (cfg : Config) (w : World) :
  (BIST_TICKERS cfg = [] ->
   check_download_progress cfg w = (Return (inl ZeroDivisionError), w) /\
   check_progress_main cfg w = (Return false, w)) /\
  (BIST_TICKERS cfg <> [] ->
   exists p existing,
     check_download_progress cfg w = (Return (inr p), w) /\
     check_progress_main cfg w = (Return true, w) /\
     get_existing_tickers w = (Return existing, w) /\
     total p = length (BIST_TICKERS cfg) /\
     downloaded p = size existing /\
     missing p = size (list_to_set (BIST_TICKERS cfg) ∖ existing) /\
     missing p <= total p /\
     size (list_to_set (BIST_TICKERS cfg) : gset string)
     <= downloaded p + missing p /\
     (NoDup (BIST_TICKERS cfg) ->
      (forall s, s ∈ existing -> s ∈ BIST_TICKERS cfg) ->
      downloaded p + missing p = total p)).
Proof.
  unfold check_progress_main, try_except, check_download_progress.
  rewrite !run_bind, existing_files_run, downloaded_tickers_scan. cbv zeta.
  split.
  - intros ->. cbn [length Nat.eqb]. rewrite !run_ret. auto.
  - intros Hne.
    destruct (length (BIST_TICKERS cfg) =? 0)%nat eqn:Hlen.
    { apply Nat.eqb_eq in Hlen. destruct (BIST_TICKERS cfg);
        [contradiction|discriminate]. }
    rewrite !run_ret. do 2 eexists.
    split; [reflexivity|]. split; [reflexivity|].
    split; [apply get_existing_tickers_run|].
    cbn [total downloaded missing].
    split; [reflexivity|]. split; [reflexivity|]. split; [reflexivity|].
    set (U := list_to_set (BIST_TICKERS cfg) : gset string).
    set (D := scan_files (listing w)).
    split.
    { etransitivity; [|apply size_list_to_set_le].
      apply subseteq_size. intros x Hx.
      now apply elem_of_difference in Hx as [Hx _]. }
    split.
    { assert (HU : U ⊆ D ∪ (U ∖ D)).
      { intros x Hx. apply elem_of_union.
        destruct (decide (x ∈ D)); [now left|right].
        now apply elem_of_difference. }
      apply subseteq_size in HU. rewrite size_union in HU; [exact HU|].
      intros x Hx Hy. apply elem_of_difference in Hy as [_ Hy]. contradiction. }
    intros Hnd Hsub.
    assert (HD : D ⊆ U).
    { intros x Hx. apply elem_of_list_to_set. now apply Hsub. }
    rewrite (size_difference U D HD).
    pose proof (subseteq_size D U HD) as Hle.
    pose proof (size_list_to_set (C := gset string) _ Hnd) as HU.
    fold U in HU. lia.
Qed.

(** ** The directories *)

Lemma makedirs_fs (dir : string) (w : World) :
  os_makedirs dir w
  = (Return tt,
     {| fs := match fs w !! dir with
              | Some _ => fs w
              | None => <[dir := ∅]> (fs w)
              end;
        trace := trace w |}).
Proof.
  unfold os_makedirs. destruct (fs w !! dir); [|reflexivity]. now destruct w.
Qed.

(** X14. [_ensure_directories] always succeeds and logs nothing; afterwards
    the data, logs and output directories exist; a directory that existed
    keeps its files, one that did not is created empty, and no other
    directory appears; running it again changes nothing. *)
Theorem ensure_directories_creates_only (w : World) :
  exists w',
    _ensure_directories w = (Return tt, w') /\
    trace w' = trace w /\
    (forall dir files, fs w !! dir = Some files -> fs w' !! dir = Some files) /\
    (forall dir, fs w !! dir = None ->
       fs w' !! dir
       = if bool_decide (dir ∈ [data_dir; "logs"; "output"])
         then Some ∅ else None) /\
    _ensure_directories w' = (Return tt, w').
Proof.
  unfold _ensure_directories.
  rewrite run_bind, makedirs_fs, run_bind, makedirs_fs, makedirs_fs.
  cbn [fs trace]. eexists. split; [reflexivity|]. cbn [fs trace].
  split; [reflexivity|].
  set (fs1 := match fs w !! data_dir with
              | Some _ => fs w
              | None => <[data_dir := ∅]> (fs w)
              end).
  set (fs2 := match fs1 !! "logs" with
              | Some _ => fs1
              | None => <["logs" := ∅]> fs1
              end).
  set (fs3 := match fs2 !! "output" with
              | Some _ => fs2
              | None => <["output" := ∅]> fs2
              end).
  assert (H1 : forall dir, fs1 !! dir
                           = match fs w !! dir with
                             | Some files => Some files
                             | None => if bool_decide (dir = data_dir)
                                       then Some ∅ else None
                             end).
  { intros dir. subst fs1. destruct (fs w !! data_dir) eqn:Hd.
    - destruct (fs w !! dir) eqn:Hdir; [reflexivity|].
      rewrite bool_decide_eq_false_2; [reflexivity|]. intros ->. congruence.
    - destruct (decide (dir = data_dir)) as [->|Hne].
      + rewrite lookup_insert_eq, Hd. now rewrite bool_decide_eq_true_2.
      + rewrite lookup_insert_ne by congruence.
        destruct (fs w !! dir); [reflexivity|].
        now rewrite bool_decide_eq_false_2. }
  assert (H2 : forall dir, fs2 !! dir
                           = match fs1 !! dir with
                             | Some files => Some files
                             | None => if bool_decide (dir = "logs")
                                       then Some ∅ else None
                             end).
  { intros dir. subst fs2. destruct (fs1 !! "logs") eqn:Hd.
    - destruct (fs1 !! dir) eqn:Hdir; [reflexivity|].
      rewrite bool_decide_eq_false_2; [reflexivity|]. intros ->. congruence.
    - destruct (decide (dir = "logs")) as [->|Hne].
      + rewrite lookup_insert_eq, Hd. now rewrite bool_decide_eq_true_2.
      + rewrite lookup_insert_ne by congruence.
        destruct (fs1 !! dir); [reflexivity|].
        now rewrite bool_decide_eq_false_2. }
  assert (H3 : forall dir, fs3 !! dir
                           = match fs2 !! dir with
                             | Some files => Some files
                             | None => if bool_decide (dir = "output")
                                       then Some ∅ else None
                             end).
  { intros dir. subst fs3. destruct (fs2 !! "output") eqn:Hd.
    - destruct (fs2 !! dir) eqn:Hdir; [reflexivity|].
      rewrite bool_decide_eq_false_2; [reflexivity|]. intros ->. congruence.
    - destruct (decide (dir = "output")) as [->|Hne].
      + rewrite lookup_insert_eq, Hd. now rewrite bool_decide_eq_true_2.
      + rewrite lookup_insert_ne by congruence.
        destruct (fs2 !! dir); [reflexivity|].
        now rewrite bool_decide_eq_false_2. }
  split; [|split].
  - intros dir files Hdir. now rewrite H3, H2, H1, Hdir.
  - intros dir Hdir. rewrite H3, H2, H1, Hdir.
    destruct (decide (dir = data_dir)) as [->|Hn1].
    { rewrite (bool_decide_eq_true_2 (data_dir = data_dir)) by reflexivity.
      rewrite bool_decide_eq_true_2; [reflexivity|]. left. }
    rewrite (bool_decide_eq_false_2 (dir = data_dir)) by exact Hn1.
    destruct (decide (dir = "logs")) as [->|Hn2].
    { rewrite (bool_decide_eq_true_2 ("logs" = "logs")) by reflexivity.
      rewrite bool_decide_eq_true_2; [reflexivity|]. right. left. }
    rewrite (bool_decide_eq_false_2 (dir = "logs")) by exact Hn2.
    destruct (decide (dir = "output")) as [->|Hn3].
    { rewrite (bool_decide_eq_true_2 ("output" = "output")) by reflexivity.
      rewrite bool_decide_eq_true_2; [reflexivity|]. right. right. left. }
    rewrite (bool_decide_eq_false_2 (dir = "output")) by exact Hn3.
    rewrite bool_decide_eq_false_2; [reflexivity|].
    rewrite !elem_of_cons. intros [?|[?|[?|H]]]; try contradiction.
    inversion H.
  - rewrite run_bind, makedirs_fs, run_bind, makedirs_fs, makedirs_fs.
    cbn [fs trace].
    assert (Hd : is_Some (fs3 !! data_dir)).
    { rewrite H3, H2, H1. destruct (fs w !! data_dir); [eauto|].
      rewrite bool_decide_eq_true_2 by reflexivity. eauto. }
    assert (Hl : is_Some (fs3 !! "logs")).
    { rewrite H3, H2. destruct (fs1 !! "logs"); [eauto|].
      rewrite bool_decide_eq_true_2 by reflexivity. eauto. }
    assert (Ho : is_Some (fs3 !! "output")).
    { rewrite H3. destruct (fs2 !! "output"); [eauto|].
      rewrite bool_decide_eq_true_2 by reflexivity. eauto. }
    destruct Hd as [? ->]. destruct Hl as [? ->]. destruct Ho as [? ->].
    reflexivity.
Qed.

(** ** The final file count *)

Lemma prefix_split_underscore_0 (s : string) :
  String.prefix (PyStr.split_underscore_0 s) s = true.
Proof.
  induction s as [|c s IH]; [reflexivity|]. simpl.
  destruct (Ascii.eqb c "_"); [reflexivity|]. simpl.
  destruct (ascii_dec c c); [exact IH|contradiction].
Qed.

Lemma str_in_prefix (sub s : string) :
  String.prefix sub s = true -> str_in sub s = true.
Proof. intros H. destruct s; cbn [str_in]; now rewrite H. Qed.

Lemma filter_split_length {A} (p : A -> bool) (l : list A) :
  length (List.filter p l) + length (List.filter (fun x => negb (p x)) l)
  = length l.
Proof.
  induction l as [|x l IH]; [reflexivity|]. simpl.
  destruct (p x); simpl; lia.
Qed.

(** X15. The final file count of [main]. The CSV files of the data directory
    are split in two: each is counted once, as existing or as new. A file is
    counted as existing exactly when the stem of some ticker of the first
    scan occurs somewhere in its name; so every CSV file that was there at
    the first scan (with no ['.IS'] in its prefix) is counted as existing,
    and so is any file of this run whose name merely contains such a
    stem. *)
Theorem final_count_groups_by_substring (existing_tickers : gset string)
    (listdir : list string) :
  let files := data_files listdir in
  length (existing_files existing_tickers files)
  + length (new_files existing_tickers files) = length files /\
  (forall f, f ∈ files ->
     (f ∈ existing_files existing_tickers files <->
      exists ticker, ticker ∈ existing_tickers /\
                     str_in (PyStr.replace_IS ticker) f = true) /\
     (f ∈ new_files existing_tickers files <->
      f ∉ existing_files existing_tickers files)) /\
  (forall listdir0 f,
     existing_tickers = scan_files listdir0 ->
     f ∈ listdir0 -> f ∈ files ->
     PyStr.replace_IS (PyStr.split_underscore_0 f +:+ ".IS")
     = PyStr.split_underscore_0 f ->
     f ∈ existing_files existing_tickers files).
Proof.
  intros files.
  assert (Hex : forall f, f ∈ files ->
    (f ∈ existing_files existing_tickers files <->
     exists ticker, ticker ∈ existing_tickers /\
                    str_in (PyStr.replace_IS ticker) f = true)).
  { intros f Hf. unfold existing_files.
    rewrite list_elem_of_In, List.filter_In, List.existsb_exists. split.
    - intros (_ & ticker & Hin & Hsub). exists ticker.
      split; [|exact Hsub]. now apply elem_of_elements, list_elem_of_In.
    - intros (ticker & Hin & Hsub). split; [now apply list_elem_of_In|].
      exists ticker. split; [|exact Hsub].
      now apply list_elem_of_In, elem_of_elements. }
  assert (Hnew : forall f, f ∈ files ->
    (f ∈ new_files existing_tickers files <->
     f ∉ existing_files existing_tickers files)).
  { intros f Hf. unfold new_files.
    rewrite list_elem_of_In, List.filter_In, bool_decide_eq_true.
    rewrite <- list_elem_of_In. tauto. }
  split; [|split].
  - rewrite <- (filter_split_length
                  (fun f => existsb (fun ticker =>
                                       str_in (PyStr.replace_IS ticker) f)
                                    (elements existing_tickers)) files).
    f_equal. unfold new_files. f_equal. apply List.filter_ext_in.
    intros f Hf. apply list_elem_of_In in Hf.
    destruct (existsb _ (elements existing_tickers)) eqn:Hp; cbn [negb].
    + apply bool_decide_eq_false. intros Hnot. apply Hnot.
      unfold existing_files. apply list_elem_of_In, List.filter_In.
      split; [now apply list_elem_of_In|exact Hp].
    + apply bool_decide_eq_true. intros Hin.
      unfold existing_files in Hin.
      apply list_elem_of_In, List.filter_In in Hin as [_ Hin]. congruence.
  - intros f Hf. split; [now apply Hex|now apply Hnew].
  - intros listdir0 f -> Hin0 Hf Hstem. apply Hex; [exact Hf|].
    exists (ticker_name f). split.
    + apply elem_of_scan_files. exists f. split; [exact Hin0|].
      split; [|reflexivity]. unfold files, data_files in Hf.
      now apply list_elem_of_In, List.filter_In in Hf as [_ Hf].
    + unfold ticker_name. rewrite Hstem.
      apply str_in_prefix, prefix_split_underscore_0.
Qed.

Example new_artifact_counted_as_existing :
  existing_files {[ "ISCTR.IS" ]} (data_files ["ISCTR_1y_1d.csv"; "TISCTR_1y_1d.csv"])
  = ["ISCTR_1y_1d.csv"; "TISCTR_1y_1d.csv"] /\
  new_files {[ "ISCTR.IS" ]} (data_files ["ISCTR_1y_1d.csv"; "TISCTR_1y_1d.csv"])
  = [].
Proof. split; vm_compute; reflexivity. Qed.

(** ** Runs that end badly, and what the inventory keys on *)

Lemma dict_get_elem_of (d : Dict) key value :
  PyDict.get d key = Some value -> (key, value) ∈ d.
Proof.
  induction d as [|[k v] d IH]; simpl; [discriminate|].
  destruct (String.eqb k key) eqn:E.
  - apply String.eqb_eq in E. intros [= ->]. subst. left.
  - intros H. right. now apply IH.
Qed.

Lemma display_results_key_error (new_tickers : list string) (results : Dict)
    (w : World) (ticker : string) (data : DataFrame) :
  ticker ∈ new_tickers ->
  PyDict.get results ticker = Some data ->
  Frame.has_column "Close" data = false \/
  Frame.has_column "Volume" data = false ->
  exists key, display_results new_tickers results w = (Raise (KeyError key), w).
Proof.
  intros Hin Hget Hbad.
  induction new_tickers as [|t rest IH]; [inversion Hin|].
  cbn [display_results].
  destruct (PyDict.get results t) as [d|] eqn:Ht.
  - unfold getitem.
    destruct (Frame.lookup_column "Close" (columns d)) as [close|] eqn:Hc;
      [|eexists; reflexivity].
    destruct (Frame.lookup_column "Volume" (columns d)) as [volume|] eqn:Hv;
      [|eexists; reflexivity].
    run_steps. apply elem_of_cons in Hin as [->|Hin]; [|now apply IH].
    rewrite Hget in Ht. injection Ht as ->.
    apply lookup_has_column in Hc, Hv. destruct Hbad; congruence.
  - apply elem_of_cons in Hin as [->|Hin]; [congruence|now apply IH].
Qed.

(** X16. A run can persist everything and still report failure. Let some
    configured ticker be missing from the inventory, let the provider always
    have rows for it, but never a ['Close'] column, and let the disk accept
    its artifact: with a non-negative delay, [main] writes the artifact and
    then returns [False], because the result display reads ['Close'] of every
    table. *)
Theorem table_without_close_fails_the_run (env : Env) (cfg : Config) (w : World)
    (ticker : string) :
  Qle_bool 0 (default 1%Q (delay_between_requests cfg)) = true ->
  ticker ∈ BIST_TICKERS cfg ->
  (forall existing, get_existing_tickers w = (Return existing, w) ->
                    ticker ∉ existing) ->
  always_data env ticker (period cfg) (interval cfg) ->
  (forall n data, history env n ticker (period cfg) (interval cfg) = inr data ->
                  Frame.has_column "Close" data = false) ->
  exists w',
    main env cfg w = (Return false, w') /\
    ticker ∈ fetch_calls (trace w') /\
    filename ticker (period cfg) (interval cfg) ∈ listing w'.
Proof.
  intros Hd Hin Hout Hall Hclose.
  specialize (Hout _ (get_existing_tickers_run w)).
  set (new_tickers :=
         List.filter (fun t => bool_decide (t ∉ scan_files (listing w)))
                     (BIST_TICKERS cfg)).
  assert (Hnew : ticker ∈ new_tickers).
  { apply list_elem_of_In, List.filter_In. split; [now apply list_elem_of_In|].
    now apply bool_decide_eq_true. }
  assert (Hnil : new_tickers <> []).
  { intros Hnil. rewrite Hnil in Hnew. inversion Hnew. }
  unfold main, try_except.
  rewrite run_bind, get_existing_tickers_run.
  rewrite run_bind, get_new_tickers_to_download_run.
  fold new_tickers. rewrite bool_decide_eq_false_2 by exact Hnil.
  rewrite run_bind.
  destruct (ensure_directories_run w) as (w1 & H1 & Ht1 & Hdir1). rewrite H1.
  rewrite run_bind. unfold download_multiple_tickers.
  destruct (download_loop_run env (length new_tickers) 0 new_tickers
              (period cfg) (interval cfg)
              (default 1%Q (delay_between_requests cfg)) [] w1 Hd)
    as (results & w2 & Hloop & Hf & _ & _ & _ & _ & _ & _ & _ & Halways).
  rewrite Hloop.
  destruct (Halways ticker Hnew Hall Hdir1) as [data Hget].
  destruct (download_loop_entries _ _ _ _ _ _ _ _ _ _ _ Hloop) as (Hent & _);
    [constructor|constructor|].
  rewrite Forall_forall in Hent.
  destruct (Hent _ (dict_get_elem_of _ _ _ Hget)) as (n & d & Hh & _ & Hd').
  cbn [fst snd] in *.
  destruct (display_results_key_error new_tickers results w2 ticker data Hnew Hget)
    as [key Hdisp].
  { left. subst data. exact (Hclose n d Hh). }
  rewrite run_bind, Hdisp. exists w2. split; [reflexivity|]. split.
  - rewrite Hf. apply elem_of_app. now right.
  - exact (download_loop_files _ _ _ _ _ _ _ _ _ _ _ Hloop Hdir1 ticker Hnew Hall).
Qed.

Lemma table_without_close_fails_the_run_witness :
  let no_close := {| index := [20089%Z];
                     columns := [("Open", [Some 10%Q])];
                     ticker_column := None |} in
  let env' := {| history := fun _ _ _ _ => inr no_close;
                 disk := fun _ _ _ => WriteOk; now := "20250101_120000" |} in
  exists w',
    main env' Scenario.cfg Scenario.fresh = (Return false, w') /\
    "GARAN.IS" ∈ fetch_calls (trace w') /\
    filename "GARAN.IS" "1y" "1d" ∈ listing w'.
Proof.
  intros no_close env'.
  apply (table_without_close_fails_the_run env' Scenario.cfg Scenario.fresh
           "GARAN.IS").
  - reflexivity.
  - right. right. left.
  - intros existing H. rewrite get_existing_tickers_run in H.
    injection H as <-. intros Hs.
    apply elem_of_scan_files in Hs as (file & Hfile & _). inversion Hfile.
  - split; intros; reflexivity.
  - intros n data [= <-]. reflexivity.
Defined.

(** X17. The inventory keys on the ticker alone: an artifact of a plain
    [X.IS] ticker for any period and interval makes the scan yield the
    ticker, so a run (non-negative delay) never fetches it, whatever period
    and interval are configured now. *)
Theorem artifact_of_any_period_counts (env : Env) (cfg : Config) (w : World)
    (ticker period' interval' : string) :
  Qle_bool 0 (default 1%Q (delay_between_requests cfg)) = true ->
  plain_ticker ticker ->
  filename ticker period' interval' ∈ listing w ->
  exists existing fetched,
    get_existing_tickers w = (Return existing, w) /\ ticker ∈ existing /\
    fetch_calls (trace (snd (main env cfg w))) = fetch_calls (trace w) ++ fetched /\
    ticker ∉ fetched.
Proof.
  intros Hd (X & -> & Hu & Hr) Hin.
  assert (Hscan : X +:+ ".IS" ∈ scan_files (listing w)).
  { apply elem_of_scan_files. exists (filename (X +:+ ".IS") period' interval').
    split; [exact Hin|]. split; [apply filename_endswith_csv|].
    symmetry. now apply ticker_name_filename. }
  do 2 eexists. split; [apply get_existing_tickers_run|].
  split; [exact Hscan|]. split; [now apply main_fetch_calls|].
  intros Hf. apply list_elem_of_In, List.filter_In in Hf as [_ Hf].
  apply bool_decide_eq_true in Hf. contradiction.
Qed.

Lemma artifact_of_any_period_counts_witness :
  let cfg := {| BIST_TICKERS := ["THYAO.IS"; "GARAN.IS"]; period := "5y";
                interval := "1wk"; delay_between_requests := Some 1%Q |} in
  exists existing fetched,
    get_existing_tickers Scenario.resumed = (Return existing, Scenario.resumed) /\
    "THYAO.IS" ∈ existing /\
    fetch_calls (trace (snd (main Scenario.env_ok cfg Scenario.resumed)))
    = fetch_calls (trace Scenario.resumed) ++ fetched /\
    "THYAO.IS" ∉ fetched.
Proof.
  intros cfg.
  apply (artifact_of_any_period_counts Scenario.env_ok cfg Scenario.resumed
           "THYAO.IS" "1y" "1d").
  - reflexivity.
  - exists "THYAO". repeat split; reflexivity.
  - vm_compute. left.
Defined.
